(** * oq: the list viewport and key handling of the terminal browser

    A shallow embedding of [model.go]: the [Model] record, the filter
    ([filterItems]), the per-item height ([getItemHeight]), the scroll
    recompute ([ensureCursorVisible]), the example-command generator
    ([generateExampleJSON], [generateCurl]) and the event handler
    ([Update]), followed by the properties of the viewport, of the
    navigation state machine and of the double-press gesture.

    Conventions of the embedding.
    - Go's [int] is a 64-bit two's-complement integer: it is a [Z], and
      every [+] and [-] of the source on cursor, offsets and line counts is
      [addi] / [subi], which wrap.  [len] of a slice is its length, which
      is always in range.
    - A slice is a [list]; indexing [xs[i]] is [lookupZ xs i], which is
      [None] when [i] is out of range: the Go runtime panics there.  A
      function that can reach such an index returns an [option], [None]
      being the panic.
    - A Go string is a [string] of bytes.
    - A counting [for] loop is a fold over the [seqZ] of its indices: its
      counter stays at or below the cursor, so the increment does not
      wrap for a cursor below the largest [int].
    - What the program gets from outside this file is a parameter: the
      detail formatters of [view.go] and the text-input widget come in the
      class [Externals]; the clock and the order in which the runtime
      walks a built-in map come with each event, in [Runtime]. *)

From stdpp Require Import gmap strings list fin_maps.
From Stdlib Require Import ZArith Lia.

Local Open Scope Z_scope.

(** ** Integers, slices and strings of Go *)

Definition wrap (z : Z) : Z := (z + 2 ^ 63) `mod` 2 ^ 64 - 2 ^ 63.
Definition addi (a b : Z) : Z := wrap (a + b).
Definition subi (a b : Z) : Z := wrap (a - b).

Definition len {A} (l : list A) : Z := Z.of_nat (length l).

Definition lookupZ {A} (l : list A) (i : Z) : option A :=
  if bool_decide (0 ≤ i) then l !! Z.to_nat i else None.

Definition nl : string := String (Ascii.ascii_of_nat 10) "".
Definition dq : string := String (Ascii.ascii_of_nat 34) "".

(** [strings.Count(s, "\n")] *)
Fixpoint strings_Count_nl (s : string) : Z :=
  match s with
  | EmptyString => 0
  | String c r =>
      (if bool_decide (c = Ascii.ascii_of_nat 10) then 1 else 0) + strings_Count_nl r
  end.

(** [strings.Contains(s, substr)] *)
Fixpoint strings_Contains (s substr : string) : bool :=
  String.prefix substr s ||
  match s with
  | EmptyString => false
  | String _ r => strings_Contains r substr
  end.

(** [strings.Join(elems, sep)] *)
Fixpoint strings_Join (elems : list string) (sep : string) : string :=
  match elems with
  | [] => ""
  | [e] => e
  | e :: r => e +:+ sep +:+ strings_Join r sep
  end.

(** ** time.Time and time.Duration

    A [Time] is a count of nanoseconds since the zero time [time.Time{}];
    a [Duration] is a 64-bit count of nanoseconds and [Time.Sub]
    saturates at its two ends. *)

Definition Time := Z.
Definition zeroTime : Time := 0.

Definition Time_Sub (t u : Time) : Z :=
  Z.max (- 2 ^ 63) (Z.min (2 ^ 63 - 1) (t - u)).

Definition keySequenceThreshold : Z := 500 * 1000000.

Definition scrollHalfScreenLines : Z := 21.

Definition headerApproxLines : Z := 2.
Definition footerApproxLines : Z := 4.
Definition layoutBuffer : Z := 2.

Definition calculateContentHeight (totalHeight : Z) : Z :=
  Z.max 1 (subi (subi (subi totalHeight headerApproxLines) footerApproxLines)
             layoutBuffer).

(** ** The parsed document, as far as this file reads it *)

Local Unset Elimination Schemes.
Inductive Schema : Type := mkSchema {
  s_Example : option string;            (* [%v] of the example, if any *)
  s_Type : list string;
  s_Properties : list (string * option Schema);  (* in document order *)
  s_Items : option (option Schema + bool);       (* [inl]: [IsA], its [A.Schema()] *)
  s_Enum : list string;                 (* [%v] of each value *)
  s_Format : string;
  s_AllOf : list (option Schema)
}.
Local Set Elimination Schemes.

Record MediaType := mkMediaType {
  mt_Schema : option Schema   (* [None]: the proxy or its schema is nil *)
}.

Record RequestBody := mkRequestBody {
  rb_Content : option (gmap string MediaType)
}.

Record Operation := mkOperation {
  Summary : string;
  Description : string;
  op_RequestBody : option RequestBody;
  op_Security : list (list string)   (* the keys of each requirement, in order *)
}.

Record SecurityScheme := mkSecurityScheme {
  ss_Type : string;
  ss_Scheme : string;
  ss_In : string;
  ss_Name : string
}.

Record Document := mkDocument {
  d_Servers : list string;   (* the URL of each server *)
  d_SecuritySchemes : option (gmap string SecurityScheme)
    (* [None]: [Components] or its [SecuritySchemes] is nil *)
}.

(** ** The items and the model *)

Inductive viewMode := viewEndpoints | viewComponents | viewWebhooks.

Record webhook := mkWebhook {
  w_name : string;
  w_method : string;
  w_op : Operation;
  w_folded : bool
}.

Record endpoint := mkEndpoint {
  e_path : string;
  e_method : string;
  e_op : Operation;
  e_folded : bool
}.

Record component := mkComponent {
  c_name : string;
  c_compType : string;
  c_description : string;
  c_details : string;
  c_folded : bool
}.

(** The text-input widget: the query it holds and whether it has focus. *)
Record textinput := mkTextinput {
  ti_value : string;
  ti_focus : bool
}.

Definition ti_Value (ti : textinput) : string := ti_value ti.
Definition ti_SetValue (s : string) (ti : textinput) : textinput :=
  mkTextinput s (ti_focus ti).
Definition ti_Focus (ti : textinput) : textinput := mkTextinput (ti_value ti) true.
Definition ti_Blur (ti : textinput) : textinput := mkTextinput (ti_value ti) false.

Inductive Cmd := cmdNil | cmdQuit | cmdInput (tag : nat).

Class Externals := {
  (** [strings.ToLower] *)
  strings_ToLower : string → string;
  (** the detail text of an unfolded endpoint and webhook ([view.go]) *)
  formatEndpointDetails : endpoint → string;
  formatWebhookDetails : webhook → string;
  (** [textinput.Model.Update] on a key, named as [msg.String()] names it *)
  textinput_Update : textinput → string → textinput * Cmd
}.

Record Model := mkModel {
  doc : Document;
  endpoints : list endpoint;
  components : list component;
  webhooks : list webhook;
  cursor : Z;
  mode : viewMode;
  width : Z;
  height : Z;
  showHelp : bool;
  lastKey : string;
  lastKeyAt : Time;
  scrollOffset : Z;
  searchMode : bool;
  searchInput : textinput;
  filteredEndpoints : list endpoint;
  filteredComponents : list component;
  filteredWebhooks : list webhook;
  showCurl : bool;
  curlCommand : string
}.

(** Assignments to one field of the model. *)
Definition setEndpoints v m :=
  mkModel (doc m) v (components m) (webhooks m) (cursor m) (mode m) (width m)
    (height m) (showHelp m) (lastKey m) (lastKeyAt m) (scrollOffset m)
    (searchMode m) (searchInput m) (filteredEndpoints m)
    (filteredComponents m) (filteredWebhooks m) (showCurl m) (curlCommand m).
Definition setComponents v m :=
  mkModel (doc m) (endpoints m) v (webhooks m) (cursor m) (mode m) (width m)
    (height m) (showHelp m) (lastKey m) (lastKeyAt m) (scrollOffset m)
    (searchMode m) (searchInput m) (filteredEndpoints m)
    (filteredComponents m) (filteredWebhooks m) (showCurl m) (curlCommand m).
Definition setWebhooks v m :=
  mkModel (doc m) (endpoints m) (components m) v (cursor m) (mode m)
    (width m) (height m) (showHelp m) (lastKey m) (lastKeyAt m)
    (scrollOffset m) (searchMode m) (searchInput m) (filteredEndpoints m)
    (filteredComponents m) (filteredWebhooks m) (showCurl m) (curlCommand m).
Definition setCursor v m :=
  mkModel (doc m) (endpoints m) (components m) (webhooks m) v (mode m)
    (width m) (height m) (showHelp m) (lastKey m) (lastKeyAt m)
    (scrollOffset m) (searchMode m) (searchInput m) (filteredEndpoints m)
    (filteredComponents m) (filteredWebhooks m) (showCurl m) (curlCommand m).
Definition setMode v m :=
  mkModel (doc m) (endpoints m) (components m) (webhooks m) (cursor m) v
    (width m) (height m) (showHelp m) (lastKey m) (lastKeyAt m)
    (scrollOffset m) (searchMode m) (searchInput m) (filteredEndpoints m)
    (filteredComponents m) (filteredWebhooks m) (showCurl m) (curlCommand m).
Definition setWidth v m :=
  mkModel (doc m) (endpoints m) (components m) (webhooks m) (cursor m)
    (mode m) v (height m) (showHelp m) (lastKey m) (lastKeyAt m)
    (scrollOffset m) (searchMode m) (searchInput m) (filteredEndpoints m)
    (filteredComponents m) (filteredWebhooks m) (showCurl m) (curlCommand m).
Definition setHeight v m :=
  mkModel (doc m) (endpoints m) (components m) (webhooks m) (cursor m)
    (mode m) (width m) v (showHelp m) (lastKey m) (lastKeyAt m)
    (scrollOffset m) (searchMode m) (searchInput m) (filteredEndpoints m)
    (filteredComponents m) (filteredWebhooks m) (showCurl m) (curlCommand m).
Definition setShowHelp v m :=
  mkModel (doc m) (endpoints m) (components m) (webhooks m) (cursor m)
    (mode m) (width m) (height m) v (lastKey m) (lastKeyAt m)
    (scrollOffset m) (searchMode m) (searchInput m) (filteredEndpoints m)
    (filteredComponents m) (filteredWebhooks m) (showCurl m) (curlCommand m).
Definition setLastKey v m :=
  mkModel (doc m) (endpoints m) (components m) (webhooks m) (cursor m)
    (mode m) (width m) (height m) (showHelp m) v (lastKeyAt m)
    (scrollOffset m) (searchMode m) (searchInput m) (filteredEndpoints m)
    (filteredComponents m) (filteredWebhooks m) (showCurl m) (curlCommand m).
Definition setLastKeyAt v m :=
  mkModel (doc m) (endpoints m) (components m) (webhooks m) (cursor m)
    (mode m) (width m) (height m) (showHelp m) (lastKey m) v (scrollOffset m)
    (searchMode m) (searchInput m) (filteredEndpoints m)
    (filteredComponents m) (filteredWebhooks m) (showCurl m) (curlCommand m).
Definition setScrollOffset v m :=
  mkModel (doc m) (endpoints m) (components m) (webhooks m) (cursor m)
    (mode m) (width m) (height m) (showHelp m) (lastKey m) (lastKeyAt m) v
    (searchMode m) (searchInput m) (filteredEndpoints m)
    (filteredComponents m) (filteredWebhooks m) (showCurl m) (curlCommand m).
Definition setSearchMode v m :=
  mkModel (doc m) (endpoints m) (components m) (webhooks m) (cursor m)
    (mode m) (width m) (height m) (showHelp m) (lastKey m) (lastKeyAt m)
    (scrollOffset m) v (searchInput m) (filteredEndpoints m)
    (filteredComponents m) (filteredWebhooks m) (showCurl m) (curlCommand m).
Definition setSearchInput v m :=
  mkModel (doc m) (endpoints m) (components m) (webhooks m) (cursor m)
    (mode m) (width m) (height m) (showHelp m) (lastKey m) (lastKeyAt m)
    (scrollOffset m) (searchMode m) v (filteredEndpoints m)
    (filteredComponents m) (filteredWebhooks m) (showCurl m) (curlCommand m).
Definition setFiltered ve vc vw m :=
  mkModel (doc m) (endpoints m) (components m) (webhooks m) (cursor m)
    (mode m) (width m) (height m) (showHelp m) (lastKey m) (lastKeyAt m)
    (scrollOffset m) (searchMode m) (searchInput m) ve vc vw (showCurl m)
    (curlCommand m).
Definition setShowCurl v m :=
  mkModel (doc m) (endpoints m) (components m) (webhooks m) (cursor m)
    (mode m) (width m) (height m) (showHelp m) (lastKey m) (lastKeyAt m)
    (scrollOffset m) (searchMode m) (searchInput m) (filteredEndpoints m)
    (filteredComponents m) (filteredWebhooks m) v (curlCommand m).
Definition setCurlCommand v m :=
  mkModel (doc m) (endpoints m) (components m) (webhooks m) (cursor m)
    (mode m) (width m) (height m) (showHelp m) (lastKey m) (lastKeyAt m)
    (scrollOffset m) (searchMode m) (searchInput m) (filteredEndpoints m)
    (filteredComponents m) (filteredWebhooks m) (showCurl m) v.

Definition getActiveEndpoints (m : Model) : list endpoint :=
  if bool_decide (ti_Value (searchInput m) ≠ "") then filteredEndpoints m
  else endpoints m.

Definition getActiveComponents (m : Model) : list component :=
  if bool_decide (ti_Value (searchInput m) ≠ "") then filteredComponents m
  else components m.

Definition getActiveWebhooks (m : Model) : list webhook :=
  if bool_decide (ti_Value (searchInput m) ≠ "") then filteredWebhooks m
  else webhooks m.

Definition getMaxItems (m : Model) : Z :=
  match mode m with
  | viewEndpoints => subi (len (getActiveEndpoints m)) 1
  | viewComponents => subi (len (getActiveComponents m)) 1
  | viewWebhooks => subi (len (getActiveWebhooks m)) 1
  end.

Definition hasWebhooks (m : Model) : bool := bool_decide (len (webhooks m) > 0).

(** The length of the [items] slice that [ensureCursorVisible] builds from
    the active collection of the current view. *)
Definition itemsLen (m : Model) : Z :=
  match mode m with
  | viewEndpoints => len (getActiveEndpoints m)
  | viewComponents => len (getActiveComponents m)
  | viewWebhooks => len (getActiveWebhooks m)
  end.

Section WithExternals.
Context `{Externals}.

Definition getItemHeight (m : Model) (index : Z) : option Z :=
  match mode m with
  | viewEndpoints =>
      let eps := getActiveEndpoints m in
      if bool_decide (index >= len eps) then Some 1 else
      ep ← lookupZ eps index;
      if e_folded ep then Some 1 else
      let details := formatEndpointDetails ep in
      Some (addi (addi 1 (strings_Count_nl details)) 1)
  | viewComponents =>
      let comps := getActiveComponents m in
      if bool_decide (index >= len comps) then Some 1 else
      comp ← lookupZ comps index;
      if c_folded comp then Some 1 else
      Some (addi (addi 1 (strings_Count_nl (c_details comp))) 1)
  | viewWebhooks =>
      let hooks := getActiveWebhooks m in
      if bool_decide (index >= len hooks) then Some 1 else
      hook ← lookupZ hooks index;
      if w_folded hook then Some 1 else
      let details := formatWebhookDetails hook in
      Some (addi (addi 1 (strings_Count_nl details)) 1)
  end.

(** The indices visited by
    [for i := from; i <= m.cursor && i < len(items); i++]. *)
Definition rowsFrom (m : Model) (from : Z) : list Z :=
  seqZ from (Z.min (cursor m + 1) (itemsLen m) - from).

(** [acc += m.getItemHeight(i)] for each [i] of [idx], in order. *)
Fixpoint addHeights (m : Model) (idx : list Z) (acc : Z) : option Z :=
  match idx with
  | [] => Some acc
  | i :: rest => h ← getItemHeight m i; addHeights m rest (addi acc h)
  end.

(** [testLinesUsed] of the scan: one line for the indicator when the
    offset is positive, then the heights from the offset to the cursor. *)
Definition testLinesUsed (m : Model) (newScrollOffset : Z) : option Z :=
  addHeights m (rowsFrom m newScrollOffset)
    (if bool_decide (newScrollOffset > 0) then addi 0 1 else 0).

(** [linesUsed] of the current offset: the heights first, the indicator
    line after. *)
Definition linesUsed (m : Model) : option Z :=
  l ← addHeights m (rowsFrom m (scrollOffset m)) 0;
  Some (if bool_decide (scrollOffset m > 0) then addi l 1 else l).

(** The scan
    [for newScrollOffset := ...; newScrollOffset <= m.cursor; newScrollOffset++]
    over its candidates: the first that fits is adopted. *)
Fixpoint scanOffsets (m : Model) (contentHeight : Z) (cands : list Z)
  : option Model :=
  match cands with
  | [] => Some m
  | newScrollOffset :: rest =>
      t ← testLinesUsed m newScrollOffset;
      if bool_decide (t ≤ contentHeight)
      then Some (setScrollOffset newScrollOffset m)
      else scanOffsets m contentHeight rest
  end.

Definition scanCandidates (m : Model) : list Z :=
  seqZ (addi (scrollOffset m) 1) (cursor m - addi (scrollOffset m) 1 + 1).

Definition ensureCursorVisible (m : Model) : option Model :=
  let contentHeight := calculateContentHeight (height m) in
  if bool_decide (cursor m = 0) then Some (setScrollOffset 0 m) else
  if bool_decide (itemsLen m = 0) then Some m else
  if bool_decide (cursor m < scrollOffset m)
  then Some (setScrollOffset (cursor m) m) else
  used ← linesUsed m;
  m1 ← (if bool_decide (used > contentHeight)
        then scanOffsets m contentHeight (scanCandidates m)
        else Some m);
  Some (if bool_decide (scrollOffset m1 < 0) then setScrollOffset 0 m1 else m1).

End WithExternals.

(** ** The filter *)

Section Filter.
Context `{Externals}.

Definition matchesEndpoint (query : string) (ep : endpoint) : bool :=
  strings_Contains (strings_ToLower (e_path ep)) query ||
  strings_Contains (strings_ToLower (e_method ep)) query ||
  (bool_decide (Summary (e_op ep) ≠ "") &&
     strings_Contains (strings_ToLower (Summary (e_op ep))) query) ||
  (bool_decide (Description (e_op ep) ≠ "") &&
     strings_Contains (strings_ToLower (Description (e_op ep))) query).

Definition matchesComponent (query : string) (comp : component) : bool :=
  strings_Contains (strings_ToLower (c_name comp)) query ||
  strings_Contains (strings_ToLower (c_compType comp)) query ||
  strings_Contains (strings_ToLower (c_description comp)) query.

Definition matchesWebhook (query : string) (hook : webhook) : bool :=
  strings_Contains (strings_ToLower (w_name hook)) query ||
  strings_Contains (strings_ToLower (w_method hook)) query ||
  (bool_decide (Summary (w_op hook) ≠ "") &&
     strings_Contains (strings_ToLower (Summary (w_op hook))) query) ||
  (bool_decide (Description (w_op hook) ≠ "") &&
     strings_Contains (strings_ToLower (Description (w_op hook))) query).

Definition filterItems (m : Model) : Model :=
  let query := strings_ToLower (ti_Value (searchInput m)) in
  if bool_decide (query = "") then setFiltered [] [] [] m else
  setFiltered (List.filter (matchesEndpoint query) (endpoints m))
              (List.filter (matchesComponent query) (components m))
              (List.filter (matchesWebhook query) (webhooks m)) m.

End Filter.

(** ** The example-command generator *)

(** The argument is a schema that is not nil: each caller, here and in
    [generateCurl], passes [x.Schema()] after testing it against nil, so
    the branch [schema == nil] of the source is never taken; a proxy
    whose [Schema()] is nil is [None] at the caller.  [depth + 1] is only
    reached with [depth <= 3], where it cannot wrap. *)
Fixpoint generateExampleJSON (schema : Schema) (depth : Z)
  {struct schema} : string :=
  if bool_decide (depth > 3) then "null" else
  match s_Example schema with
  | Some example => example
  | None =>
      let afterSwitch :=
        let allProps :=
          (fix collect (l : list (option Schema)) : list string :=
             match l with
             | [] => []
             | schemaProxy :: rest =>
                 match schemaProxy with
                 | Some sch =>
                     let example := generateExampleJSON sch (depth + 1) in
                     if bool_decide (example ≠ "{}") && bool_decide (example ≠ "null")
                     then example :: collect rest
                     else collect rest
                 | None => collect rest
                 end
             end) (s_AllOf schema) in
        match allProps with
        | first :: _ => first
        | [] => "{}"
        end in
      match s_Type schema with
      | [] => afterSwitch
      | ty :: _ =>
          if bool_decide (ty = "object") then
            let props :=
              (fix each (l : list (string * option Schema)) : list string :=
                 match l with
                 | [] => []
                 | (propName, propSchema) :: rest =>
                     let value :=
                       match propSchema with
                       | Some sch => generateExampleJSON sch (depth + 1)
                       | None => dq +:+ "example" +:+ dq
                       end in
                     (dq +:+ propName +:+ dq +:+ ": " +:+ value) :: each rest
                 end) (s_Properties schema) in
            if bool_decide (len props > 0)
            then "{ " +:+ strings_Join props ", " +:+ " }"
            else "{}"
          else if bool_decide (ty = "array") then
            match s_Items schema with
            | Some (inl (Some itemSchema)) =>
                "[ " +:+ generateExampleJSON itemSchema (depth + 1) +:+ " ]"
            | _ => "[]"
            end
          else if bool_decide (ty = "string") then
            match s_Enum schema with
            | e :: _ => dq +:+ e +:+ dq
            | [] =>
                if bool_decide (s_Format schema = "date")
                then dq +:+ "2024-01-01" +:+ dq
                else if bool_decide (s_Format schema = "date-time")
                then dq +:+ "2024-01-01T00:00:00Z" +:+ dq
                else if bool_decide (s_Format schema = "email")
                then dq +:+ "user@example.com" +:+ dq
                else dq +:+ "string" +:+ dq
            end
          else if bool_decide (ty = "number") || bool_decide (ty = "integer") then "0"
          else if bool_decide (ty = "boolean") then "false"
          else if bool_decide (ty = "null") then "null"
          else afterSwitch
      end
  end.

(** The header map that [generateCurl] fills before it prints it. *)
Definition addSecurityHeader (doc : Document) (headers : gmap string string)
    (secName : string) : gmap string string :=
  match d_SecuritySchemes doc with
  | None => headers
  | Some schemes =>
      match schemes !! secName with
      | None => headers
      | Some scheme =>
          if bool_decide (ss_Type scheme = "http") then
            if bool_decide (ss_Scheme scheme = "bearer")
            then <["Authorization" := "Bearer YOUR_TOKEN"]> headers
            else if bool_decide (ss_Scheme scheme = "basic")
            then <["Authorization" := "Basic YOUR_CREDENTIALS"]> headers
            else headers
          else if bool_decide (ss_Type scheme = "apiKey") then
            if bool_decide (ss_In scheme = "header")
            then <[ss_Name scheme := "YOUR_API_KEY"]> headers
            else headers
          else headers
      end
  end.

Definition curlHeaders (ep : endpoint) (doc : Document) : gmap string string :=
  let headers : gmap string string :=
    match op_RequestBody (e_op ep) with
    | Some _ => <["Content-Type" := "application/json"]> ∅
    | None => ∅
    end in
  foldl (λ hs secReq, foldl (addSecurityHeader doc) hs secReq)
        headers (op_Security (e_op ep)).

(** [for key, value := range headers]: the runtime visits each entry of
    the map once, in an order of its own choosing, which can differ from
    one run of the loop to the next. *)
Record MapOrder := mkMapOrder {
  rangeOver : gmap string string → list (string * string);
  rangeOver_perm : ∀ hs, rangeOver hs ≡ₚ map_to_list hs
}.

Definition headerLine (kv : string * string) : string :=
  " \" +:+ nl +:+ "  -H '" +:+ kv.1 +:+ ": " +:+ kv.2 +:+ "'".

Definition curlBody (ep : endpoint) : string :=
  match op_RequestBody (e_op ep) with
  | Some rb =>
      match rb_Content rb with
      | Some content =>
          match content !! "application/json" with
          | Some jsonContent =>
              let bodyJSON :=
                match mt_Schema jsonContent with
                | Some sch => generateExampleJSON sch 0
                | None => "{}"
                end in
              " \" +:+ nl +:+ "  -d '" +:+ bodyJSON +:+ "'"
          | None => ""
          end
      | None => ""
      end
  | None => ""
  end.

Definition generateCurl (order : MapOrder) (ep : endpoint) (doc : Document)
  : string :=
  let baseURL :=
    match d_Servers doc with
    | url :: _ => url
    | [] => "https://api.example.com"
    end in
  ("curl -X " +:+ e_method ep)
    +:+ (" '" +:+ baseURL +:+ e_path ep +:+ "'")
    +:+ foldl (λ out kv, out +:+ headerLine kv) ""
          (rangeOver order (curlHeaders ep doc))
    +:+ curlBody ep.

(** ** Events and the handler *)

Inductive Msg :=
  | WindowSizeMsg (Width Height : Z)
  | KeyMsg (key : string)
  | OtherMsg.

(** What one call of [Update] reads from the runtime: the clock
    ([time.Now()]) and the walk of the header map. *)
Record Runtime := mkRuntime {
  rt_now : Time;
  rt_order : MapOrder
}.

Definition NewModel (doc : Document) (endpoints : list endpoint)
    (components : list component) (webhooks : list webhook) : Model :=
  mkModel doc endpoints components webhooks 0 viewEndpoints 80 24 false ""
          zeroTime 0 false (mkTextinput "" false) [] [] [] false "".

(** The first element that [same] accepts is replaced by its [flip];
    [None] when there is none. *)
Fixpoint toggleFirst {A} (same : A → bool) (flip : A → A) (l : list A)
  : option (list A) :=
  match l with
  | [] => None
  | x :: rest =>
      if same x then Some (flip x :: rest)
      else rest' ← toggleFirst same flip rest; Some (x :: rest')
  end.

Definition flipEndpoint (e : endpoint) : endpoint :=
  mkEndpoint (e_path e) (e_method e) (e_op e) (negb (e_folded e)).
Definition flipComponent (c : component) : component :=
  mkComponent (c_name c) (c_compType c) (c_description c) (c_details c)
              (negb (c_folded c)).
Definition flipWebhook (w : webhook) : webhook :=
  mkWebhook (w_name w) (w_method w) (w_op w) (negb (w_folded w)).

Definition keyIs (key name : string) : bool := String.eqb key name.

Section Handler.
Context `{Externals}.

(** The keys while [m.searchMode] holds. *)
Definition updateSearch (m : Model) (key : string) : option (Model * Cmd) :=
  if keyIs key "esc" then
    let m := setSearchMode false m in
    let m := setSearchInput (ti_SetValue "" (searchInput m)) m in
    let m := filterItems m in
    let m := setCursor 0 m in
    let m := setScrollOffset 0 m in
    Some (m, cmdNil)
  else if keyIs key "ctrl+c" then
    Some (m, cmdQuit)
  else if keyIs key "enter" then
    let m := setSearchMode false m in
    let m := setSearchInput (ti_Blur (searchInput m)) m in
    Some (m, cmdNil)
  else
    let '(input, cmd) := textinput_Update (searchInput m) key in
    let m := setSearchInput input m in
    let m := filterItems m in
    let m := setCursor 0 m in
    let m := setScrollOffset 0 m in
    Some (m, cmd).

Definition cycleForward (m : Model) : viewMode :=
  match mode m with
  | viewEndpoints => if hasWebhooks m then viewWebhooks else viewComponents
  | viewWebhooks => viewComponents
  | viewComponents => viewEndpoints
  end.

Definition cycleBackward (m : Model) : viewMode :=
  match mode m with
  | viewEndpoints => viewComponents
  | viewWebhooks => viewEndpoints
  | viewComponents => if hasWebhooks m then viewWebhooks else viewEndpoints
  end.

Definition keyCurl (m : Model) (order : MapOrder) : option Model :=
  if negb (showHelp m) && negb (searchMode m) then
    match mode m with
    | viewEndpoints =>
        let eps := getActiveEndpoints m in
        if bool_decide (cursor m < len eps) then
          ep ← lookupZ eps (cursor m);
          Some (setShowCurl true (setCurlCommand (generateCurl order ep (doc m)) m))
        else Some m
    | viewWebhooks =>
        let hooks := getActiveWebhooks m in
        if bool_decide (cursor m < len hooks) then
          hook ← lookupZ hooks (cursor m);
          let tempEp := mkEndpoint (w_name hook) (w_method hook) (w_op hook) false in
          Some (setShowCurl true (setCurlCommand (generateCurl order tempEp (doc m)) m))
        else Some m
    | viewComponents => Some m
    end
  else Some m.

(** [enter] and space.  The item under the cursor is read inside the loop
    over the master list, so it is not read when that list is empty. *)
Definition keyToggle (m : Model) : option Model :=
  if negb (showHelp m) && negb (searchMode m) then
    match mode m with
    | viewEndpoints =>
        let eps := getActiveEndpoints m in
        if bool_decide (cursor m < len eps) then
          match endpoints m with
          | [] => Some m
          | _ =>
              cur ← lookupZ eps (cursor m);
              Some
                match toggleFirst
                        (λ e, bool_decide (e_path e = e_path cur) &&
                              bool_decide (e_method e = e_method cur))
                        flipEndpoint (endpoints m) with
                | Some es => filterItems (setEndpoints es m)
                | None => m
                end
          end
        else Some m
    | viewComponents =>
        let comps := getActiveComponents m in
        if bool_decide (cursor m < len comps) then
          match components m with
          | [] => Some m
          | _ =>
              cur ← lookupZ comps (cursor m);
              Some
                match toggleFirst (λ c, bool_decide (c_name c = c_name cur))
                        flipComponent (components m) with
                | Some cs => filterItems (setComponents cs m)
                | None => m
                end
          end
        else Some m
    | viewWebhooks =>
        let hooks := getActiveWebhooks m in
        if bool_decide (cursor m < len hooks) then
          match webhooks m with
          | [] => Some m
          | _ =>
              cur ← lookupZ hooks (cursor m);
              Some
                match toggleFirst
                        (λ w, bool_decide (w_name w = w_name cur) &&
                              bool_decide (w_method w = w_method cur))
                        flipWebhook (webhooks m) with
                | Some ws => filterItems (setWebhooks ws m)
                | None => m
                end
          end
        else Some m
    end
  else Some m.

(** [g]: the second press of a pair jumps to the top. *)
Definition keyG (m : Model) (now : Time) : option Model :=
  if bool_decide (lastKey m = "g") &&
     bool_decide (Time_Sub now (lastKeyAt m) < keySequenceThreshold) then
    m ← (if negb (showHelp m) then ensureCursorVisible (setCursor 0 m)
         else Some m);
    Some (setLastKeyAt zeroTime (setLastKey "" m))
  else
    Some (setLastKeyAt now (setLastKey "g" m)).

(** The keys outside search mode.  A case that does not return falls
    through to the [return m, nil] that ends [Update]. *)
Definition updateBrowse (m : Model) (key : string) (rt : Runtime)
  : option (Model * Cmd) :=
  if keyIs key "q" || keyIs key "ctrl+c" then
    if showHelp m then Some (setShowHelp false m, cmdNil)
    else Some (m, cmdQuit)
  else if keyIs key "?" then
    Some (setShowHelp (negb (showHelp m)) m, cmdNil)
  else if keyIs key "/" then
    if negb (showHelp m) then
      let m := setSearchMode true m in
      let m := setSearchInput (ti_Focus (searchInput m)) m in
      let m := setSearchInput (ti_SetValue "" (searchInput m)) m in
      let m := filterItems m in
      Some (m, cmdNil)
    else Some (m, cmdNil)
  else if keyIs key "esc" then
    if showHelp m then Some (setShowHelp false m, cmdNil)
    else if searchMode m then
      let m := setSearchMode false m in
      let m := setSearchInput (ti_SetValue "" (searchInput m)) m in
      let m := filterItems m in
      let m := setCursor 0 m in
      let m := setScrollOffset 0 m in
      Some (m, cmdNil)
    else if showCurl m then Some (setShowCurl false m, cmdNil)
    else Some (m, cmdNil)
  else if keyIs key "r" then
    m ← keyCurl m (rt_order rt); Some (m, cmdNil)
  else if keyIs key "tab" || keyIs key "L" then
    if negb (showHelp m) then
      let m := setMode (cycleForward m) m in
      let m := setCursor 0 m in
      let m := setScrollOffset 0 m in
      Some (m, cmdNil)
    else Some (m, cmdNil)
  else if keyIs key "shift+tab" || keyIs key "H" then
    if negb (showHelp m) then
      let m := setMode (cycleBackward m) m in
      let m := setCursor 0 m in
      let m := setScrollOffset 0 m in
      Some (m, cmdNil)
    else Some (m, cmdNil)
  else if keyIs key "up" || keyIs key "k" then
    if negb (showHelp m) && bool_decide (cursor m > 0) then
      m ← ensureCursorVisible (setCursor (subi (cursor m) 1) m); Some (m, cmdNil)
    else Some (m, cmdNil)
  else if keyIs key "down" || keyIs key "j" then
    if negb (showHelp m) then
      if bool_decide (cursor m < getMaxItems m) then
        m ← ensureCursorVisible (setCursor (addi (cursor m) 1) m); Some (m, cmdNil)
      else Some (m, cmdNil)
    else Some (m, cmdNil)
  else if keyIs key "ctrl+d" then
    if negb (showHelp m) then
      let maxItems := getMaxItems m in
      let newCursorPos := addi (cursor m) scrollHalfScreenLines in
      let m :=
        if bool_decide (newCursorPos > maxItems) then setCursor maxItems m
        else setCursor (addi (cursor m) scrollHalfScreenLines) m in
      m ← ensureCursorVisible m; Some (m, cmdNil)
    else Some (m, cmdNil)
  else if keyIs key "ctrl+u" then
    if negb (showHelp m) then
      let halfLines := Z.max 1 (calculateContentHeight (height m) `quot` 2) in
      let m :=
        if bool_decide (cursor m < halfLines) then setCursor 0 m
        else setCursor (subi (cursor m) halfLines) m in
      m ← ensureCursorVisible m; Some (m, cmdNil)
    else Some (m, cmdNil)
  else if keyIs key "G" then
    if negb (showHelp m) then
      let maxItems := getMaxItems m in
      if bool_decide (maxItems >= 0) then
        m ← ensureCursorVisible (setCursor maxItems m); Some (m, cmdNil)
      else Some (m, cmdNil)
    else Some (m, cmdNil)
  else if keyIs key "g" then
    m ← keyG m (rt_now rt); Some (m, cmdNil)
  else if keyIs key "enter" || keyIs key " " then
    m ← keyToggle m; Some (m, cmdNil)
  else Some (m, cmdNil).

Definition Update (m : Model) (msg : Msg) (rt : Runtime)
  : option (Model * Cmd) :=
  match msg with
  | WindowSizeMsg w h => Some (setHeight h (setWidth w m), cmdNil)
  | KeyMsg key =>
      if searchMode m then updateSearch m key else updateBrowse m key rt
  | OtherMsg => Some (m, cmdNil)
  end.

End Handler.

(** ** A run of the program *)

Section Run.
Context `{Externals}.

(** The events are handled one at a time, each on the model the previous
    one returned. *)
Fixpoint run (m : Model) (events : list (Msg * Runtime)) : option Model :=
  match events with
  | [] => Some m
  | (msg, rt) :: rest => r ← Update m msg rt; run r.1 rest
  end.

End Run.

(** ** A concrete instance of the externals, for the examples

    Lower case on ASCII letters, the description of the operation as its
    detail text, and a text input that appends the key it is given. *)

Definition lowerAscii (c : Ascii.ascii) : Ascii.ascii :=
  let n := Ascii.nat_of_ascii c in
  if (65 <=? n)%nat && (n <=? 90)%nat then Ascii.ascii_of_nat (n + 32) else c.

Fixpoint toLowerAscii (s : string) : string :=
  match s with
  | EmptyString => EmptyString
  | String c r => String (lowerAscii c) (toLowerAscii r)
  end.

Definition typeKey (ti : textinput) (key : string) : textinput * Cmd :=
  (mkTextinput (ti_value ti +:+ key) (ti_focus ti), cmdNil).

Definition plainExternals : Externals :=
  {| strings_ToLower := toLowerAscii;
     formatEndpointDetails := λ ep, Description (e_op ep);
     formatWebhookDetails := λ hook, Description (w_op hook);
     textinput_Update := typeKey |}.

(** Two walks of a map: in the order of [map_to_list], and in the
    reverse of it. *)
Definition forwardOrder : MapOrder :=
  mkMapOrder map_to_list (λ hs, reflexivity (map_to_list hs)).

Definition backwardOrder : MapOrder :=
  mkMapOrder (λ hs, reverse (map_to_list hs)) (λ hs, reverse_Permutation (map_to_list hs)).

Definition at_ (now : Time) : Runtime := mkRuntime now forwardOrder.
Definition key (k : string) (now : Time) : Msg * Runtime := (KeyMsg k, at_ now).

(** ** The bound on the visible lines *)

Section ViewportSpec.
Context `{Externals}.

(** [fitsIn m ch s]: with the items, the cursor and the view of [m], the
    lines that the source counts from offset [s] through the cursor, the
    indicator line of a positive offset included, are at most [ch]. *)
Definition fitsIn (m : Model) (ch : Z) (s : Z) : bool :=
  match testLinesUsed m s with
  | Some t => bool_decide (t ≤ ch)
  | None => false
  end.

Definition fits (m : Model) (s : Z) : bool :=
  fitsIn m (calculateContentHeight (height m)) s.

(** The same count in plain arithmetic: one line for the indicator when
    [s > 0], and the rendered heights of the items [s..cursor]. *)
Definition heightAt (m : Model) (i : Z) : Z := default 1 (getItemHeight m i).

Definition sumHeights (m : Model) (idx : list Z) : Z :=
  foldr (λ i acc, heightAt m i + acc) 0 idx.

Definition cumulativeHeight (m : Model) (s : Z) : Z :=
  (if bool_decide (s > 0) then 1 else 0)
  + sumHeights m (seqZ s (cursor m - s + 1)).

(** No count of lines overflows: the heights of the items from the
    first through the cursor are not negative (none has wrapped), and
    their sum with the indicator line is below 2^63. *)
Definition heightsInRange (m : Model) : Prop :=
  Forall (λ i, 0 ≤ heightAt m i) (seqZ 0 (cursor m + 1)) ∧
  1 + sumHeights m (seqZ 0 (cursor m + 1)) < 2 ^ 63.

End ViewportSpec.

(** ** Data of the examples *)

Definition lines (n : nat) : string := String.concat "" (replicate n nl).

Definition foldedComponent (name : string) : component :=
  mkComponent name "schema" "" "" true.

(** An unfolded component whose detail text has [n] newlines: its
    rendered height is [n + 2]. *)
Definition openComponent (name : string) (n : nat) : component :=
  mkComponent name "schema" "" (lines n) false.

Definition plainOperation : Operation := mkOperation "" "" None [].

Definition getEndpoint (path : string) : endpoint :=
  mkEndpoint path "GET" plainOperation true.

Definition emptyDocument : Document := mkDocument [] None.

(** Three folded endpoints, as [NewModel] starts. *)
Definition threeEndpoints : Model :=
  NewModel emptyDocument
           [getEndpoint "/a"; getEndpoint "/b"; getEndpoint "/c"] [] [].

(** Three folded components, in the component view. *)
Definition threeComponents : Model :=
  setMode viewComponents
    (NewModel emptyDocument []
       [foldedComponent "a"; foldedComponent "b"; foldedComponent "c"] []).

(** The state that [threeComponents] reaches when the terminal shrinks
    to 10 lines, the cursor goes down twice, the terminal grows back to
    24 lines, and the cursor is about to go up by one. *)
Definition afterResize : Model :=
  setCursor 1 (setScrollOffset 2 threeComponents).

(** A folded component followed by one whose rendered height, 22, is
    more than the content height, 16, of a terminal of 24 lines. *)
Definition tallSecond : Model :=
  setCursor 1
    (setMode viewComponents
       (NewModel emptyDocument []
          [foldedComponent "a"; openComponent "b" 20] [])).

(** Content height 10 (a terminal of 18 lines); five folded components,
    then at index 5 an unfolded one with [n] newlines of detail, then a
    folded one; the cursor at index 4. *)
Definition sixthOpen (n : nat) : Model :=
  setCursor 4
    (setHeight 18
       (setMode viewComponents
          (NewModel emptyDocument []
             [foldedComponent "a"; foldedComponent "b"; foldedComponent "c";
              foldedComponent "d"; foldedComponent "e"; openComponent "f" n;
              foldedComponent "g"] []))).

(** An endpoint with a request body and bearer authentication, and the
    document that declares the scheme. *)
Definition securedOperation : Operation :=
  mkOperation "" "" (Some (mkRequestBody None)) [["bearerAuth"]].

Definition securedEndpoint : endpoint :=
  mkEndpoint "/pets" "POST" securedOperation true.

Definition securedDocument : Document :=
  mkDocument [] (Some {[ "bearerAuth" := mkSecurityScheme "http" "bearer" "" "" ]}).

Definition ms (n : Z) : Time := n * 1000000.

(** ** The rest of [model.go]: layout, truncation and the frame *)

Definition leftPaddingChars : Z := 2.

Definition calculateContentWidth (totalWidth : Z) : Z :=
  Z.max 1 (subi totalWidth leftPaddingChars).

(** [strings.Split(s, "\n")] *)
Fixpoint strings_Split_nl (s : string) : list string :=
  match s with
  | EmptyString => [""]
  | String c r =>
      if bool_decide (c = Ascii.ascii_of_nat 10) then "" :: strings_Split_nl r
      else
        match strings_Split_nl r with
        | [] => [String c ""]
        | first :: rest => String c first :: rest
        end
  end.

(** [strings.Repeat(s, count)], for a [count] that is not negative *)
Definition strings_Repeat (s : string) (count : Z) : string :=
  String.concat "" (replicate (Z.to_nat count) s).

Definition truncateMarker : string := "⬇ Content truncated to fit viewport...".

(** [lines[:maxLines-1]] is reached with [len(lines) > maxLines]; the
    slice expression panics when its bound is negative (or, after a
    wrap, beyond the slice). *)
Definition truncateContent (content : string) (maxLines : Z) : option string :=
  let lines := strings_Split_nl content in
  if bool_decide (len lines ≤ maxLines) then Some content else
  let bound := subi maxLines 1 in
  if bool_decide (0 ≤ bound ≤ len lines) then
    let truncatedLines := take (Z.to_nat bound) lines in
    let truncatedLines := truncatedLines ++ [truncateMarker] in
    Some (strings_Join truncatedLines nl)
  else None.

(** The render methods of [view.go]. *)
Class Renderers := {
  renderHeader : Model → string;
  renderFooter : Model → string;
  renderEndpoints : Model → string;
  renderComponents : Model → string;
  renderWebhooks : Model → string;
  renderHelpModal : Model → string;
  renderCurlModal : Model → string
}.

Section Frame.
Context `{Renderers}.

Definition availableContentLines (m : Model) : Z :=
  let headerLines := strings_Count_nl (renderHeader m) in
  let footerLines := strings_Count_nl (renderFooter m) in
  let available := subi (subi (subi (height m) headerLines) footerLines) 1 in
  if bool_decide (available < 1) then 1 else available.

Definition View (m : Model) : option string :=
  let header := renderHeader m in
  let footer := renderFooter m in
  let headerLines := strings_Count_nl header in
  let footerLines := strings_Count_nl footer in
  let content :=
    match mode m with
    | viewEndpoints => renderEndpoints m
    | viewComponents => renderComponents m
    | viewWebhooks => renderWebhooks m
    end in
  content ← truncateContent content (availableContentLines m);
  let s := header +:+ content in
  let contentLines := strings_Count_nl content in
  let usedLines := addi (addi headerLines contentLines) footerLines in
  let remainingLines := subi (subi (height m) usedLines) 1 in
  let s := if bool_decide (remainingLines > 0)
           then s +:+ strings_Repeat nl remainingLines else s in
  let baseView := s +:+ footer in
  if showHelp m then Some (renderHelpModal m)
  else if showCurl m then Some (renderCurlModal m)
  else Some baseView.

End Frame.

(** ** Identities and invariants *)

Definition endpointKey (e : endpoint) : string * string := (e_path e, e_method e).

(** The cursor is on an item and the offset is between 0 and the cursor. *)
Definition navInv (m : Model) : Prop :=
  0 ≤ cursor m < itemsLen m ∧ 0 ≤ scrollOffset m ≤ cursor m.

Definition movementKeys : list string :=
  ["up"; "k"; "down"; "j"; "ctrl+d"; "ctrl+u"; "G"; "g"].

Section Invariants.
Context `{Externals}.

(** What [filterItems] stores for the query and the masters of [m]. *)
Definition filterResult (m : Model)
  : list endpoint * list component * list webhook :=
  let query := strings_ToLower (ti_Value (searchInput m)) in
  if bool_decide (query = "") then ([], [], []) else
  (List.filter (matchesEndpoint query) (endpoints m),
   List.filter (matchesComponent query) (components m),
   List.filter (matchesWebhook query) (webhooks m)).

(** With a query, the filtered collections are the ones [filterItems]
    computes from the masters. *)
Definition filterConsistent (m : Model) : Prop :=
  ti_Value (searchInput m) ≠ "" →
  (filteredEndpoints m, filteredComponents m, filteredWebhooks m)
  = filterResult m.

End Invariants.

(** What stays of an item when its fold flag is left out. *)
Definition endpointFace (e : endpoint) : string * string * Operation :=
  (e_path e, e_method e, e_op e).
Definition componentFace (c : component) : string * string * string * string :=
  (c_name c, c_compType c, c_description c, c_details c).
Definition webhookFace (w : webhook) : string * string * Operation :=
  (w_name w, w_method w, w_op w).

(** The masters of [m'] are those of [m] up to fold flags, and the
    document is the same. *)
Definition sameMasters (m m' : Model) : Prop :=
  doc m' = doc m ∧
  endpointFace <$> endpoints m' = endpointFace <$> endpoints m ∧
  componentFace <$> components m' = componentFace <$> components m ∧
  webhookFace <$> webhooks m' = webhookFace <$> webhooks m.

Section Steps.
Context `{Externals}.

(** A property of models that the elementary steps of [Update] keep:
    the assignments to the fields outside the collections, the query
    and the gesture memory, a new text input followed by [filterItems],
    a change of the focus of the text input, and the toggle of one
    master item followed by [filterItems]. *)
Definition stepClosed (P : Model → Prop) : Prop :=
  (∀ m v, P m → P (setWidth v m)) ∧
  (∀ m v, P m → P (setHeight v m)) ∧
  (∀ m v, P m → P (setSearchMode v m)) ∧
  (∀ m v, P m → P (setShowHelp v m)) ∧
  (∀ m v, P m → P (setCursor v m)) ∧
  (∀ m v, P m → P (setScrollOffset v m)) ∧
  (∀ m v, P m → P (setMode v m)) ∧
  (∀ m v, P m → P (setShowCurl v m)) ∧
  (∀ m v, P m → P (setCurlCommand v m)) ∧
  (∀ m ti, P m → P (filterItems (setSearchInput ti m))) ∧
  (∀ m, P m → P (setSearchInput (ti_Blur (searchInput m)) m)) ∧
  (∀ m, P m → P (setSearchInput (ti_Focus (searchInput m)) m)) ∧
  (∀ m same es, toggleFirst same flipEndpoint (endpoints m) = Some es →
                P m → P (filterItems (setEndpoints es m))) ∧
  (∀ m same cs, toggleFirst same flipComponent (components m) = Some cs →
                P m → P (filterItems (setComponents cs m))) ∧
  (∀ m same ws, toggleFirst same flipWebhook (webhooks m) = Some ws →
                P m → P (filterItems (setWebhooks ws m))).

(** A property that the writes to the gesture memory keep. *)
Definition gestureClosed (P : Model → Prop) : Prop :=
  (∀ m v, P m → P (setLastKey v m)) ∧
  (∀ m v, P m → P (setLastKeyAt v m)).

End Steps.

(** The fold flag of the items whose identity is that of [cur] is
    flipped; the others are left. *)
Definition flipEndpointOf (cur : endpoint) (e : endpoint) : endpoint :=
  if bool_decide (endpointKey e = endpointKey cur) then flipEndpoint e else e.

(** The endpoint with its security requirements left out. *)
Definition withoutSecurity (ep : endpoint) : endpoint :=
  mkEndpoint (e_path ep) (e_method ep)
    (mkOperation (Summary (e_op ep)) (Description (e_op ep))
       (op_RequestBody (e_op ep)) [])
    (e_folded ep).

(** No name of a security requirement of [ep] is a declared scheme of
    [doc]. *)
Definition securityUndeclared (ep : endpoint) (doc : Document) : Prop :=
  ∀ secReq secName, secReq ∈ op_Security (e_op ep) → secName ∈ secReq →
    match d_SecuritySchemes doc with
    | Some schemes => schemes !! secName = None
    | None => True
    end.

(** The cursor is on an item, or at 0 when there is none, and the offset
    is between 0 and the cursor. *)
Definition cursorInv (m : Model) : Prop :=
  (0 ≤ cursor m < itemsLen m ∨ cursor m = 0) ∧ 0 ≤ scrollOffset m ≤ cursor m.

(** The length of the master collection of the current view. *)
Definition masterLen (m : Model) : Z :=
  match mode m with
  | viewEndpoints => len (endpoints m)
  | viewComponents => len (components m)
  | viewWebhooks => len (webhooks m)
  end.

Definition mastersBounded (m : Model) : Prop :=
  len (endpoints m) < 2 ^ 62 ∧ len (components m) < 2 ^ 62 ∧
  len (webhooks m) < 2 ^ 62.

(** The event is not the half-page jump down. *)
Definition notHalfPageDown (ev : Msg * Runtime) : Prop := ev.1 ≠ KeyMsg "ctrl+d".

(** The keys that [Update] has a case for outside search mode, and
    those that close the help overlay. *)
Definition boundKeys : list string :=
  ["q"; "ctrl+c"; "?"; "/"; "esc"; "r"; "tab"; "L"; "shift+tab"; "H";
   "up"; "k"; "down"; "j"; "ctrl+d"; "ctrl+u"; "G"; "g"; "enter"; " "].

Definition closingKeys : list string := ["q"; "ctrl+c"; "?"; "esc"].

(** ** More data of the examples *)

(** A model with no item at all. *)
Definition noItems : Model := NewModel emptyDocument [] [] [].

(** [threeEndpoints] with the query [q] typed. *)
Definition queried (q : string) : Model :=
  setSearchInput (mkTextinput q false) threeEndpoints.

(** [threeEndpoints] after [j], [j] and a first press of [g] at 1000 ms:
    the cursor at 2, the press recorded. *)
Definition pressedOnce : Model :=
  setLastKeyAt (ms 1000) (setLastKey "g" (setCursor 2 threeEndpoints)).

(** A document that declares an API key scheme and no bearer scheme. *)
Definition apiKeyDocument : Document :=
  mkDocument [] (Some {[ "apiKey" := mkSecurityScheme "apiKey" "" "header" "X-Key" ]}).

(** * Properties *)

(** ** Wrapping arithmetic *)

Lemma wrap_id z : - 2 ^ 63 ≤ z < 2 ^ 63 → wrap z = z.
Proof.
  intros Hz. unfold wrap.
  rewrite Z.mod_small; lia.
Qed.

Lemma wrap_add_l a b : wrap (wrap a + b) = wrap (a + b).
Proof.
  unfold wrap.
  replace ((a + 2 ^ 63) `mod` 2 ^ 64 - 2 ^ 63 + b + 2 ^ 63)
    with ((a + 2 ^ 63) `mod` 2 ^ 64 + b) by lia.
  rewrite Zplus_mod_idemp_l. do 2 f_equal. lia.
Qed.

Lemma addi_comm a b : addi a b = addi b a.
Proof. unfold addi. f_equal. lia. Qed.

Lemma addi_assoc a b c : addi (addi a b) c = addi a (addi b c).
Proof.
  unfold addi. rewrite wrap_add_l.
  rewrite (Z.add_comm a (wrap _)), wrap_add_l. f_equal. lia.
Qed.

Lemma calculateContentHeight_pos h : 1 ≤ calculateContentHeight h.
Proof. unfold calculateContentHeight. lia. Qed.

(** ** Reading the model through its setters *)

Section Viewport.
Context `{Externals}.

Lemma getItemHeight_setScrollOffset v m i :
  getItemHeight (setScrollOffset v m) i = getItemHeight m i.
Proof. reflexivity. Qed.

Lemma addHeights_setScrollOffset v m idx acc :
  addHeights (setScrollOffset v m) idx acc = addHeights m idx acc.
Proof.
  revert acc. induction idx as [|i idx IH]; intros acc; [done|].
  cbn [addHeights]. rewrite getItemHeight_setScrollOffset.
  destruct (getItemHeight m i); [apply IH | done].
Qed.

Lemma testLinesUsed_setScrollOffset v m s :
  testLinesUsed (setScrollOffset v m) s = testLinesUsed m s.
Proof. unfold testLinesUsed. apply addHeights_setScrollOffset. Qed.

(** ** No panic on a non-negative index *)

Lemma lookupZ_is_Some {A} (l : list A) i :
  0 ≤ i < len l → is_Some (lookupZ l i).
Proof.
  intros [Hlo Hhi]. unfold lookupZ, len in *.
  rewrite bool_decide_eq_true_2 by done.
  apply lookup_lt_is_Some. lia.
Qed.

Lemma getItemHeight_is_Some m i : 0 ≤ i → is_Some (getItemHeight m i).
Proof.
  intros Hi. unfold getItemHeight.
  destruct (mode m); cbn zeta; case_bool_decide; try done.
  - destruct (lookupZ_is_Some (getActiveEndpoints m) i) as [ep ->]; [lia|].
    cbn. by destruct (e_folded ep).
  - destruct (lookupZ_is_Some (getActiveComponents m) i) as [c ->]; [lia|].
    cbn. by destruct (c_folded c).
  - destruct (lookupZ_is_Some (getActiveWebhooks m) i) as [w ->]; [lia|].
    cbn. by destruct (w_folded w).
Qed.

Lemma addHeights_is_Some m idx acc :
  Forall (λ i, 0 ≤ i) idx → is_Some (addHeights m idx acc).
Proof.
  intros Hidx. revert acc.
  induction Hidx as [|i idx Hi _ IH]; intros acc; [done|].
  cbn [addHeights]. destruct (getItemHeight_is_Some m i Hi) as [h ->].
  apply IH.
Qed.

Lemma rowsFrom_nonneg m from : 0 ≤ from → Forall (λ i, 0 ≤ i) (rowsFrom m from).
Proof.
  intros Hfrom. apply Forall_forall. intros i Hi.
  apply elem_of_seqZ in Hi. lia.
Qed.

Lemma testLinesUsed_is_Some m s : 0 ≤ s → is_Some (testLinesUsed m s).
Proof.
  intros Hs. apply addHeights_is_Some, rowsFrom_nonneg, Hs.
Qed.

(** ** The two ways of counting the lines agree *)

Lemma addHeights_shift m idx a b :
  addHeights m idx (addi a b) = addi a <$> addHeights m idx b.
Proof.
  revert b. induction idx as [|i idx IH]; intros b; [done|].
  cbn [addHeights]. destruct (getItemHeight m i) as [h|]; [|done].
  cbn. rewrite addi_assoc. apply IH.
Qed.

Lemma linesUsed_testLinesUsed m :
  linesUsed m = testLinesUsed m (scrollOffset m).
Proof.
  unfold linesUsed, testLinesUsed.
  case_bool_decide.
  - rewrite (addi_comm 0 1), addHeights_shift.
    destruct (addHeights m _ 0) as [l|]; [|done].
    cbn. by rewrite addi_comm.
  - by destruct (addHeights m _ 0).
Qed.
End Viewport.

Section ViewportProofs.
Context `{Externals}.

Lemma fits_setScrollOffset v m s : fits (setScrollOffset v m) s = fits m s.
Proof. unfold fits, fitsIn. by rewrite testLinesUsed_setScrollOffset. Qed.

Lemma setScrollOffset_same m : setScrollOffset (scrollOffset m) m = m.
Proof. by destruct m. Qed.

(** The scan adopts the first candidate that fits, if there is one. *)
Lemma scanOffsets_seqZ (m : Model) (ch : Z) (n : nat) :
  ∀ a, 0 ≤ a →
    (∃ s, a ≤ s < a + Z.of_nat n ∧ fitsIn m ch s = true ∧
          (∀ s', a ≤ s' < s → fitsIn m ch s' = false) ∧
          scanOffsets m ch (seqZ a (Z.of_nat n)) = Some (setScrollOffset s m))
    ∨ ((∀ s, a ≤ s < a + Z.of_nat n → fitsIn m ch s = false) ∧
       scanOffsets m ch (seqZ a (Z.of_nat n)) = Some m).
Proof.
  induction n as [|n IH]; intros a Ha.
  - right. split; [lia | done].
  - rewrite seqZ_cons by lia.
    replace (Z.pred (Z.of_nat (S n))) with (Z.of_nat n) by lia.
    cbn [scanOffsets].
    destruct (testLinesUsed_is_Some m a Ha) as [t Ht].
    rewrite Ht. cbn.
    destruct (bool_decide (t ≤ ch)) eqn:Hfit.
    + left. exists a. unfold fitsIn. rewrite Ht.
      split_and!; [lia | lia | done | intros; lia | done].
    + destruct (IH (Z.succ a)) as [(s & Hs & Hfs & Hmin & Hscan)|[Hnone Hscan]];
        [lia | left | right].
      * exists s. split_and!; [lia | lia | done | | done].
        intros s' Hs'. destruct (decide (s' = a)) as [->|Hne].
        -- unfold fitsIn. by rewrite Ht.
        -- apply Hmin. lia.
      * split; [|done]. intros s Hs.
        destruct (decide (s = a)) as [->|Hne].
        -- unfold fitsIn. by rewrite Ht.
        -- apply Hnone. lia.
Qed.

Lemma fits_no_items m s : itemsLen m = 0 → 0 ≤ s → fits m s = true.
Proof.
  intros Hlen Hs. unfold fits, fitsIn, testLinesUsed, rowsFrom.
  rewrite Hlen.
  replace (seqZ s (Z.min (cursor m + 1) 0 - s)) with (@nil Z).
  2:{ symmetry. apply length_zero_iff_nil. rewrite length_seqZ. lia. }
  cbn [addHeights]. pose proof (calculateContentHeight_pos (height m)).
  apply bool_decide_eq_true_2.
  case_bool_decide; [change (addi 0 1) with 1|]; lia.
Qed.

(** ** The count of the source and the plain sum *)

Lemma sumHeights_nonneg m idx :
  Forall (λ i, 0 ≤ heightAt m i) idx → 0 ≤ sumHeights m idx.
Proof.
  induction 1 as [|i idx Hi _ IH]; [done|].
  change (0 ≤ heightAt m i + sumHeights m idx). lia.
Qed.

Lemma addHeights_plain m idx acc :
  Forall (λ i, 0 ≤ i) idx → Forall (λ i, 0 ≤ heightAt m i) idx →
  0 ≤ acc → acc + sumHeights m idx < 2 ^ 63 →
  addHeights m idx acc = Some (acc + sumHeights m idx).
Proof.
  intros Hidx. revert acc.
  induction Hidx as [|i idx Hi _ IH]; intros acc Hh Hacc Hsum.
  - cbn. f_equal. lia.
  - apply Forall_cons in Hh as [Hhi Hh].
    pose proof (sumHeights_nonneg m idx Hh) as Hrest.
    change (sumHeights m (i :: idx)) with (heightAt m i + sumHeights m idx) in *.
    cbn [addHeights]. unfold heightAt in Hhi, Hsum |- *.
    destruct (getItemHeight_is_Some m i Hi) as [h Hgh].
    rewrite Hgh in *. cbn [default mbind option_bind] in *. unfold id in *.
    unfold addi. rewrite wrap_id by lia.
    rewrite IH by (done || lia). f_equal. lia.
Qed.

(** Without overflow, and with the cursor on an item, the count of the
    source is the plain sum. *)
Lemma testLinesUsed_cumulativeHeight m s :
  0 ≤ s → cursor m < itemsLen m →
  (∀ i, s ≤ i ≤ cursor m → 0 ≤ heightAt m i) →
  cumulativeHeight m s < 2 ^ 63 →
  testLinesUsed m s = Some (cumulativeHeight m s).
Proof.
  intros Hs Hcur Hh Hsum. unfold testLinesUsed, cumulativeHeight, rowsFrom in *.
  replace (Z.min (cursor m + 1) (itemsLen m) - s) with (cursor m - s + 1) by lia.
  assert (Forall (λ i, 0 ≤ i) (seqZ s (cursor m - s + 1))) as Hidx.
  { apply Forall_forall. intros i Hi. apply elem_of_seqZ in Hi. lia. }
  assert (Forall (λ i, 0 ≤ heightAt m i) (seqZ s (cursor m - s + 1))) as Hhs.
  { apply Forall_forall. intros i Hi. apply elem_of_seqZ in Hi. apply Hh. lia. }
  pose proof (sumHeights_nonneg m _ Hhs).
  case_bool_decide.
  - change (addi 0 1) with 1. apply addHeights_plain; (done || lia).
  - apply addHeights_plain; (done || lia).
Qed.

End ViewportProofs.

Section ViewportTheorems.
Context `{Externals}.

Lemma ensureCursorVisible_top m :
  cursor m = 0 → ensureCursorVisible m = Some (setScrollOffset 0 m).
Proof.
  intros Hc. unfold ensureCursorVisible.
  by rewrite bool_decide_eq_true_2.
Qed.

Lemma ensureCursorVisible_above m :
  cursor m ≠ 0 → itemsLen m ≠ 0 → cursor m < scrollOffset m →
  ensureCursorVisible m = Some (setScrollOffset (cursor m) m).
Proof.
  intros Hc Hlen Hlt. unfold ensureCursorVisible.
  rewrite bool_decide_eq_false_2 by done.
  rewrite bool_decide_eq_false_2 by done.
  by rewrite bool_decide_eq_true_2.
Qed.

Lemma ensureCursorVisible_scan m s0 :
  cursor m ≠ 0 → cursor m < 2 ^ 63 →
  0 ≤ scrollOffset m ≤ s0 → s0 ≤ cursor m →
  fits m s0 = true →
  ∃ s, ensureCursorVisible m = Some (setScrollOffset s m) ∧
       scrollOffset m ≤ s ≤ s0 ∧
       fits m s = true ∧
       ∀ s', scrollOffset m ≤ s' < s → fits m s' = false.
Proof.
  intros Hc Hint [Hold Hs0] Hs0c Hfit0.
  unfold ensureCursorVisible.
  rewrite bool_decide_eq_false_2 by done.
  case_bool_decide as Hlen.
  { exists (scrollOffset m). rewrite setScrollOffset_same.
    split_and!; [done | lia | lia | by apply fits_no_items | intros; lia]. }
  rewrite bool_decide_eq_false_2 by lia.
  rewrite linesUsed_testLinesUsed.
  destruct (testLinesUsed_is_Some m (scrollOffset m) Hold) as [used Hused].
  rewrite Hused. cbn.
  assert (Hfold : fits m (scrollOffset m)
                  = bool_decide (used ≤ calculateContentHeight (height m))).
  { unfold fits, fitsIn. by rewrite Hused. }
  destruct (decide (used > calculateContentHeight (height m))) as [Hover|Hok].
  - (* the current offset is too small: scan *)
    rewrite (bool_decide_eq_true_2 _ Hover). cbn.
    assert (fits m (scrollOffset m) = false) as Hnofit.
    { rewrite Hfold. apply bool_decide_eq_false_2. lia. }
    assert (scrollOffset m < s0) as Hlt.
    { destruct (decide (s0 = scrollOffset m)) as [->|]; [congruence | lia]. }
    unfold scanCandidates, addi. rewrite wrap_id by lia.
    replace (cursor m - (scrollOffset m + 1) + 1)
      with (Z.of_nat (Z.to_nat (cursor m - scrollOffset m))) by lia.
    destruct (scanOffsets_seqZ m (calculateContentHeight (height m))
                (Z.to_nat (cursor m - scrollOffset m)) (scrollOffset m + 1))
      as [(s & Hs & Hfs & Hmin & ->)|[Hnone _]]; [lia | |].
    + cbn. rewrite bool_decide_eq_false_2 by (cbn; lia).
      exists s. split; [done|].
      assert (s ≤ s0) as Hle.
      { destruct (decide (s ≤ s0)) as [|Hgt]; [done|].
        unfold fits in Hfit0. rewrite Hmin in Hfit0 by lia. done. }
      split_and!; [lia | done | done |].
      intros s' Hs'. destruct (decide (s' = scrollOffset m)) as [->|]; [done|].
      apply Hmin. lia.
    + unfold fits in Hfit0. rewrite Hnone in Hfit0 by lia. done.
  - (* the current offset already fits *)
    rewrite (bool_decide_eq_false_2 _ Hok). cbn.
    rewrite bool_decide_eq_false_2 by lia.
    exists (scrollOffset m). rewrite setScrollOffset_same.
    split_and!; [done | lia | lia | | intros; lia].
    rewrite Hfold. apply bool_decide_eq_true_2. lia.
Qed.

(** The recompute below the first item, from an offset that is not
    negative and not below the cursor: it does not panic, and either the
    new offset is the first that fits from the old one on, or none up to
    the cursor fits and the offset stays. *)
Lemma ensureCursorVisible_cases m :
  cursor m ≠ 0 → cursor m < 2 ^ 63 - 1 → itemsLen m ≠ 0 →
  0 ≤ scrollOffset m ≤ cursor m →
  ∃ s, ensureCursorVisible m = Some (setScrollOffset s m) ∧
       scrollOffset m ≤ s ≤ cursor m ∧
       ((fits m s = true ∧ ∀ s', scrollOffset m ≤ s' < s → fits m s' = false)
        ∨ (s = scrollOffset m ∧
           ∀ s', scrollOffset m ≤ s' ≤ cursor m → fits m s' = false)).
Proof.
  intros Hc Hint Hlen [Hold Hle].
  unfold ensureCursorVisible.
  rewrite !bool_decide_eq_false_2 by (done || lia).
  rewrite linesUsed_testLinesUsed.
  destruct (testLinesUsed_is_Some m (scrollOffset m) Hold) as [used Hused].
  rewrite Hused. cbn.
  assert (Hfold : fits m (scrollOffset m)
                  = bool_decide (used ≤ calculateContentHeight (height m))).
  { unfold fits, fitsIn. by rewrite Hused. }
  destruct (decide (used > calculateContentHeight (height m))) as [Hover|Hok].
  - rewrite (bool_decide_eq_true_2 _ Hover). cbn.
    assert (fits m (scrollOffset m) = false) as Hnofit.
    { rewrite Hfold. apply bool_decide_eq_false_2. lia. }
    unfold scanCandidates, addi. rewrite wrap_id by lia.
    replace (cursor m - (scrollOffset m + 1) + 1)
      with (Z.of_nat (Z.to_nat (cursor m - scrollOffset m))) by lia.
    destruct (scanOffsets_seqZ m (calculateContentHeight (height m))
                (Z.to_nat (cursor m - scrollOffset m)) (scrollOffset m + 1))
      as [(s & Hs & Hfs & Hmin & ->)|[Hnone ->]]; [lia | |].
    + cbn. rewrite bool_decide_eq_false_2 by (cbn; lia).
      exists s. split_and!; [done | lia | lia |].
      left. split; [done|].
      intros s' Hs'. destruct (decide (s' = scrollOffset m)) as [->|]; [done|].
      apply Hmin. lia.
    + cbn. rewrite bool_decide_eq_false_2 by lia.
      exists (scrollOffset m). rewrite setScrollOffset_same.
      split_and!; [done | lia | lia |].
      right. split; [done|].
      intros s' Hs'. destruct (decide (s' = scrollOffset m)) as [->|]; [done|].
      apply Hnone. lia.
  - rewrite (bool_decide_eq_false_2 _ Hok). cbn.
    rewrite bool_decide_eq_false_2 by lia.
    exists (scrollOffset m). rewrite setScrollOffset_same.
    split_and!; [done | lia | lia |].
    left. split; [|intros; lia].
    rewrite Hfold. apply bool_decide_eq_true_2. lia.
Qed.

(** When no offset from the current one to the cursor fits, the offset
    stays where it was. *)
Lemma ensureCursorVisible_no_fit m :
  cursor m ≠ 0 → cursor m < 2 ^ 63 - 1 → itemsLen m ≠ 0 →
  0 ≤ scrollOffset m ≤ cursor m →
  (∀ s, scrollOffset m ≤ s ≤ cursor m → fits m s = false) →
  ensureCursorVisible m = Some m.
Proof.
  intros Hc Hint Hlen Hold Hnone.
  destruct (ensureCursorVisible_cases m Hc Hint Hlen Hold)
    as (s & -> & Hs & [[Hfit _]|[-> _]]).
  - rewrite Hnone in Hfit by lia. done.
  - by rewrite setScrollOffset_same.
Qed.

(** With the cursor on an item and an offset that is not negative, the
    recompute does not panic and leaves [0 <= scrollOffset <= cursor]. *)
Lemma ensureCursorVisible_offset_in_range m :
  0 ≤ cursor m < itemsLen m → cursor m < 2 ^ 63 - 1 → 0 ≤ scrollOffset m →
  ∃ s, ensureCursorVisible m = Some (setScrollOffset s m) ∧ 0 ≤ s ≤ cursor m.
Proof.
  intros [Hc Hlen] Hint Hold.
  destruct (decide (cursor m = 0)) as [Hz|Hnz].
  { exists 0. split; [by apply ensureCursorVisible_top | lia]. }
  destruct (decide (cursor m < scrollOffset m)) as [Hlt|Hge].
  { exists (cursor m). split; [apply ensureCursorVisible_above; lia | lia]. }
  destruct (ensureCursorVisible_cases m) as (s & Hres & Hs & _);
    [done | done | lia | lia |].
  exists s. split; [done | lia].
Qed.

(** ** The bound, in rendered heights *)

Lemma sumHeights_app m l1 l2 :
  sumHeights m (l1 ++ l2) = sumHeights m l1 + sumHeights m l2.
Proof.
  induction l1 as [|i l1 IH]; [done|].
  change (heightAt m i + sumHeights m (l1 ++ l2)
          = heightAt m i + sumHeights m l1 + sumHeights m l2). lia.
Qed.

Lemma heightsInRange_from m s :
  heightsInRange m → 0 ≤ s ≤ cursor m →
  (∀ i, s ≤ i ≤ cursor m → 0 ≤ heightAt m i) ∧
  cumulativeHeight m s < 2 ^ 63.
Proof.
  intros [Hh Hsum] Hs.
  assert (∀ i, 0 ≤ i ≤ cursor m → 0 ≤ heightAt m i) as Hall.
  { intros i Hi. rewrite Forall_forall in Hh. apply Hh, elem_of_seqZ. lia. }
  split; [intros i Hi; apply Hall; lia|].
  replace (cursor m + 1) with (s + (cursor m - s + 1)) in Hsum by lia.
  rewrite seqZ_app, sumHeights_app in Hsum by lia.
  assert (0 ≤ sumHeights m (seqZ 0 s)) as Hpre.
  { apply sumHeights_nonneg, Forall_forall. intros i Hi.
    apply elem_of_seqZ in Hi. apply Hall. lia. }
  unfold cumulativeHeight. change (0 + s) with s in Hsum.
  case_bool_decide; lia.
Qed.

(** With the cursor on an item and no overflow, the test of the source
    is the bound on the rendered heights. *)
Lemma fits_cumulativeHeight m s :
  cursor m < itemsLen m → heightsInRange m → 0 ≤ s ≤ cursor m →
  fits m s = bool_decide (cumulativeHeight m s ≤ calculateContentHeight (height m)).
Proof.
  intros Hcur Hin Hs.
  destruct (heightsInRange_from m s Hin Hs) as [Hh Hsum].
  unfold fits, fitsIn.
  by rewrite testLinesUsed_cumulativeHeight by (done || lia).
Qed.

Lemma cumulativeHeight_cursor m :
  0 < cursor m → cumulativeHeight m (cursor m) = 1 + heightAt m (cursor m).
Proof.
  intros Hc. unfold cumulativeHeight.
  rewrite bool_decide_eq_true_2 by lia.
  replace (cursor m - cursor m + 1) with 1 by lia.
  change (seqZ (cursor m) 1) with [cursor m].
  change (sumHeights m [cursor m]) with (heightAt m (cursor m) + 0). lia.
Qed.

(** C1, as amended.  After the scroll recompute: with the cursor at 0 the
    offset is 0; with the cursor above the old offset (and a collection
    that is not empty) the offset becomes the cursor; otherwise, with
    the cursor on an item and no overflow, when some offset [s0] between
    the old offset and the cursor satisfies the bound (the rendered
    heights of the items from the offset through the cursor, and one
    line for the indicator when the offset is positive, are at most the
    content height), the new offset satisfies the bound and every
    offset from the old one up to it exceeds it. *)
Theorem ensureCursorVisible_least_fit_from_old (m : Model) :
  (cursor m = 0 → ensureCursorVisible m = Some (setScrollOffset 0 m)) ∧
  (cursor m ≠ 0 → itemsLen m ≠ 0 → cursor m < scrollOffset m →
     ensureCursorVisible m = Some (setScrollOffset (cursor m) m)) ∧
  (∀ s0, 0 < cursor m < 2 ^ 63 → cursor m < itemsLen m → heightsInRange m →
     0 ≤ scrollOffset m ≤ s0 → s0 ≤ cursor m →
     cumulativeHeight m s0 ≤ calculateContentHeight (height m) →
     ∃ s, ensureCursorVisible m = Some (setScrollOffset s m) ∧
          scrollOffset m ≤ s ≤ s0 ∧
          cumulativeHeight (setScrollOffset s m) s
            ≤ calculateContentHeight (height (setScrollOffset s m)) ∧
          ∀ s', scrollOffset m ≤ s' < s →
            calculateContentHeight (height (setScrollOffset s m))
              < cumulativeHeight (setScrollOffset s m) s').
Proof.
  split_and!.
  - apply ensureCursorVisible_top.
  - apply ensureCursorVisible_above.
  - intros s0 [Hpos Hint] Hcur Hin Hold Hs0 Hfit.
    destruct (ensureCursorVisible_scan m s0) as (s & Hres & Hrange & Hfs & Hmin);
      [lia | done | done | done | |].
    { rewrite fits_cumulativeHeight by (done || lia).
      by apply bool_decide_eq_true_2. }
    exists s. split_and!; [done | lia | lia | | ].
    + change (cumulativeHeight m s ≤ calculateContentHeight (height m)).
      rewrite fits_cumulativeHeight in Hfs by (done || lia).
      by apply bool_decide_eq_true_1 in Hfs.
    + intros s' Hs'.
      change (calculateContentHeight (height m) < cumulativeHeight m s').
      specialize (Hmin s' Hs').
      rewrite fits_cumulativeHeight in Hmin by (done || lia).
      apply bool_decide_eq_false_1 in Hmin. lia.
Qed.

(** C2, as amended.  When the cursor points at an item below the first
    and the rendered height of that item, with the indicator line above
    it, is at most the content height, the scroll recompute leaves an
    offset from which the rendered heights through the cursor item, and
    the indicator line, are at most the content height: the item is not
    clipped from below.  In particular, with content height 10, five
    items of height 1, then at index 5 an item of rendered height 9 and
    after it one of height 1, the key [down] from index 4 moves the
    cursor onto index 5 and scrolls to offset 5, from which the
    indicator line and the 9 lines of the item fill the 10 lines. *)
Theorem cursor_item_not_clipped (m : Model) (rt : Runtime) :
  (0 < cursor m < 2 ^ 63 → cursor m < itemsLen m → 0 ≤ scrollOffset m →
   heightsInRange m →
   1 + heightAt m (cursor m) ≤ calculateContentHeight (height m) →
   ∃ s, ensureCursorVisible m = Some (setScrollOffset s m) ∧
        0 ≤ s ≤ cursor m ∧
        cumulativeHeight (setScrollOffset s m) s
          ≤ calculateContentHeight (height (setScrollOffset s m))) ∧
  (∃ m', Update (sixthOpen 7) (KeyMsg "down") rt = Some (m', cmdNil) ∧
         calculateContentHeight (height m') = 10 ∧
         heightAt m' <$> [0; 1; 2; 3; 4; 5; 6] = [1; 1; 1; 1; 1; 9; 1] ∧
         cursor m' = 5 ∧ scrollOffset m' = 5 ∧
         cumulativeHeight m' (scrollOffset m') = 10).
Proof.
  split.
  - intros [Hpos Hint] Hlen Hold Hin Hitem.
    assert (fits m (cursor m) = true) as Hfit.
    { rewrite fits_cumulativeHeight by (done || lia).
      apply bool_decide_eq_true_2. rewrite cumulativeHeight_cursor by done. lia. }
    assert (∀ s, 0 ≤ s ≤ cursor m → fits m s = true →
                 cumulativeHeight m s ≤ calculateContentHeight (height m)) as Hb.
    { intros s Hs Hf. rewrite fits_cumulativeHeight in Hf by done.
      by apply bool_decide_eq_true_1 in Hf. }
    destruct (decide (cursor m < scrollOffset m)) as [Hlt|Hge].
    + exists (cursor m).
      split_and!; [apply ensureCursorVisible_above; lia | lia | lia |].
      apply Hb; [lia | done].
    + destruct (ensureCursorVisible_scan m (cursor m))
        as (s & Hres & Hrange & Hfs & _); [lia | lia | lia | lia | done |].
      exists s. split_and!; [done | lia | lia |].
      apply Hb; [lia | done].
  - eexists. split; [vm_compute; reflexivity|].
    split_and!; vm_compute; reflexivity.
Qed.

End ViewportTheorems.

(** ** The handler, key by key *)

Section HandlerProofs.
Context `{Externals}.

Lemma filterItems_shape m :
  ∃ fe fc fw, filterItems m = setFiltered fe fc fw m.
Proof. unfold filterItems. case_bool_decide; eauto. Qed.

Lemma Update_search m k rt :
  searchMode m = true → Update m (KeyMsg k) rt = updateSearch m k.
Proof. intros Hs. cbn. by rewrite Hs. Qed.

Lemma Update_browse m k rt :
  searchMode m = false → Update m (KeyMsg k) rt = updateBrowse m k rt.
Proof. intros Hs. cbn. by rewrite Hs. Qed.

Lemma keyIs_ne k name : k ≠ name → keyIs k name = false.
Proof. intros Hne. unfold keyIs. by apply String.eqb_neq. Qed.

Lemma updateSearch_esc m :
  updateSearch m "esc" =
  Some (setScrollOffset 0 (setCursor 0 (filterItems
          (setSearchInput (ti_SetValue "" (searchInput m))
             (setSearchMode false m)))), cmdNil).
Proof. reflexivity. Qed.

Lemma updateSearch_enter m :
  updateSearch m "enter" =
  Some (setSearchInput (ti_Blur (searchInput m)) (setSearchMode false m), cmdNil).
Proof. reflexivity. Qed.

Lemma updateSearch_other m k :
  k ≠ "esc" → k ≠ "ctrl+c" → k ≠ "enter" →
  updateSearch m k =
  Some (setScrollOffset 0 (setCursor 0 (filterItems
          (setSearchInput (textinput_Update (searchInput m) k).1 m))),
        (textinput_Update (searchInput m) k).2).
Proof.
  intros H1 H2 H3. unfold updateSearch.
  rewrite !keyIs_ne by done.
  by destruct (textinput_Update (searchInput m) k).
Qed.

(** C10.  In search mode, a key other than escape, confirm and interrupt
    goes to the text input; the three filtered collections are then
    rebuilt from the masters with the new query, and the cursor and the
    scroll offset are set to 0. *)
Theorem search_keystroke_refilters_and_resets (m : Model) (k : string) (rt : Runtime) :
  searchMode m = true → k ≠ "esc" → k ≠ "ctrl+c" → k ≠ "enter" →
  let input := (textinput_Update (searchInput m) k).1 in
  let cmd := (textinput_Update (searchInput m) k).2 in
  let query := strings_ToLower (ti_Value input) in
  ∃ m', Update m (KeyMsg k) rt = Some (m', cmd) ∧
        searchInput m' = input ∧
        cursor m' = 0 ∧ scrollOffset m' = 0 ∧
        searchMode m' = true ∧
        endpoints m' = endpoints m ∧ components m' = components m ∧
        webhooks m' = webhooks m ∧
        filteredEndpoints m' =
          (if bool_decide (query = "") then []
           else List.filter (matchesEndpoint query) (endpoints m)) ∧
        filteredComponents m' =
          (if bool_decide (query = "") then []
           else List.filter (matchesComponent query) (components m)) ∧
        filteredWebhooks m' =
          (if bool_decide (query = "") then []
           else List.filter (matchesWebhook query) (webhooks m)).
Proof.
  intros Hs H1 H2 H3 input cmd query.
  rewrite Update_search, updateSearch_other by done.
  eexists. split; [reflexivity|].
  unfold filterItems. cbn [searchInput setSearchInput].
  fold input. fold query.
  case_bool_decide; cbn; by rewrite ?Hs.
Qed.



End HandlerProofs.

Section NavigationProofs.
Context `{Externals}.

Lemma updateBrowse_tab m k rt :
  k = "tab" ∨ k = "L" →
  updateBrowse m k rt =
  if negb (showHelp m)
  then Some (setScrollOffset 0 (setCursor 0 (setMode (cycleForward m) m)), cmdNil)
  else Some (m, cmdNil).
Proof. by intros [-> | ->]. Qed.

Lemma updateBrowse_shift_tab m k rt :
  k = "shift+tab" ∨ k = "H" →
  updateBrowse m k rt =
  if negb (showHelp m)
  then Some (setScrollOffset 0 (setCursor 0 (setMode (cycleBackward m) m)), cmdNil)
  else Some (m, cmdNil).
Proof. by intros [-> | ->]. Qed.

Lemma updateBrowse_g m rt :
  updateBrowse m "g" rt = (m' ← keyG m (rt_now rt); Some (m', cmdNil)).
Proof. reflexivity. Qed.

(** C7, as amended.  Committing a search (confirm in search mode) leaves
    search mode and keeps the query, the cursor and the scroll offset as
    they are.  Clearing a search (escape in search mode) empties the
    query and sets the cursor and the scroll offset to 0.  Switching the
    view (outside search mode, no help overlay) sets the cursor and the
    scroll offset to 0. *)
Theorem commit_keeps_cursor_clear_and_switch_reset (m : Model) (rt : Runtime) :
  (searchMode m = true →
     ∃ m', Update m (KeyMsg "enter") rt = Some (m', cmdNil) ∧
           searchMode m' = false ∧
           ti_Value (searchInput m') = ti_Value (searchInput m) ∧
           cursor m' = cursor m ∧ scrollOffset m' = scrollOffset m) ∧
  (searchMode m = true →
     ∃ m', Update m (KeyMsg "esc") rt = Some (m', cmdNil) ∧
           searchMode m' = false ∧
           ti_Value (searchInput m') = "" ∧
           cursor m' = 0 ∧ scrollOffset m' = 0) ∧
  (searchMode m = false → showHelp m = false →
     (∀ k, k = "tab" ∨ k = "L" →
        ∃ m', Update m (KeyMsg k) rt = Some (m', cmdNil) ∧
              mode m' = cycleForward m ∧ cursor m' = 0 ∧ scrollOffset m' = 0) ∧
     (∀ k, k = "shift+tab" ∨ k = "H" →
        ∃ m', Update m (KeyMsg k) rt = Some (m', cmdNil) ∧
              mode m' = cycleBackward m ∧ cursor m' = 0 ∧ scrollOffset m' = 0)).
Proof.
  split_and!.
  - intros Hs. rewrite Update_search, updateSearch_enter by done.
    eexists. split; [reflexivity | done].
  - intros Hs. rewrite Update_search, updateSearch_esc by done.
    eexists. split; [reflexivity|].
    destruct (filterItems_shape
                (setSearchInput (ti_SetValue "" (searchInput m))
                   (setSearchMode false m))) as (fe & fc & fw & ->).
    done.
  - intros Hs Hh. split; intros k Hk.
    + rewrite Update_browse, (updateBrowse_tab _ _ _ Hk), Hh by done.
      eexists. split; [reflexivity | done].
    + rewrite Update_browse, (updateBrowse_shift_tab _ _ _ Hk), Hh by done.
      eexists. split; [reflexivity | done].
Qed.

Lemma press_records m rt :
  searchMode m = false → lastKey m ≠ "g" →
  Update m (KeyMsg "g") rt
  = Some (setLastKeyAt (rt_now rt) (setLastKey "g" m), cmdNil).
Proof.
  intros Hs Hk. rewrite Update_browse, updateBrowse_g by done.
  unfold keyG. by rewrite bool_decide_eq_false_2.
Qed.

(** The [g] case against the gesture memory.  Outside search mode, a
    press of [g] is taken for the second of a pair when the memory holds
    [g] from less than 500 ms before.  Then the memory is emptied, and,
    unless the help overlay is open, the cursor and the scroll offset
    become 0; with the help overlay open they stay.  A press that
    follows, whenever it comes, only fills the memory again.  A press
    that finds no [g] in the memory, or one from 500 ms or more before,
    leaves the cursor and the scroll offset and records itself. *)
Lemma double_press_jumps_to_top (m : Model) (rt : Runtime) :
  searchMode m = false →
  ∃ m', Update m (KeyMsg "g") rt = Some (m', cmdNil) ∧
    (lastKey m = "g" ∧ Time_Sub (rt_now rt) (lastKeyAt m) < keySequenceThreshold →
       lastKey m' = "" ∧ lastKeyAt m' = zeroTime ∧
       (showHelp m = false → cursor m' = 0 ∧ scrollOffset m' = 0) ∧
       (showHelp m = true →
          cursor m' = cursor m ∧ scrollOffset m' = scrollOffset m) ∧
       ∀ rt', ∃ m'', Update m' (KeyMsg "g") rt' = Some (m'', cmdNil) ∧
                     cursor m'' = cursor m' ∧
                     scrollOffset m'' = scrollOffset m' ∧
                     lastKey m'' = "g" ∧ lastKeyAt m'' = rt_now rt') ∧
    (¬ (lastKey m = "g" ∧
        Time_Sub (rt_now rt) (lastKeyAt m) < keySequenceThreshold) →
       cursor m' = cursor m ∧ scrollOffset m' = scrollOffset m ∧
       lastKey m' = "g" ∧ lastKeyAt m' = rt_now rt).
Proof.
  intros Hs. rewrite Update_browse, updateBrowse_g by done.
  unfold keyG.
  destruct (decide (lastKey m = "g" ∧
                    Time_Sub (rt_now rt) (lastKeyAt m) < keySequenceThreshold))
    as [[Hk Ht]|Hno].
  - rewrite !bool_decide_eq_true_2 by done. cbn [andb].
    destruct (showHelp m) eqn:Hh; cbn [negb].
    + eexists. split; [reflexivity|]. split; [|tauto].
      intros _. split_and!; try done.
      intros rt'. eexists. split; [by apply press_records|done].
    + rewrite ensureCursorVisible_top by done. cbn.
      eexists. split; [reflexivity|]. split; [|tauto].
      intros _. split_and!; try done.
      intros rt'. eexists. split; [by apply press_records|done].
  - assert (bool_decide (lastKey m = "g") &&
            bool_decide (Time_Sub (rt_now rt) (lastKeyAt m) < keySequenceThreshold)
            = false) as ->.
    { apply andb_false_iff.
      destruct (decide (lastKey m = "g")) as [Hk|Hk].
      - right. apply bool_decide_eq_false_2. tauto.
      - left. by apply bool_decide_eq_false_2. }
    cbn. eexists. split; [reflexivity|]. split; [tauto | done].
Qed.

(** With the help overlay open (outside search mode) no key moves the
    cursor, scrolls, switches the view or touches a master collection. *)
Lemma help_overlay_frame m k rt :
  searchMode m = false → showHelp m = true →
  ∃ m' cmd, Update m (KeyMsg k) rt = Some (m', cmd) ∧
    cursor m' = cursor m ∧ scrollOffset m' = scrollOffset m ∧
    mode m' = mode m ∧
    endpoints m' = endpoints m ∧ components m' = components m ∧
    webhooks m' = webhooks m.
Proof.
  intros Hs Hh. rewrite Update_browse by done.
  unfold updateBrowse, keyCurl, keyToggle, keyG.
  rewrite Hh, Hs. cbn [negb andb].
  repeat match goal with
         | |- context [keyIs k ?name] =>
             destruct (keyIs k name); cbn [orb];
             [by (repeat case_match; cbn; eauto 10)|]
         end.
  eauto 10.
Qed.

End NavigationProofs.

(** ** The command generator *)

Lemma short_permutations_agree {A} (l l1 l2 : list A) :
  (length l ≤ 1)%nat → l1 ≡ₚ l → l2 ≡ₚ l → l1 = l2.
Proof.
  intros Hlen H1 H2.
  destruct l as [|x [|y l]]; [| |cbn in Hlen; lia].
  - apply Permutation_nil_r in H1, H2. congruence.
  - apply Permutation_singleton_r in H1, H2. congruence.
Qed.


(** With at most one header the walk of the map has one order, and two
    runs of [generateCurl] agree. *)
Lemma generateCurl_one_header (o1 o2 : MapOrder) ep doc :
  (size (curlHeaders ep doc) ≤ 1)%nat →
  generateCurl o1 ep doc = generateCurl o2 ep doc.
Proof.
  intros Hsize. unfold generateCurl.
  rewrite (short_permutations_agree (map_to_list (curlHeaders ep doc))
             (rangeOver o1 (curlHeaders ep doc))
             (rangeOver o2 (curlHeaders ep doc))); [done | | |].
  - by rewrite length_map_to_list.
  - apply rangeOver_perm.
  - apply rangeOver_perm.
Qed.

(** ** The examples: witnesses and failing inputs *)

Section Examples.
#[local] Existing Instance plainExternals.

Example afterResize_reached :
  run threeComponents
      [(WindowSizeMsg 80 10, at_ 0); key "j" 0; key "j" 0;
       (WindowSizeMsg 80 24, at_ 0)]
  = Some (setCursor 2 (setScrollOffset 2 threeComponents)).
Proof. vm_compute. reflexivity. Qed.

(** C1 fails as stated, in both halves.  From [afterResize] the
    recompute yields offset 1, which satisfies the bound (2 lines of 16),
    and so does the smaller offset 0 (2 lines).  From [tallSecond] it
    leaves offset 0, from which the rendered heights through the cursor
    item are 23, more than the content height 16. *)
Lemma recompute_not_least_nor_bounded :
  (m ← ensureCursorVisible afterResize;
   Some (cursor m, scrollOffset m, fits m (scrollOffset m), fits m 0,
         cumulativeHeight m (scrollOffset m), cumulativeHeight m 0,
         calculateContentHeight (height m)))
  = Some (1, 1, true, true, 2, 2, 16)
  ∧
  (m ← ensureCursorVisible tallSecond;
   Some (cursor m, scrollOffset m, testLinesUsed m (scrollOffset m),
         calculateContentHeight (height m), fits m (scrollOffset m),
         cumulativeHeight m (scrollOffset m)))
  = Some (1, 0, Some 23, 16, false, 23).
Proof. split; vm_compute; reflexivity. Qed.

Lemma ensureCursorVisible_least_fit_from_old_witness :
  ensureCursorVisible (setCursor 0 (sixthOpen 7))
  = Some (setScrollOffset 0 (setCursor 0 (sixthOpen 7)))
  ∧ ensureCursorVisible afterResize = Some (setScrollOffset 1 afterResize)
  ∧ heightsInRange (setCursor 5 (sixthOpen 7))
  ∧ cumulativeHeight (setCursor 5 (sixthOpen 7)) 5
    ≤ calculateContentHeight (height (setCursor 5 (sixthOpen 7)))
  ∧ ∃ s, ensureCursorVisible (setCursor 5 (sixthOpen 7))
         = Some (setScrollOffset s (setCursor 5 (sixthOpen 7))) ∧
         0 ≤ s ≤ 5 ∧
         cumulativeHeight (setScrollOffset s (setCursor 5 (sixthOpen 7))) s ≤ 10 ∧
         ∀ s', 0 ≤ s' < s →
               10 < cumulativeHeight (setScrollOffset s (setCursor 5 (sixthOpen 7))) s'.
Proof.
  assert (heightsInRange (setCursor 5 (sixthOpen 7))) as Hin
    by (split; [compute_done | reflexivity]).
  assert (cumulativeHeight (setCursor 5 (sixthOpen 7)) 5
          ≤ calculateContentHeight (height (setCursor 5 (sixthOpen 7)))) as Hfit
    by (by vm_compute).
  split_and!; [| | exact Hin | exact Hfit |].
  - apply (proj1 (ensureCursorVisible_least_fit_from_old
                    (setCursor 0 (sixthOpen 7)))).
    reflexivity.
  - apply (proj1 (proj2 (ensureCursorVisible_least_fit_from_old afterResize)));
      [discriminate | discriminate | reflexivity].
  - apply (proj2 (proj2 (ensureCursorVisible_least_fit_from_old
                           (setCursor 5 (sixthOpen 7)))) 5);
      [split; reflexivity | reflexivity | exact Hin | split; by vm_compute
      | by vm_compute | exact Hfit].
Defined.

(** C2 fails as stated.  In the scenario (content height 10, the item at
    index 5 of rendered height 10, its neighbours of height 1) the key
    [down] moves the cursor onto index 5 and the offset stays 0: the
    rendered heights through the last line of the cursor item are 15,
    so only 5 of its 10 lines are within the content height.  No offset
    would do: from each of 0 to 5 the heights through the cursor item,
    with the indicator line, are more than 10. *)
Lemma tall_item_clipped_in_scenario :
  (r ← Update (sixthOpen 8) (KeyMsg "down") (at_ 0);
   Some (cursor r.1, scrollOffset r.1, getItemHeight r.1 5,
         calculateContentHeight (height r.1),
         testLinesUsed r.1 (scrollOffset r.1), fits r.1 (scrollOffset r.1),
         cumulativeHeight r.1 (scrollOffset r.1),
         cumulativeHeight r.1 <$> [0; 1; 2; 3; 4; 5]))
  = Some (5, 0, Some 10, 10, Some 15, false, 15, [15; 15; 14; 13; 12; 11]).
Proof. vm_compute. reflexivity. Qed.

Lemma cursor_item_not_clipped_witness :
  heightsInRange (setCursor 5 (sixthOpen 7)) ∧
  1 + heightAt (setCursor 5 (sixthOpen 7)) 5
    ≤ calculateContentHeight (height (setCursor 5 (sixthOpen 7))) ∧
  ∃ s, ensureCursorVisible (setCursor 5 (sixthOpen 7))
       = Some (setScrollOffset s (setCursor 5 (sixthOpen 7))) ∧
       0 ≤ s ≤ 5 ∧
       cumulativeHeight (setScrollOffset s (setCursor 5 (sixthOpen 7))) s ≤ 10.
Proof.
  assert (heightsInRange (setCursor 5 (sixthOpen 7))) as Hin
    by (split; [compute_done | reflexivity]).
  assert (1 + heightAt (setCursor 5 (sixthOpen 7)) 5
          ≤ calculateContentHeight (height (setCursor 5 (sixthOpen 7)))) as Hitem
    by (by vm_compute).
  split; [exact Hin|]. split; [exact Hitem|].
  apply (proj1 (cursor_item_not_clipped (setCursor 5 (sixthOpen 7)) (at_ 0)));
    [split; reflexivity | reflexivity | by vm_compute | exact Hin | exact Hitem].
Defined.

(** With rendered height 9 at index 5, [down] scrolls to offset 5 and
    the indicator line and the 9 lines of the item fill the content
    height. *)
Example height_nine_scrolls_into_view :
  (r ← Update (sixthOpen 7) (KeyMsg "down") (at_ 0);
   Some (cursor r.1, scrollOffset r.1, getItemHeight r.1 5,
         testLinesUsed r.1 (scrollOffset r.1)))
  = Some (5, 5, Some 9, Some 10).
Proof. vm_compute. reflexivity. Qed.

End Examples.

Section MoreExamples.
#[local] Existing Instance plainExternals.

(** C3 fails on the code.  After a committed query that matches nothing
    the active collection is empty and the cursor is 0; the half-page
    jump down then sets the cursor to -1, and the next fold toggle (or
    command request) indexes the empty collection at -1 and panics. *)
Lemma half_page_down_on_empty_collection :
  (m ← run threeEndpoints [key "/" 0; key "z" 0; key "enter" 0];
   Some (len (getActiveEndpoints m), cursor m, scrollOffset m))
  = Some (0, 0, 0)
  ∧
  (m ← run threeEndpoints
         [key "/" 0; key "z" 0; key "enter" 0; key "ctrl+d" 0];
   Some (len (getActiveEndpoints m), cursor m, scrollOffset m))
  = Some (0, -1, 0)
  ∧ run threeEndpoints
        [key "/" 0; key "z" 0; key "enter" 0; key "ctrl+d" 0; key "enter" 0]
    = None
  ∧ run threeEndpoints
        [key "/" 0; key "z" 0; key "enter" 0; key "ctrl+d" 0; key "r" 0]
    = None.
Proof. split_and!; vm_compute; reflexivity. Qed.

(** C4 fails on the code.  With the command overlay open, [j] moves the
    cursor, [enter] flips the fold flag of the item under it and [tab]
    switches the view; the overlay stays open throughout. *)
Lemma command_overlay_does_not_block_keys :
  (m ← run threeEndpoints [key "r" 0];
   Some (showCurl m, showHelp m, cursor m, mode m, e_folded <$> endpoints m))
  = Some (true, false, 0, viewEndpoints, [true; true; true])
  ∧
  (m ← run threeEndpoints [key "r" 0; key "j" 0];
   Some (showCurl m, cursor m))
  = Some (true, 1)
  ∧
  (m ← run threeEndpoints [key "r" 0; key "enter" 0];
   Some (showCurl m, e_folded <$> endpoints m))
  = Some (true, [false; true; true])
  ∧
  (m ← run threeEndpoints [key "r" 0; key "tab" 0];
   Some (showCurl m, mode m))
  = Some (true, viewComponents).
Proof. split_and!; vm_compute; reflexivity. Qed.

(** With the help overlay open, two presses of [g] 100 ms apart empty
    the gesture memory and leave the cursor at 2. *)
Example double_press_under_help_does_not_jump :
  (m ← run threeEndpoints
         [key "j" 0; key "j" 0; key "?" 0;
          key "g" (ms 1000); key "g" (ms 1100)];
   Some (showHelp m, cursor m, lastKey m))
  = Some (true, 2, "").
Proof. vm_compute. reflexivity. Qed.

(** A press of another key between the two presses of [g] does not
    empty the gesture memory: the second [g] still jumps. *)
Example other_key_between_presses :
  (m ← run threeEndpoints
         [key "j" 0; key "g" (ms 1000); key "j" (ms 1100); key "g" (ms 1200)];
   Some (cursor m, lastKey m))
  = Some (0, "").
Proof. vm_compute. reflexivity. Qed.

(** Two presses 500 ms apart are not a pair. *)
Example presses_at_threshold :
  (m ← run threeEndpoints
         [key "j" 0; key "g" (ms 1000); key "g" (ms 1500)];
   Some (cursor m, lastKey m))
  = Some (1, "g").
Proof. vm_compute. reflexivity. Qed.

(** C6 fails on the code.  With the command overlay open (and no help
    overlay), [q] returns the quit command and leaves the overlay open. *)
Lemma quit_with_command_overlay_open :
  (m ← run threeEndpoints [key "r" 0];
   r ← Update m (KeyMsg "q") (at_ 0);
   Some (showCurl m, showHelp m, r.2, showCurl r.1))
  = Some (true, false, cmdQuit, true).
Proof. vm_compute. reflexivity. Qed.

(** With the help overlay open, [q] closes it and does not quit. *)
Example quit_with_help_overlay_open :
  (m ← run threeEndpoints [key "?" 0];
   r ← Update m (KeyMsg "q") (at_ 0);
   Some (showHelp m, r.2, showHelp r.1))
  = Some (true, cmdNil, false).
Proof. vm_compute. reflexivity. Qed.

(** C7 fails as stated.  With the cursor at 2, entering search mode and
    confirming at once leaves the cursor at 2. *)
Lemma commit_does_not_reset_cursor :
  (s ← run threeEndpoints [key "j" 0; key "j" 0; key "/" 0];
   r ← Update s (KeyMsg "enter") (at_ 0);
   Some (searchMode s, cursor s, searchMode r.1, cursor r.1))
  = Some (true, 2, false, 2).
Proof. vm_compute. reflexivity. Qed.

Lemma commit_keeps_cursor_clear_and_switch_reset_witness :
  (∃ m', Update (setSearchMode true (setCursor 2 threeEndpoints))
                (KeyMsg "enter") (at_ 0) = Some (m', cmdNil) ∧
         searchMode m' = false ∧
         ti_Value (searchInput m') = "" ∧ cursor m' = 2 ∧ scrollOffset m' = 0)
  ∧ (∃ m', Update (setSearchMode true (setCursor 2 threeEndpoints))
                  (KeyMsg "esc") (at_ 0) = Some (m', cmdNil) ∧
           searchMode m' = false ∧
           ti_Value (searchInput m') = "" ∧ cursor m' = 0 ∧ scrollOffset m' = 0)
  ∧ (∃ m', Update (setCursor 2 threeEndpoints) (KeyMsg "tab") (at_ 0)
           = Some (m', cmdNil) ∧
           mode m' = viewComponents ∧ cursor m' = 0 ∧ scrollOffset m' = 0).
Proof.
  split_and!.
  - apply (proj1 (commit_keeps_cursor_clear_and_switch_reset
                    (setSearchMode true (setCursor 2 threeEndpoints)) (at_ 0))).
    reflexivity.
  - apply (proj1 (proj2 (commit_keeps_cursor_clear_and_switch_reset
                    (setSearchMode true (setCursor 2 threeEndpoints)) (at_ 0)))).
    reflexivity.
  - apply (proj1 (proj2 (proj2 (commit_keeps_cursor_clear_and_switch_reset
                    (setCursor 2 threeEndpoints) (at_ 0))) eq_refl eq_refl) "tab").
    by left.
Defined.


(** A fold toggled under an active query is still there when the query
    is cleared: search for [b], confirm, unfold the match, reopen the
    search and leave it with escape. *)
Example fold_survives_search :
  (m ← run threeEndpoints
         [key "/" 0; key "b" 0; key "enter" 0; key "enter" 0;
          key "/" 0; key "esc" 0];
   Some (ti_Value (searchInput m), e_path <$> getActiveEndpoints m,
         e_folded <$> getActiveEndpoints m))
  = Some ("", ["/a"; "/b"; "/c"], [true; false; true]).
Proof. vm_compute. reflexivity. Qed.

Lemma search_keystroke_refilters_and_resets_witness :
  ∃ m', Update (setSearchMode true (setCursor 2 threeEndpoints))
               (KeyMsg "b") (at_ 0) = Some (m', cmdNil) ∧
        ti_Value (searchInput m') = "b" ∧
        cursor m' = 0 ∧ scrollOffset m' = 0 ∧
        e_path <$> filteredEndpoints m' = ["/b"].
Proof.
  destruct (search_keystroke_refilters_and_resets
              (setSearchMode true (setCursor 2 threeEndpoints)) "b" (at_ 0))
    as (m' & Hm' & Hin & Hc & Hs & _ & _ & _ & _ & Hfe & _);
    [reflexivity | discriminate | discriminate | discriminate |].
  exists m'. split_and!; [exact Hm' | by rewrite Hin | done | done |].
  rewrite Hfe. reflexivity.
Defined.

(** C9 fails on the code.  The endpoint has two headers, and the two
    walks of the header map print them in the two orders: two runs of
    [generateCurl] on the same endpoint and document differ. *)
Lemma generateCurl_depends_on_map_order :
  size (curlHeaders securedEndpoint securedDocument) = 2%nat
  ∧ generateCurl forwardOrder securedEndpoint securedDocument
    ≠ generateCurl backwardOrder securedEndpoint securedDocument.
Proof. split; [vm_compute; reflexivity | vm_compute; discriminate]. Qed.

End MoreExamples.

(** * More of the code *)

(** ** Lines of a text *)

Lemma strings_Split_nl_nonempty s : strings_Split_nl s ≠ [].
Proof.
  destruct s as [|c r]; [done|]. cbn.
  case_bool_decide; [done|]. by destruct (strings_Split_nl r).
Qed.

Lemma strings_Split_nl_length s :
  len (strings_Split_nl s) = strings_Count_nl s + 1.
Proof.
  unfold len. induction s as [|c r IH]; [done|].
  cbn [strings_Split_nl strings_Count_nl].
  case_bool_decide.
  - cbn [length]. lia.
  - pose proof (strings_Split_nl_nonempty r).
    destruct (strings_Split_nl r); [done|]. cbn [length] in *. lia.
Qed.

Lemma strings_Join_cons_cons e e' r sep :
  strings_Join (e :: e' :: r) sep = e +:+ sep +:+ strings_Join (e' :: r) sep.
Proof. done. Qed.

Lemma strings_Join_Split_nl s : strings_Join (strings_Split_nl s) nl = s.
Proof.
  induction s as [|c r IH]; [done|].
  cbn [strings_Split_nl].
  pose proof (strings_Split_nl_nonempty r) as Hne.
  case_bool_decide as Hc.
  - destruct (strings_Split_nl r) as [|e r'] eqn:Hr; [done|].
    rewrite strings_Join_cons_cons, IH. cbn. by rewrite Hc.
  - destruct (strings_Split_nl r) as [|e r'] eqn:Hr; [done|].
    destruct r' as [|e' r'']; cbn in IH |- *; by rewrite <- IH.
Qed.

Lemma strings_Split_nl_no_newline s :
  Forall (λ l, strings_Count_nl l = 0) (strings_Split_nl s).
Proof.
  induction s as [|c r IH]; [by repeat constructor|].
  cbn [strings_Split_nl]. case_bool_decide as Hc.
  - by constructor.
  - destruct (strings_Split_nl r) as [|e r'].
    + repeat constructor. cbn. by rewrite bool_decide_eq_false_2.
    + apply Forall_cons in IH as [He Hr']. constructor; [|done].
      cbn. rewrite bool_decide_eq_false_2 by done. lia.
Qed.

Lemma strings_Count_nl_nonneg s : 0 ≤ strings_Count_nl s.
Proof. induction s; cbn; [done|]. case_bool_decide; lia. Qed.

Lemma strings_Split_nl_line a :
  strings_Count_nl a = 0 → strings_Split_nl a = [a].
Proof.
  induction a as [|c r IH]; [done|]. cbn.
  pose proof (strings_Count_nl_nonneg r).
  case_bool_decide; [lia|]. intros Hr. rewrite IH by lia. done.
Qed.

Lemma strings_Split_nl_app a r :
  strings_Count_nl a = 0 →
  strings_Split_nl (a +:+ nl +:+ r) = a :: strings_Split_nl r.
Proof.
  induction a as [|c a IH]; intros Ha.
  - done.
  - cbn [strings_Count_nl] in Ha. pose proof (strings_Count_nl_nonneg a).
    change (String c a +:+ nl +:+ r) with (String c (a +:+ nl +:+ r)).
    cbn [strings_Split_nl].
    case_bool_decide; [lia|]. rewrite IH by lia. done.
Qed.

(** Splitting what was joined gives the lines back. *)
Lemma strings_Split_Join_nl ls :
  ls ≠ [] → Forall (λ l, strings_Count_nl l = 0) ls →
  strings_Split_nl (strings_Join ls nl) = ls.
Proof.
  induction ls as [|a ls IH]; [done|]. intros _ Hall.
  apply Forall_cons in Hall as [Ha Hls].
  destruct ls as [|b ls].
  - by apply strings_Split_nl_line.
  - rewrite strings_Join_cons_cons, strings_Split_nl_app by done.
    by rewrite IH.
Qed.

Lemma string_append_assoc (a b c : string) : (a +:+ b) +:+ c = a +:+ b +:+ c.
Proof.
  induction a as [|x a IH]; [done|].
  change (String x ((a +:+ b) +:+ c) = String x (a +:+ b +:+ c)). by rewrite IH.
Qed.

Lemma wrap_range z : - 2 ^ 63 ≤ wrap z < 2 ^ 63.
Proof.
  unfold wrap. pose proof (Z.mod_pos_bound (z + 2 ^ 63) (2 ^ 64)). lia.
Qed.

Lemma truncateContent_fits (content : string) (maxLines : Z) :
  1 ≤ maxLines < 2 ^ 63 →
  ∃ r, truncateContent content maxLines = Some r ∧
       strings_Split_nl r =
         (if bool_decide (len (strings_Split_nl content) ≤ maxLines)
          then strings_Split_nl content
          else take (Z.to_nat (maxLines - 1)) (strings_Split_nl content)
                 ++ [truncateMarker]) ∧
       len (strings_Split_nl r)
       = Z.min (len (strings_Split_nl content)) maxLines ∧
       (len (strings_Split_nl content) ≤ maxLines → r = content).
Proof.
  pose proof (strings_Split_nl_length content) as Hlen.
  pose proof (strings_Count_nl_nonneg content) as Hcnt.
  intros [Hlo Hhi]. unfold truncateContent. cbn zeta.
  destruct (decide (len (strings_Split_nl content) ≤ maxLines)) as [Hfit|Hfit].
  - rewrite !(bool_decide_eq_true_2 _ Hfit).
    exists content. split_and!; [done | done | lia | done].
  - rewrite !(bool_decide_eq_false_2 _ Hfit).
    unfold subi. rewrite wrap_id by lia.
    rewrite bool_decide_eq_true_2 by lia.
    eexists. split; [reflexivity|].
    assert (strings_Split_nl
              (strings_Join
                 (take (Z.to_nat (maxLines - 1)) (strings_Split_nl content)
                    ++ [truncateMarker]) nl)
            = take (Z.to_nat (maxLines - 1)) (strings_Split_nl content)
                ++ [truncateMarker]) as Hsplit.
    { apply strings_Split_Join_nl.
      - by destruct (take _ _).
      - apply Forall_app. split.
        + apply Forall_take, strings_Split_nl_no_newline.
        + by repeat constructor. }
    rewrite Hsplit. split_and!; [done | | lia].
    unfold len in *. rewrite length_app, length_take. cbn [length]. lia.
Qed.

(** X1: [truncateContent].  With room for at least one line it returns a
    text whose lines are those of the content when they are at most
    [maxLines], and otherwise the first [maxLines - 1] of them followed
    by the marker line, [maxLines] lines in all.  With [maxLines] at or
    below 0 the slice bound is negative and the call panics, whatever
    the content. *)
Theorem truncateContent_lines (content : string) (maxLines : Z) :
  (1 ≤ maxLines < 2 ^ 63 →
     ∃ r, truncateContent content maxLines = Some r ∧
          strings_Split_nl r =
            (if bool_decide (len (strings_Split_nl content) ≤ maxLines)
             then strings_Split_nl content
             else take (Z.to_nat (maxLines - 1)) (strings_Split_nl content)
                    ++ [truncateMarker]) ∧
          len (strings_Split_nl r)
          = Z.min (len (strings_Split_nl content)) maxLines ∧
          (len (strings_Split_nl content) ≤ maxLines → r = content)) ∧
  (- 2 ^ 63 < maxLines ≤ 0 → truncateContent content maxLines = None).
Proof.
  split; [apply truncateContent_fits|].
  pose proof (strings_Split_nl_length content) as Hlen.
  pose proof (strings_Count_nl_nonneg content) as Hcnt.
  intros [Hlo Hhi]. unfold truncateContent. cbn zeta.
  rewrite bool_decide_eq_false_2 by lia.
  unfold subi. rewrite wrap_id by lia.
  by rewrite bool_decide_eq_false_2 by lia.
Qed.

Section FrameProofs.
Context `{Renderers}.

Lemma availableContentLines_range m : 1 ≤ availableContentLines m < 2 ^ 63.
Proof.
  unfold availableContentLines. cbn zeta.
  set (a := subi _ 1).
  assert (- 2 ^ 63 ≤ a < 2 ^ 63) by apply wrap_range.
  case_bool_decide; lia.
Qed.

(** X2: [View].  It never panics: the room it leaves for the content is
    at least one line, so the truncation succeeds, and the content drawn
    has at most that many lines.  The help overlay, when open, is all
    that is drawn; otherwise the command overlay, when open; otherwise
    the header, the truncated content, and a rest that ends with the
    footer. *)
Theorem View_total_and_modal (m : Model) :
  ∃ content rest,
    truncateContent
      (match mode m with
       | viewEndpoints => renderEndpoints m
       | viewComponents => renderComponents m
       | viewWebhooks => renderWebhooks m
       end) (availableContentLines m) = Some content ∧
    len (strings_Split_nl content) ≤ availableContentLines m ∧
    View m = Some (if showHelp m then renderHelpModal m
                   else if showCurl m then renderCurlModal m
                   else (renderHeader m +:+ content) +:+ rest +:+ renderFooter m).
Proof.
  pose proof (availableContentLines_range m) as Hrange.
  destruct (truncateContent_fits
              (match mode m with
               | viewEndpoints => renderEndpoints m
               | viewComponents => renderComponents m
               | viewWebhooks => renderWebhooks m
               end) (availableContentLines m) Hrange)
    as (content & Htr & _ & Hlen & _).
  exists content. unfold View. cbn zeta. rewrite Htr. cbn [mbind option_bind].
  match goal with
  | |- context [bool_decide (?r > 0)] => destruct (bool_decide (r > 0)); [exists (strings_Repeat nl r) | exists ""]
  end.
  - split_and!; [done | lia |].
    destruct (showHelp m); [done|]. destruct (showCurl m); [done|].
    by rewrite string_append_assoc.
  - split_and!; [done | lia |].
    destruct (showHelp m); [done|]. by destruct (showCurl m).
Qed.

End FrameProofs.

(** ** The recompute, in every state *)

Section RecomputeProofs.
Context `{Externals}.

Lemma getItemHeight_negative m i : i < 0 → getItemHeight m i = None.
Proof.
  intros Hneg. unfold getItemHeight, lookupZ, len.
  destruct (mode m); cbn zeta;
    rewrite bool_decide_eq_false_2 by lia;
    by rewrite bool_decide_eq_false_2 by lia.
Qed.

(** X3: [getItemHeight].  It panics exactly on a negative index; at or
    beyond the end of the active collection it answers 1. *)
Theorem getItemHeight_panics_iff_negative (m : Model) (i : Z) :
  (getItemHeight m i = None ↔ i < 0) ∧
  (itemsLen m ≤ i → getItemHeight m i = Some 1).
Proof.
  split.
  - split; [|apply getItemHeight_negative].
    intros Hnone. destruct (decide (i < 0)) as [|Hge]; [done|].
    destruct (getItemHeight_is_Some m i) as [h Hh]; [lia | congruence].
  - intros Hge. unfold getItemHeight, itemsLen in *.
    destruct (mode m); cbn zeta; by rewrite bool_decide_eq_true_2 by lia.
Qed.

Lemma scanOffsets_shape m ch cands m' :
  scanOffsets m ch cands = Some m' →
  m' = m ∨ ∃ s, s ∈ cands ∧ m' = setScrollOffset s m.
Proof.
  induction cands as [|s cands IH]; cbn [scanOffsets].
  - intros [= <-]. by left.
  - destruct (testLinesUsed m s) as [t|]; [|done]. cbn.
    case_bool_decide.
    + intros [= <-]. right. exists s. split; [apply list_elem_of_here | done].
    + intros Hscan. destruct (IH Hscan) as [->|(s' & Hin & ->)]; [by left|].
      right. exists s'. split; [by apply list_elem_of_further | done].
Qed.

Lemma ensureCursorVisible_shape m m' :
  ensureCursorVisible m = Some m' → ∃ s, m' = setScrollOffset s m.
Proof.
  unfold ensureCursorVisible.
  case_bool_decide; [intros [= <-]; eauto|].
  case_bool_decide; [intros [= <-]; exists (scrollOffset m);
                     by rewrite setScrollOffset_same|].
  case_bool_decide; [intros [= <-]; eauto|].
  destruct (linesUsed m) as [used|]; [|done]. cbn.
  destruct (bool_decide (used > calculateContentHeight (height m))).
  - destruct (scanOffsets m _ _) as [m1|] eqn:Hscan; [|done]. cbn.
    intros [= <-].
    destruct (scanOffsets_shape _ _ _ _ Hscan) as [->|(s & _ & ->)].
    + case_bool_decide; [eauto|].
      exists (scrollOffset m). by rewrite setScrollOffset_same.
    + case_bool_decide; eauto.
  - cbn. intros [= <-]. case_bool_decide; [eauto|].
    exists (scrollOffset m). by rewrite setScrollOffset_same.
Qed.

Lemma linesUsed_negative_offset m :
  itemsLen m ≠ 0 → scrollOffset m < 0 → scrollOffset m ≤ cursor m →
  linesUsed m = None.
Proof.
  intros Hlen Hneg Hle. unfold linesUsed, rowsFrom.
  assert (0 ≤ itemsLen m) as Hnn.
  { unfold itemsLen, len. destruct (mode m); lia. }
  rewrite seqZ_cons by lia. cbn [addHeights].
  by rewrite getItemHeight_negative.
Qed.

(** X4: [ensureCursorVisible] changes nothing but the scroll offset. *)
Theorem ensureCursorVisible_only_scrolls (m m' : Model) :
  ensureCursorVisible m = Some m' → ∃ s, m' = setScrollOffset s m.
Proof. apply ensureCursorVisible_shape. Qed.

Lemma ensureCursorVisible_negative_offset m :
  cursor m ≠ 0 → itemsLen m ≠ 0 → scrollOffset m < 0 →
  scrollOffset m ≤ cursor m → ensureCursorVisible m = None.
Proof.
  intros Hc Hlen Hneg Hle. unfold ensureCursorVisible.
  rewrite !bool_decide_eq_false_2 by (done || lia).
  by rewrite linesUsed_negative_offset.
Qed.

Lemma ensureCursorVisible_result m :
  0 ≤ cursor m < 2 ^ 63 - 1 → itemsLen m ≠ 0 →
  (ensureCursorVisible m = None ↔ cursor m ≠ 0 ∧ scrollOffset m < 0) ∧
  (∀ m', ensureCursorVisible m = Some m' → 0 ≤ scrollOffset m' ≤ cursor m).
Proof.
  intros [Hc Hint] Hlen.
  destruct (decide (cursor m = 0)) as [Hz|Hnz].
  { rewrite ensureCursorVisible_top by done. split.
    - split; [done | tauto].
    - intros m' [= <-]. cbn. lia. }
  destruct (decide (scrollOffset m < 0)) as [Hneg|Hnn].
  { rewrite ensureCursorVisible_negative_offset by (done || lia). split.
    - by split.
    - done. }
  destruct (decide (cursor m < scrollOffset m)) as [Hlt|Hge].
  { rewrite ensureCursorVisible_above by done. split.
    - split; [done | tauto].
    - intros m' [= <-]. cbn. lia. }
  destruct (ensureCursorVisible_cases m) as (s & -> & Hs & _);
    [done | done | done | lia |].
  split.
  - split; [done | tauto].
  - intros m' [= <-]. cbn. lia.
Qed.

(** X5: [ensureCursorVisible] on a collection that is not empty, with a
    cursor that is not negative.  It panics exactly when the cursor is
    not 0 and the old offset is negative (the height of a negative index
    is asked for); otherwise it returns an offset between 0 and the
    cursor, so the clamp that ends the function has nothing to do. *)
Theorem ensureCursorVisible_panics_iff (m : Model) :
  0 ≤ cursor m < 2 ^ 63 - 1 → itemsLen m ≠ 0 →
  (ensureCursorVisible m = None ↔ cursor m ≠ 0 ∧ scrollOffset m < 0) ∧
  (∀ m', ensureCursorVisible m = Some m' → 0 ≤ scrollOffset m' ≤ cursor m).
Proof. apply ensureCursorVisible_result. Qed.

(** The recompute does not panic from an offset that is not negative,
    when the cursor is not negative or the collection is empty. *)
Lemma ensureCursorVisible_is_Some m :
  0 ≤ scrollOffset m → cursor m < 2 ^ 63 - 1 →
  0 ≤ cursor m ∨ itemsLen m = 0 →
  is_Some (ensureCursorVisible m).
Proof.
  intros Hold Hint Hc.
  destruct (decide (cursor m = 0)) as [Hz|Hnz].
  { by rewrite ensureCursorVisible_top. }
  destruct (decide (itemsLen m = 0)) as [Hlen|Hlen].
  { unfold ensureCursorVisible.
    rewrite bool_decide_eq_false_2 by done.
    by rewrite bool_decide_eq_true_2. }
  destruct Hc as [Hc|Hc]; [|done].
  destruct (ensureCursorVisible m) as [m'|] eqn:He; [done|].
  apply (ensureCursorVisible_result m) in He as [_ Hneg]; [lia | lia | done].
Qed.

End RecomputeProofs.

(** ** The recompute, twice *)

Section RecomputeTwice.
Context `{Externals}.

Lemma ensureCursorVisible_no_items m :
  cursor m ≠ 0 → itemsLen m = 0 → ensureCursorVisible m = Some m.
Proof.
  intros Hc Hlen. unfold ensureCursorVisible.
  rewrite bool_decide_eq_false_2 by done.
  by rewrite bool_decide_eq_true_2.
Qed.

(** An offset that fits, or from which none up to the cursor fits, is
    left where it is. *)
Lemma ensureCursorVisible_settled m :
  cursor m ≠ 0 → cursor m < 2 ^ 63 - 1 → itemsLen m ≠ 0 →
  0 ≤ scrollOffset m ≤ cursor m →
  fits m (scrollOffset m) = true
  ∨ (∀ s', scrollOffset m ≤ s' ≤ cursor m → fits m s' = false) →
  ensureCursorVisible m = Some m.
Proof.
  intros Hc Hint Hlen Hold Hx.
  destruct (ensureCursorVisible_cases m) as (s & -> & Hs & Hcase);
    [done | done | done | done |].
  f_equal. enough (s = scrollOffset m) as -> by apply setScrollOffset_same.
  destruct Hcase as [[Hfit Hmin]|[-> _]]; [|done].
  destruct Hx as [Hx|Hx].
  - destruct (decide (s = scrollOffset m)) as [|Hne]; [done|].
    rewrite Hmin in Hx by lia. done.
  - rewrite Hx in Hfit by lia. done.
Qed.

(** X6: the recompute is idempotent.  With a cursor that is not negative,
    the state that [ensureCursorVisible] returns is one that it leaves
    as it is: a second recompute never scrolls again. *)
Theorem ensureCursorVisible_idempotent (m m1 : Model) :
  0 ≤ cursor m < 2 ^ 63 - 1 →
  ensureCursorVisible m = Some m1 → ensureCursorVisible m1 = Some m1.
Proof.
  intros [Hc Hint].
  destruct (decide (cursor m = 0)) as [Hz|Hnz].
  { rewrite ensureCursorVisible_top by done. intros [= <-].
    by rewrite ensureCursorVisible_top. }
  destruct (decide (itemsLen m = 0)) as [Hlen|Hlen].
  { rewrite ensureCursorVisible_no_items by done. intros [= <-].
    by apply ensureCursorVisible_no_items. }
  destruct (decide (cursor m < scrollOffset m)) as [Hlt|Hge].
  { rewrite ensureCursorVisible_above by done. intros [= <-].
    apply ensureCursorVisible_settled; [done | done | done | cbn; lia |].
    destruct (fits (setScrollOffset (cursor m) m) (cursor m)) eqn:Hf;
      [by left|].
    right. intros s' Hs'. cbn in Hs'.
    by assert (s' = cursor m) as -> by lia. }
  destruct (decide (scrollOffset m < 0)) as [Hneg|Hnn].
  { by rewrite ensureCursorVisible_negative_offset by (done || lia). }
  destruct (ensureCursorVisible_cases m) as (s & -> & Hs & Hcase);
    [done | done | done | lia |].
  intros [= <-].
  apply ensureCursorVisible_settled; [done | done | done | cbn; lia |].
  destruct Hcase as [[Hfit _]|[-> Hnone]].
  - left. cbn. by rewrite fits_setScrollOffset.
  - right. intros s' Hs'. rewrite fits_setScrollOffset. apply Hnone.
    cbn in Hs'. lia.
Qed.

End RecomputeTwice.

(** ** Moving the cursor *)

Section MovementProofs.
Context `{Externals}.

Lemma updateBrowse_up m k rt :
  k = "up" ∨ k = "k" →
  updateBrowse m k rt =
  if negb (showHelp m) && bool_decide (cursor m > 0)
  then m' ← ensureCursorVisible (setCursor (subi (cursor m) 1) m); Some (m', cmdNil)
  else Some (m, cmdNil).
Proof. by intros [-> | ->]. Qed.

Lemma updateBrowse_down m k rt :
  k = "down" ∨ k = "j" →
  updateBrowse m k rt =
  if negb (showHelp m) then
    if bool_decide (cursor m < getMaxItems m)
    then m' ← ensureCursorVisible (setCursor (addi (cursor m) 1) m); Some (m', cmdNil)
    else Some (m, cmdNil)
  else Some (m, cmdNil).
Proof. by intros [-> | ->]. Qed.

Lemma updateBrowse_ctrl_d m rt :
  updateBrowse m "ctrl+d" rt =
  if negb (showHelp m) then
    m' ← ensureCursorVisible
           (if bool_decide (addi (cursor m) scrollHalfScreenLines > getMaxItems m)
            then setCursor (getMaxItems m) m
            else setCursor (addi (cursor m) scrollHalfScreenLines) m);
    Some (m', cmdNil)
  else Some (m, cmdNil).
Proof. reflexivity. Qed.

Lemma updateBrowse_ctrl_u m rt :
  updateBrowse m "ctrl+u" rt =
  if negb (showHelp m) then
    m' ← ensureCursorVisible
           (if bool_decide
                 (cursor m < Z.max 1 (calculateContentHeight (height m) `quot` 2))
            then setCursor 0 m
            else setCursor
                   (subi (cursor m)
                      (Z.max 1 (calculateContentHeight (height m) `quot` 2))) m);
    Some (m', cmdNil)
  else Some (m, cmdNil).
Proof. reflexivity. Qed.

Lemma updateBrowse_G m rt :
  updateBrowse m "G" rt =
  if negb (showHelp m) then
    if bool_decide (getMaxItems m >= 0)
    then m' ← ensureCursorVisible (setCursor (getMaxItems m) m); Some (m', cmdNil)
    else Some (m, cmdNil)
  else Some (m, cmdNil).
Proof. reflexivity. Qed.

Lemma getMaxItems_itemsLen m : getMaxItems m = subi (itemsLen m) 1.
Proof. unfold getMaxItems, itemsLen. by destruct (mode m). Qed.

Lemma itemsLen_nonneg m : 0 ≤ itemsLen m.
Proof. unfold itemsLen, len. destruct (mode m); lia. Qed.

Lemma getMaxItems_plain m :
  itemsLen m < 2 ^ 63 → getMaxItems m = itemsLen m - 1.
Proof.
  intros Hlen. pose proof (itemsLen_nonneg m).
  rewrite getMaxItems_itemsLen. unfold subi. apply wrap_id. lia.
Qed.

(** The recompute after the cursor moved onto an item. *)
Lemma recompute_after_move m c :
  0 ≤ c < itemsLen m → itemsLen m < 2 ^ 62 → 0 ≤ scrollOffset m →
  ∃ s, ensureCursorVisible (setCursor c m)
       = Some (setScrollOffset s (setCursor c m)) ∧ 0 ≤ s ≤ c.
Proof.
  intros Hc Hlen Hold.
  apply (ensureCursorVisible_offset_in_range (setCursor c m)); cbn; (done || lia).
Qed.

Ltac moved m c :=
  let s := fresh "s" in
  let Hres := fresh "Hres" in
  let Hs := fresh "Hs" in
  destruct (recompute_after_move m c) as (s & Hres & Hs);
  [try done; try lia ..|];
  [rewrite Hres; cbn [mbind option_bind];
   eexists; split; [reflexivity|];
   split_and!; [|reflexivity|reflexivity];
   unfold navInv;
   change (itemsLen (setScrollOffset s (setCursor c m))) with (itemsLen m);
   cbn [cursor scrollOffset setCursor setScrollOffset]; lia].

Lemma movement_on_item (m : Model) (k : string) (rt : Runtime) :
  searchMode m = false → navInv m → itemsLen m < 2 ^ 62 →
  k ∈ movementKeys →
  ∃ m', Update m (KeyMsg k) rt = Some (m', cmdNil) ∧ navInv m' ∧
        mode m' = mode m ∧ itemsLen m' = itemsLen m.
Proof.
  intros Hs [Hc Ho] Hlen Hk. rewrite Update_browse by done.
  assert (Hstay : ∃ m', Some (m, cmdNil) = Some (m', cmdNil) ∧ navInv m' ∧
                        mode m' = mode m ∧ itemsLen m' = itemsLen m).
  { exists m. by split_and!. }
  pose proof (getMaxItems_plain m ltac:(lia)) as Hmax.
  unfold movementKeys in Hk.
  repeat (apply elem_of_cons in Hk as [->|Hk]); [..|by apply elem_of_nil in Hk].
  - rewrite (updateBrowse_up m "up") by tauto.
    destruct (negb (showHelp m)); [|done]. cbn [andb].
    case_bool_decide; [|done].
    unfold subi. rewrite wrap_id by lia. moved m (cursor m - 1).
  - rewrite (updateBrowse_up m "k") by tauto.
    destruct (negb (showHelp m)); [|done]. cbn [andb].
    case_bool_decide; [|done].
    unfold subi. rewrite wrap_id by lia. moved m (cursor m - 1).
  - rewrite (updateBrowse_down m "down") by tauto.
    destruct (negb (showHelp m)); [|done].
    case_bool_decide; [|done].
    unfold addi. rewrite wrap_id by lia. moved m (cursor m + 1).
  - rewrite (updateBrowse_down m "j") by tauto.
    destruct (negb (showHelp m)); [|done].
    case_bool_decide; [|done].
    unfold addi. rewrite wrap_id by lia. moved m (cursor m + 1).
  - rewrite updateBrowse_ctrl_d.
    destruct (negb (showHelp m)); [|done].
    unfold addi, scrollHalfScreenLines. rewrite wrap_id by lia. rewrite Hmax.
    case_bool_decide.
    + moved m (itemsLen m - 1).
    + moved m (cursor m + 21).
  - rewrite updateBrowse_ctrl_u.
    destruct (negb (showHelp m)); [|done].
    case_bool_decide.
    + moved m 0.
    + unfold subi. rewrite wrap_id by lia.
      moved m (cursor m - Z.max 1 (calculateContentHeight (height m) `quot` 2)).
  - rewrite updateBrowse_G.
    destruct (negb (showHelp m)); [|done]. rewrite Hmax.
    case_bool_decide; [|done]. moved m (itemsLen m - 1).
  - rewrite updateBrowse_g. unfold keyG.
    destruct (bool_decide (lastKey m = "g") && _).
    + destruct (negb (showHelp m)).
      * rewrite ensureCursorVisible_top by done. cbn [mbind option_bind].
        eexists. split; [reflexivity|].
        split_and!; [|reflexivity|reflexivity]. unfold navInv.
        change (itemsLen (setLastKeyAt _ (setLastKey _ (setScrollOffset _ (setCursor _ m)))))
          with (itemsLen m).
        cbn [cursor scrollOffset setCursor setScrollOffset setLastKey setLastKeyAt].
        lia.
      * cbn [mbind option_bind]. eexists. split; [reflexivity|].
        split_and!; [|reflexivity|reflexivity]. by unfold navInv.
    + cbn [mbind option_bind]. eexists. split; [reflexivity|].
      split_and!; [|reflexivity|reflexivity]. by unfold navInv.
Qed.

Lemma movement_on_empty (m : Model) (k : string) (rt : Runtime) :
  searchMode m = false → itemsLen m = 0 → cursor m = 0 →
  k ∈ ["up"; "k"; "down"; "j"; "ctrl+u"; "G"; "g"] →
  ∃ m', Update m (KeyMsg k) rt = Some (m', cmdNil) ∧ cursor m' = 0 ∧
        itemsLen m' = 0 ∧
        (scrollOffset m' = 0 ∨ scrollOffset m' = scrollOffset m).
Proof.
  intros Hs Hlen Hc Hk. rewrite Update_browse by done.
  assert (Hstay : ∃ m', Some (m, cmdNil) = Some (m', cmdNil) ∧ cursor m' = 0 ∧
                        itemsLen m' = 0 ∧
                        (scrollOffset m' = 0 ∨ scrollOffset m' = scrollOffset m)).
  { exists m. split_and!; [done | done | done | by right]. }
  assert (getMaxItems m = -1) as Hmax.
  { rewrite getMaxItems_plain by lia. lia. }
  repeat (apply elem_of_cons in Hk as [->|Hk]); [..|by apply elem_of_nil in Hk].
  - rewrite (updateBrowse_up m "up") by tauto. rewrite Hc.
    by rewrite andb_false_r.
  - rewrite (updateBrowse_up m "k") by tauto. rewrite Hc.
    by rewrite andb_false_r.
  - rewrite (updateBrowse_down m "down") by tauto. rewrite Hc, Hmax.
    by destruct (negb (showHelp m)).
  - rewrite (updateBrowse_down m "j") by tauto. rewrite Hc, Hmax.
    by destruct (negb (showHelp m)).
  - rewrite updateBrowse_ctrl_u. rewrite Hc.
    destruct (negb (showHelp m)); [|done].
    rewrite bool_decide_eq_true_2 by lia.
    rewrite ensureCursorVisible_top by done. cbn.
    eexists. split; [reflexivity | split_and!; [done | done | by left]].
  - rewrite updateBrowse_G, Hmax.
    by destruct (negb (showHelp m)).
  - rewrite updateBrowse_g. unfold keyG.
    destruct (bool_decide (lastKey m = "g") && _).
    + destruct (negb (showHelp m)).
      * rewrite ensureCursorVisible_top by done. cbn.
        eexists. split; [reflexivity | split_and!; [done | done | by left]].
      * cbn. eexists. split; [reflexivity | split_and!; [done | done | by right]].
    + cbn. eexists. split; [reflexivity | split_and!; [done | done | by right]].
Qed.

(** X7: the movement keys.  Outside search mode, with the cursor on an
    item and the offset between 0 and the cursor, each of up, down, the
    half-page jumps, the jump to the last item and [g] returns without
    panic, with the cursor again on an item and the offset between 0 and
    the cursor; the view and the size of the collection are as before. *)
Theorem movement_keeps_cursor_on_an_item (m : Model) (k : string) (rt : Runtime) :
  searchMode m = false → navInv m → itemsLen m < 2 ^ 62 →
  k ∈ movementKeys →
  ∃ m', Update m (KeyMsg k) rt = Some (m', cmdNil) ∧ navInv m' ∧
        mode m' = mode m ∧ itemsLen m' = itemsLen m.
Proof. apply movement_on_item. Qed.

(** X8: an empty active collection.  Outside search mode, with the cursor
    at 0, each of up, down, the half-page jump up, the jump to the last
    item and [g] returns without panic and leaves the cursor at 0; the
    scroll offset is left as it is or set to 0. *)
Theorem empty_collection_keeps_cursor (m : Model) (k : string) (rt : Runtime) :
  searchMode m = false → itemsLen m = 0 → cursor m = 0 →
  k ∈ ["up"; "k"; "down"; "j"; "ctrl+u"; "G"; "g"] →
  ∃ m', Update m (KeyMsg k) rt = Some (m', cmdNil) ∧ cursor m' = 0 ∧
        itemsLen m' = 0 ∧
        (scrollOffset m' = 0 ∨ scrollOffset m' = scrollOffset m).
Proof. apply movement_on_empty. Qed.

End MovementProofs.

(** ** Switching the view *)

Section ViewCycleProofs.
Context `{Externals}.

(** X9: the view cycle.  Outside search mode and with no help overlay,
    forward ([tab], [L]) and backward ([shift+tab], [H]) each move to
    another view, never to the webhook view when there are no webhooks,
    and each undoes the other (from the webhook view, provided there are
    webhooks). *)
Theorem view_cycle_inverse (m : Model) (rt rt' : Runtime) (kf kb : string) :
  searchMode m = false → showHelp m = false →
  (mode m = viewWebhooks → hasWebhooks m = true) →
  kf = "tab" ∨ kf = "L" → kb = "shift+tab" ∨ kb = "H" →
  (∃ m1 m2, Update m (KeyMsg kf) rt = Some (m1, cmdNil) ∧
            Update m1 (KeyMsg kb) rt' = Some (m2, cmdNil) ∧
            mode m1 ≠ mode m ∧
            (mode m1 = viewWebhooks → hasWebhooks m = true) ∧
            mode m2 = mode m) ∧
  (∃ m1 m2, Update m (KeyMsg kb) rt = Some (m1, cmdNil) ∧
            Update m1 (KeyMsg kf) rt' = Some (m2, cmdNil) ∧
            mode m1 ≠ mode m ∧
            (mode m1 = viewWebhooks → hasWebhooks m = true) ∧
            mode m2 = mode m).
Proof.
  intros Hs Hh Hw Hf Hb. split.
  - rewrite Update_browse, (updateBrowse_tab _ _ _ Hf), Hh by done.
    eexists. eexists. split; [reflexivity|].
    rewrite Update_browse, (updateBrowse_shift_tab _ _ _ Hb) by done.
    cbn [showHelp setScrollOffset setCursor setMode negb]. rewrite Hh.
    split; [reflexivity|].
    cbn [mode setScrollOffset setCursor setMode].
    unfold cycleForward, cycleBackward.
    change (hasWebhooks (setScrollOffset 0 (setCursor 0 (setMode _ m))))
      with (hasWebhooks m).
    cbn [mode setScrollOffset setCursor setMode].
    destruct (mode m), (hasWebhooks m) eqn:Hhas; cbn; split_and!; try done.
    by specialize (Hw eq_refl).
  - rewrite Update_browse, (updateBrowse_shift_tab _ _ _ Hb), Hh by done.
    eexists. eexists. split; [reflexivity|].
    rewrite Update_browse, (updateBrowse_tab _ _ _ Hf) by done.
    cbn [showHelp setScrollOffset setCursor setMode negb]. rewrite Hh.
    split; [reflexivity|].
    cbn [mode setScrollOffset setCursor setMode].
    unfold cycleForward, cycleBackward.
    change (hasWebhooks (setScrollOffset 0 (setCursor 0 (setMode _ m))))
      with (hasWebhooks m).
    cbn [mode setScrollOffset setCursor setMode].
    destruct (mode m), (hasWebhooks m) eqn:Hhas; cbn; split_and!; try done.
    by specialize (Hw eq_refl).
Qed.

End ViewCycleProofs.

(** ** The filter *)

Lemma List_filter_sublist {A} (f : A → bool) (l : list A) :
  List.filter f l `sublist_of` l.
Proof.
  induction l as [|x l IH]; [done|]. cbn.
  destruct (f x); [by apply sublist_skip | by apply sublist_cons].
Qed.

Lemma List_filter_elem_of {A} (f : A → bool) (l : list A) x :
  x ∈ List.filter f l ↔ x ∈ l ∧ f x = true.
Proof. rewrite !list_elem_of_In. apply filter_In. Qed.

Lemma List_filter_idemp {A} (f : A → bool) (l : list A) :
  List.filter f (List.filter f l) = List.filter f l.
Proof.
  induction l as [|x l IH]; [done|]. cbn.
  destruct (f x) eqn:Hx; [|done]. cbn. by rewrite Hx, IH.
Qed.

Section FilterProofs.
Context `{Externals}.

Lemma filterItems_filterResult m :
  filterItems m =
  setFiltered (filterResult m).1.1 (filterResult m).1.2 (filterResult m).2 m.
Proof. unfold filterItems, filterResult. by case_bool_decide. Qed.

Lemma filterResult_setFiltered fe fc fw m :
  filterResult (setFiltered fe fc fw m) = filterResult m.
Proof. reflexivity. Qed.

Lemma filterItems_no_query m :
  strings_ToLower (ti_Value (searchInput m)) = "" →
  filterItems m = setFiltered [] [] [] m.
Proof. intros Hq. unfold filterItems. by rewrite bool_decide_eq_true_2. Qed.

Lemma filterItems_query m :
  strings_ToLower (ti_Value (searchInput m)) ≠ "" →
  filterItems m =
  setFiltered
    (List.filter (matchesEndpoint (strings_ToLower (ti_Value (searchInput m))))
       (endpoints m))
    (List.filter (matchesComponent (strings_ToLower (ti_Value (searchInput m))))
       (components m))
    (List.filter (matchesWebhook (strings_ToLower (ti_Value (searchInput m))))
       (webhooks m)) m.
Proof. intros Hq. unfold filterItems. by rewrite bool_decide_eq_false_2. Qed.

(** X10: [filterItems].  It writes the three filtered collections and
    nothing else.  For a query whose lower case is not empty, each
    filtered collection is a sublist of its master (same items, fold
    flags included, in the same order) that holds exactly the master
    items that match; for an empty one the three are empty.  Filtering
    again changes nothing. *)
Theorem filterItems_sublist_of_master (m : Model) :
  let query := strings_ToLower (ti_Value (searchInput m)) in
  (∃ fe fc fw, filterItems m = setFiltered fe fc fw m) ∧
  filteredEndpoints (filterItems m) `sublist_of` endpoints m ∧
  filteredComponents (filterItems m) `sublist_of` components m ∧
  filteredWebhooks (filterItems m) `sublist_of` webhooks m ∧
  (∀ e, e ∈ filteredEndpoints (filterItems m) ↔
        query ≠ "" ∧ e ∈ endpoints m ∧ matchesEndpoint query e = true) ∧
  (∀ c, c ∈ filteredComponents (filterItems m) ↔
        query ≠ "" ∧ c ∈ components m ∧ matchesComponent query c = true) ∧
  (∀ w, w ∈ filteredWebhooks (filterItems m) ↔
        query ≠ "" ∧ w ∈ webhooks m ∧ matchesWebhook query w = true) ∧
  filterItems (filterItems m) = filterItems m.
Proof.
  intros query. split; [apply filterItems_shape|].
  assert (Hidem : filterItems (filterItems m) = filterItems m).
  { rewrite (filterItems_filterResult (filterItems m)).
    rewrite (filterItems_filterResult m). reflexivity. }
  destruct (decide (query = "")) as [Hq|Hq].
  - rewrite !(filterItems_no_query m Hq) in *. cbn.
    split_and!;
      [apply sublist_nil_l | apply sublist_nil_l | apply sublist_nil_l
      | | | | done];
      (intros x; split; [by intros ?%elem_of_nil | tauto]).
  - rewrite !(filterItems_query m Hq) in *. cbn. fold query.
    split_and!;
      [apply List_filter_sublist | apply List_filter_sublist
      | apply List_filter_sublist | | | | done];
      (intros x; rewrite List_filter_elem_of; tauto).
Qed.

(** [filterItems] leaves a model consistent. *)
Lemma filterItems_consistent m : filterConsistent (filterItems m).
Proof.
  intros _. rewrite filterItems_filterResult.
  change (filterResult (setFiltered _ _ _ m)) with (filterResult m).
  by destruct (filterResult m) as [[fe fc] fw].
Qed.

End FilterProofs.

(** ** Narrowing the query *)

Lemma String_prefix_spec a b :
  String.prefix a b = true ↔ ∃ post, b = a +:+ post.
Proof.
  revert b. induction a as [|x a IH]; intros b.
  - split; [intros _; by exists b | intros _; by destruct b].
  - destruct b as [|y b]; cbn.
    + split; [done | by intros [post ?]].
    + destruct (Ascii.ascii_dec x y) as [->|Hne].
      * rewrite IH. split; intros [post Hp]; exists post.
        -- by rewrite Hp.
        -- by injection Hp.
      * split; [done|]. intros [post Hp]. injection Hp as Hxy _. congruence.
Qed.

Lemma strings_Contains_spec s substr :
  strings_Contains s substr = true ↔ ∃ pre post, s = pre +:+ substr +:+ post.
Proof.
  induction s as [|c s IH].
  - cbn [strings_Contains]. rewrite orb_false_r, String_prefix_spec. split.
    + intros [post ->]. by exists "", post.
    + intros (pre & post & Hs). destruct pre as [|x pre]; [by exists post | done].
  - cbn [strings_Contains]. rewrite orb_true_iff, String_prefix_spec, IH. split.
    + intros [[post ->]|(pre & post & ->)].
      * by exists "", post.
      * by exists (String c pre), post.
    + intros (pre & post & Hs). destruct pre as [|x pre].
      * left. by exists post.
      * right. injection Hs as -> ->. by exists pre, post.
Qed.

Lemma strings_Contains_trans a b c :
  strings_Contains a b = true → strings_Contains b c = true →
  strings_Contains a c = true.
Proof.
  rewrite !strings_Contains_spec.
  intros (p1 & q1 & ->) (p2 & q2 & ->).
  exists (p1 +:+ p2), (q2 +:+ q1). by rewrite !string_append_assoc.
Qed.

Lemma List_filter_sublist_mono {A} (p p' : A → bool) (l : list A) :
  (∀ x, p x = true → p' x = true) →
  List.filter p l `sublist_of` List.filter p' l.
Proof.
  intros Hpp. induction l as [|x l IH]; [done|]. cbn.
  destruct (p x) eqn:Hp.
  - rewrite (Hpp x Hp). by apply sublist_skip.
  - destruct (p' x); [by apply sublist_cons | done].
Qed.

Section NarrowProofs.
Context `{Externals}.

Lemma contains_narrow field q q' :
  strings_Contains q' q = true →
  strings_Contains field q' = true → strings_Contains field q = true.
Proof. intros Hq Hf. by eapply strings_Contains_trans. Qed.

Lemma matchesEndpoint_narrow q q' e :
  strings_Contains q' q = true →
  matchesEndpoint q' e = true → matchesEndpoint q e = true.
Proof.
  intros Hq. unfold matchesEndpoint.
  rewrite !orb_true_iff, !andb_true_iff.
  pose proof (contains_narrow (strings_ToLower (e_path e)) q q' Hq).
  pose proof (contains_narrow (strings_ToLower (e_method e)) q q' Hq).
  pose proof (contains_narrow (strings_ToLower (Summary (e_op e))) q q' Hq).
  pose proof (contains_narrow (strings_ToLower (Description (e_op e))) q q' Hq).
  tauto.
Qed.

Lemma matchesComponent_narrow q q' c :
  strings_Contains q' q = true →
  matchesComponent q' c = true → matchesComponent q c = true.
Proof.
  intros Hq. unfold matchesComponent. rewrite !orb_true_iff.
  pose proof (contains_narrow (strings_ToLower (c_name c)) q q' Hq).
  pose proof (contains_narrow (strings_ToLower (c_compType c)) q q' Hq).
  pose proof (contains_narrow (strings_ToLower (c_description c)) q q' Hq).
  tauto.
Qed.

Lemma matchesWebhook_narrow q q' w :
  strings_Contains q' q = true →
  matchesWebhook q' w = true → matchesWebhook q w = true.
Proof.
  intros Hq. unfold matchesWebhook.
  rewrite !orb_true_iff, !andb_true_iff.
  pose proof (contains_narrow (strings_ToLower (w_name w)) q q' Hq).
  pose proof (contains_narrow (strings_ToLower (w_method w)) q q' Hq).
  pose proof (contains_narrow (strings_ToLower (Summary (w_op w))) q q' Hq).
  pose proof (contains_narrow (strings_ToLower (Description (w_op w))) q q' Hq).
  tauto.
Qed.

(** X11: narrowing.  Take two models with the same masters whose queries,
    in lower case, are [q] and [q'], with [q] not empty and occurring
    in [q'].  Then what [filterItems] keeps for [q'] is a sublist of
    what it keeps for [q]: a query that extends another never shows an
    item the other hides. *)
Theorem longer_query_narrows (m m' : Model) :
  endpoints m' = endpoints m → components m' = components m →
  webhooks m' = webhooks m →
  strings_ToLower (ti_Value (searchInput m)) ≠ "" →
  strings_Contains (strings_ToLower (ti_Value (searchInput m')))
                   (strings_ToLower (ti_Value (searchInput m))) = true →
  filteredEndpoints (filterItems m') `sublist_of` filteredEndpoints (filterItems m) ∧
  filteredComponents (filterItems m') `sublist_of` filteredComponents (filterItems m) ∧
  filteredWebhooks (filterItems m') `sublist_of` filteredWebhooks (filterItems m).
Proof.
  intros He Hc Hw Hq Hsub.
  rewrite (filterItems_query m Hq).
  destruct (decide (strings_ToLower (ti_Value (searchInput m')) = "")) as [Hq'|Hq'].
  - rewrite (filterItems_no_query m' Hq'). cbn. split_and!; apply sublist_nil_l.
  - rewrite (filterItems_query m' Hq'). cbn. rewrite He, Hc, Hw.
    split_and!; apply List_filter_sublist_mono; intros x.
    + by apply matchesEndpoint_narrow.
    + by apply matchesComponent_narrow.
    + by apply matchesWebhook_narrow.
Qed.

End NarrowProofs.

(** ** Every event, step by step *)

Section StepProofs.
Context `{Externals}.

Ltac closed :=
  repeat first
    [ assumption
    | match goal with
      | Hc : ∀ m v, ?P m → ?P (setWidth v m) |- ?P (setWidth _ _) => apply Hc
      | Hc : ∀ m v, ?P m → ?P (setHeight v m) |- ?P (setHeight _ _) => apply Hc
      | Hc : ∀ m v, ?P m → ?P (setSearchMode v m) |- ?P (setSearchMode _ _) => apply Hc
      | Hc : ∀ m v, ?P m → ?P (setShowHelp v m) |- ?P (setShowHelp _ _) => apply Hc
      | Hc : ∀ m v, ?P m → ?P (setCursor v m) |- ?P (setCursor _ _) => apply Hc
      | Hc : ∀ m v, ?P m → ?P (setScrollOffset v m) |- ?P (setScrollOffset _ _) => apply Hc
      | Hc : ∀ m v, ?P m → ?P (setMode v m) |- ?P (setMode _ _) => apply Hc
      | Hc : ∀ m v, ?P m → ?P (setLastKey v m) |- ?P (setLastKey _ _) => apply Hc
      | Hc : ∀ m v, ?P m → ?P (setLastKeyAt v m) |- ?P (setLastKeyAt _ _) => apply Hc
      | Hc : ∀ m v, ?P m → ?P (setShowCurl v m) |- ?P (setShowCurl _ _) => apply Hc
      | Hc : ∀ m v, ?P m → ?P (setCurlCommand v m) |- ?P (setCurlCommand _ _) => apply Hc
      | Hc : ∀ m ti, ?P m → ?P (filterItems (setSearchInput ti m))
        |- ?P (filterItems (setSearchInput _ _)) => apply Hc
      | Hc : ∀ m, ?P m → ?P (setSearchInput (ti_Blur (searchInput m)) m)
        |- ?P (setSearchInput (ti_Blur _) ?X) => apply (Hc X)
      | Hc : ∀ m, ?P m → ?P (setSearchInput (ti_Focus (searchInput m)) m)
        |- ?P (setSearchInput (ti_Focus _) ?X) => apply (Hc X)
      end ].

Lemma ensureCursorVisible_preserves (P : Model → Prop) m m' :
  (∀ m v, P m → P (setScrollOffset v m)) →
  P m → ensureCursorVisible m = Some m' → P m'.
Proof.
  intros Hc HP Hres. apply ensureCursorVisible_shape in Hres as [s ->].
  by apply Hc.
Qed.

Lemma keyCurl_preserves (P : Model → Prop) m order m' :
  stepClosed P → P m → keyCurl m order = Some m' → P m'.
Proof.
  intros (Hw & Hh & Hsm & Hsh & Hcu & Hso & Hmo & Hsc & Hcc & _) HP.
  unfold keyCurl. cbn zeta.
  destruct (negb (showHelp m) && negb (searchMode m)); [|by intros [= <-]].
  destruct (mode m).
  - case_bool_decide; [|by intros [= <-]].
    destruct (lookupZ _ _) as [ep|]; [|done]. cbn [mbind option_bind].
    intros [= <-]. closed.
  - by intros [= <-].
  - case_bool_decide; [|by intros [= <-]].
    destruct (lookupZ _ _) as [hook|]; [|done]. cbn [mbind option_bind].
    intros [= <-]. closed.
Qed.

Lemma keyToggle_preserves (P : Model → Prop) m m' :
  stepClosed P → P m → keyToggle m = Some m' → P m'.
Proof.
  intros (_ & _ & _ & _ & _ & _ & _ & _ & _ & _ & _ & _ & Hte & Htc & Htw) HP.
  unfold keyToggle. cbn zeta.
  destruct (negb (showHelp m) && negb (searchMode m)); [|by intros [= <-]].
  destruct (mode m).
  - case_bool_decide; [|by intros [= <-]].
    destruct (endpoints m) as [|e0 es0] eqn:Hm; [by intros [= <-]|].
    destruct (lookupZ _ _) as [cur|]; [|done]. cbn [mbind option_bind].
    rewrite <- Hm.
    destruct (toggleFirst _ _ _) as [es|] eqn:Ht; intros [= <-]; [|done].
    by eapply Hte.
  - case_bool_decide; [|by intros [= <-]].
    destruct (components m) as [|c0 cs0] eqn:Hm; [by intros [= <-]|].
    destruct (lookupZ _ _) as [cur|]; [|done]. cbn [mbind option_bind].
    rewrite <- Hm.
    destruct (toggleFirst _ _ _) as [cs|] eqn:Ht; intros [= <-]; [|done].
    by eapply Htc.
  - case_bool_decide; [|by intros [= <-]].
    destruct (webhooks m) as [|w0 ws0] eqn:Hm; [by intros [= <-]|].
    destruct (lookupZ _ _) as [cur|]; [|done]. cbn [mbind option_bind].
    rewrite <- Hm.
    destruct (toggleFirst _ _ _) as [ws|] eqn:Ht; intros [= <-]; [|done].
    by eapply Htw.
Qed.

Lemma keyG_preserves (P : Model → Prop) m now m' :
  stepClosed P → gestureClosed P → P m → keyG m now = Some m' → P m'.
Proof.
  intros (Hw & Hh & Hsm & Hsh & Hcu & Hso & Hmo & Hsc & Hcc & _) [Hlk Hlt] HP.
  unfold keyG.
  destruct (_ && _); [|intros [= <-]; closed].
  destruct (negb (showHelp m)); cbn [mbind option_bind].
  - destruct (ensureCursorVisible _) as [m1|] eqn:He; [|done].
    cbn [mbind option_bind]. intros [= <-].
    apply Hlt, Hlk. eapply ensureCursorVisible_preserves; [done | | done].
    closed.
  - intros [= <-]. closed.
Qed.

Lemma updateSearch_preserves (P : Model → Prop) m k m' cmd :
  stepClosed P → P m → updateSearch m k = Some (m', cmd) → P m'.
Proof.
  intros (Hw & Hh & Hsm & Hsh & Hcu & Hso & Hmo & Hsc & Hcc
          & Hfi & Hbl & Hfo & _) HP.
  unfold updateSearch. cbn zeta.
  destruct (keyIs k "esc"); [intros [= <- <-]; closed|].
  destruct (keyIs k "ctrl+c"); [intros [= <- <-]; closed|].
  destruct (keyIs k "enter"); [intros [= <- <-]; closed|].
  destruct (textinput_Update (searchInput m) k) as [input c]. cbv beta iota. intros [= <- <-]. closed.
Qed.

Ltac recomputed Hso :=
  let m1 := fresh "m1" in
  let He := fresh "He" in
  destruct (ensureCursorVisible _) as [m1|] eqn:He; [|done];
  cbn [mbind option_bind]; intros [= <- <-];
  eapply ensureCursorVisible_preserves; [exact Hso | | exact He].

Lemma updateBrowse_preserves (P : Model → Prop) m k rt m' cmd :
  stepClosed P → (k = "g" → gestureClosed P) → P m →
  updateBrowse m k rt = Some (m', cmd) → P m'.
Proof.
  intros Hclosed Hgesture HP.
  pose proof Hclosed as (Hw & Hh & Hsm & Hsh & Hcu & Hso & Hmo & Hsc & Hcc
          & Hfi & Hbl & Hfo & _).
  unfold updateBrowse. cbn zeta.
  destruct (keyIs k "q" || keyIs k "ctrl+c").
  { destruct (showHelp m); intros [= <- <-]; closed. }
  destruct (keyIs k "?"); [intros [= <- <-]; closed|].
  destruct (keyIs k "/").
  { destruct (negb (showHelp m)); intros [= <- <-]; closed. }
  destruct (keyIs k "esc").
  { destruct (showHelp m); [intros [= <- <-]; closed|].
    destruct (searchMode m); [intros [= <- <-]; closed|].
    destruct (showCurl m); intros [= <- <-]; closed. }
  destruct (keyIs k "r").
  { destruct (keyCurl m _) as [m1|] eqn:Hk; [|done].
    cbn [mbind option_bind]. intros [= <- <-].
    by eapply keyCurl_preserves. }
  destruct (keyIs k "tab" || keyIs k "L").
  { destruct (negb (showHelp m)); intros [= <- <-]; closed. }
  destruct (keyIs k "shift+tab" || keyIs k "H").
  { destruct (negb (showHelp m)); intros [= <- <-]; closed. }
  destruct (keyIs k "up" || keyIs k "k").
  { destruct (_ && _); [|intros [= <- <-]; closed]. recomputed Hso. closed. }
  destruct (keyIs k "down" || keyIs k "j").
  { destruct (negb (showHelp m)); [|intros [= <- <-]; closed].
    case_bool_decide; [|intros [= <- <-]; closed]. recomputed Hso. closed. }
  destruct (keyIs k "ctrl+d").
  { destruct (negb (showHelp m)); [|intros [= <- <-]; closed].
    recomputed Hso. case_bool_decide; closed. }
  destruct (keyIs k "ctrl+u").
  { destruct (negb (showHelp m)); [|intros [= <- <-]; closed].
    recomputed Hso. case_bool_decide; closed. }
  destruct (keyIs k "G").
  { destruct (negb (showHelp m)); [|intros [= <- <-]; closed].
    case_bool_decide; [|intros [= <- <-]; closed]. recomputed Hso. closed. }
  destruct (keyIs k "g") eqn:Hg.
  { apply String.eqb_eq in Hg.
    destruct (keyG m _) as [m1|] eqn:Hk; [|done].
    cbn [mbind option_bind]. intros [= <- <-].
    eapply keyG_preserves; [done | by apply Hgesture | done | done]. }
  destruct (keyIs k "enter" || keyIs k " ").
  { destruct (keyToggle m) as [m1|] eqn:Hk; [|done].
    cbn [mbind option_bind]. intros [= <- <-].
    by eapply keyToggle_preserves. }
  intros [= <- <-]. closed.
Qed.

(** An event other than [g] outside search mode keeps what the
    elementary steps keep. *)
Lemma Update_preserves_but_g (P : Model → Prop) m msg rt m' cmd :
  stepClosed P → (searchMode m = false → msg = KeyMsg "g" → gestureClosed P) →
  P m → Update m msg rt = Some (m', cmd) → P m'.
Proof.
  intros Hclosed Hgesture HP. destruct msg as [w h|k|]; cbn [Update].
  - destruct Hclosed as (Hw & Hh & _). intros [= <- <-]. by apply Hh, Hw.
  - destruct (searchMode m).
    + by apply updateSearch_preserves.
    + apply updateBrowse_preserves; [done | | done].
      intros ->. by apply Hgesture.
  - by intros [= <- <-].
Qed.

(** Every event keeps what every elementary step keeps. *)
Lemma Update_preserves (P : Model → Prop) m msg rt m' cmd :
  stepClosed P → gestureClosed P → P m →
  Update m msg rt = Some (m', cmd) → P m'.
Proof.
  intros Hclosed Hgesture. by apply Update_preserves_but_g.
Qed.

Lemma run_preserves (P : Model → Prop) events :
  stepClosed P → gestureClosed P →
  ∀ m m', P m → run m events = Some m' → P m'.
Proof.
  intros Hclosed Hgesture.
  induction events as [|[msg rt] events IH]; intros m m' HP.
  - by intros [= <-].
  - cbn [run]. destruct (Update m msg rt) as [[m1 c]|] eqn:Hu; [|done].
    cbn [mbind option_bind]. apply IH. by eapply Update_preserves.
Qed.

End StepProofs.

(** ** Invariants of every run *)

Section RunInvariants.
Context `{Externals}.

Lemma toggleFirst_face {A B} (face : A → B) (same : A → bool) (flip : A → A)
    (l l' : list A) :
  (∀ x, face (flip x) = face x) →
  toggleFirst same flip l = Some l' → face <$> l' = face <$> l.
Proof.
  intros Hface. revert l'. induction l as [|x l IH]; intros l'; [done|].
  cbn [toggleFirst]. destruct (same x).
  - intros [= <-]. cbn. by rewrite Hface.
  - destruct (toggleFirst same flip l) as [r|]; [|done].
    cbn. intros [= <-]. cbn. by rewrite (IH r).
Qed.

Lemma filterConsistent_stepClosed : stepClosed filterConsistent.
Proof.
  unfold stepClosed.
  split_and!; try (intros m v HP; exact HP); try (intros m HP; exact HP).
  - intros m ti _. apply filterItems_consistent.
  - intros m same es _ _. apply filterItems_consistent.
  - intros m same cs _ _. apply filterItems_consistent.
  - intros m same ws _ _. apply filterItems_consistent.
Qed.

Lemma sameMasters_filterItems m0 m :
  sameMasters m0 m → sameMasters m0 (filterItems m).
Proof.
  intros HP. destruct (filterItems_shape m) as (fe & fc & fw & ->). exact HP.
Qed.

Lemma sameMasters_stepClosed m0 : stepClosed (sameMasters m0).
Proof.
  unfold stepClosed.
  split_and!; try (intros m v HP; exact HP); try (intros m HP; exact HP).
  - intros m ti HP. apply sameMasters_filterItems. exact HP.
  - intros m same es Ht (Hd & He & Hc & Hw). apply sameMasters_filterItems.
    split_and!; [done | | done | done]. cbn.
    by rewrite (toggleFirst_face endpointFace same flipEndpoint _ es (λ _, eq_refl) Ht).
  - intros m same cs Ht (Hd & He & Hc & Hw). apply sameMasters_filterItems.
    split_and!; [done | done | | done]. cbn.
    by rewrite (toggleFirst_face componentFace same flipComponent _ cs (λ _, eq_refl) Ht).
  - intros m same ws Ht (Hd & He & Hc & Hw). apply sameMasters_filterItems.
    split_and!; [done | done | done |]. cbn.
    by rewrite (toggleFirst_face webhookFace same flipWebhook _ ws (λ _, eq_refl) Ht).
Qed.

Lemma active_sublist_of_master m :
  filterConsistent m →
  getActiveEndpoints m `sublist_of` endpoints m ∧
  getActiveComponents m `sublist_of` components m ∧
  getActiveWebhooks m `sublist_of` webhooks m.
Proof.
  intros Hcons. unfold getActiveEndpoints, getActiveComponents, getActiveWebhooks.
  case_bool_decide as Hq; [|done].
  specialize (Hcons Hq). unfold filterResult in Hcons.
  case_bool_decide; injection Hcons as -> -> ->.
  - split_and!; apply sublist_nil_l.
  - split_and!; apply List_filter_sublist.
Qed.

(** X12: the filter invariant.  In every state that a run of events
    reaches from a fresh model, a non-empty query has its filtered
    collections equal to what [filterItems] computes from the current
    masters; so each active collection is a sublist of its master. *)
Theorem run_keeps_filter_consistent (d : Document) (es : list endpoint)
    (cs : list component) (ws : list webhook)
    (events : list (Msg * Runtime)) (m' : Model) :
  run (NewModel d es cs ws) events = Some m' →
  filterConsistent m' ∧
  getActiveEndpoints m' `sublist_of` endpoints m' ∧
  getActiveComponents m' `sublist_of` components m' ∧
  getActiveWebhooks m' `sublist_of` webhooks m'.
Proof.
  intros Hrun.
  assert (filterConsistent m') as Hcons.
  { eapply run_preserves;
      [apply filterConsistent_stepClosed | by split | | exact Hrun].
    intros Hq. by destruct Hq. }
  split; [done|]. by apply active_sublist_of_master.
Qed.

(** X13: the masters.  Whatever the events, a run never adds, removes,
    reorders or rewrites a master item and never changes the document:
    the master collections of the state it reaches are those it started
    from, up to fold flags. *)
Theorem run_keeps_masters (m m' : Model) (events : list (Msg * Runtime)) :
  run m events = Some m' →
  doc m' = doc m ∧
  endpointFace <$> endpoints m' = endpointFace <$> endpoints m ∧
  componentFace <$> components m' = componentFace <$> components m ∧
  webhookFace <$> webhooks m' = webhookFace <$> webhooks m.
Proof.
  intros Hrun.
  eapply (run_preserves (sameMasters m));
    [apply sameMasters_stepClosed | by split | | exact Hrun].
  by split_and!.
Qed.

End RunInvariants.

(** ** The fold toggle *)

Lemma toggleFirst_key {A K} `{EqDecision K} (key : A → K) (flip : A → A)
    (same : A → bool) (k : K) (l : list A) :
  (∀ x, same x = bool_decide (key x = k)) →
  NoDup (key <$> l) → k ∈ key <$> l →
  toggleFirst same flip l
  = Some ((λ x, if bool_decide (key x = k) then flip x else x) <$> l).
Proof.
  intros Hsame. induction l as [|x l IH]; intros Hnd Hin.
  - by apply elem_of_nil in Hin.
  - cbn [fmap list_fmap] in Hnd, Hin. apply NoDup_cons in Hnd as [Hx Hnd].
    cbn [toggleFirst]. rewrite Hsame. cbn.
    case_bool_decide as Hk.
    + do 2 f_equal. symmetry. rewrite <- (list_fmap_id l) at 2.
      apply list_fmap_ext. intros i y Hy.
      rewrite bool_decide_eq_false_2; [done|].
      intros Hyk. apply Hx. rewrite Hk, <- Hyk.
      apply list_elem_of_fmap. exists y. split; [done|].
      by eapply list_elem_of_lookup_2.
    + apply elem_of_cons in Hin as [Hin|Hin]; [congruence|].
      rewrite IH by done. done.
Qed.

Lemma List_filter_fmap {A} (p : A → bool) (g : A → A) (l : list A) :
  (∀ x, p (g x) = p x) → List.filter p (g <$> l) = g <$> List.filter p l.
Proof.
  intros Hp. induction l as [|x l IH]; [done|]. cbn.
  rewrite Hp. destruct (p x); cbn; by rewrite IH.
Qed.

Lemma lookupZ_fmap {A B} (g : A → B) (l : list A) i :
  lookupZ (g <$> l) i = g <$> lookupZ l i.
Proof. unfold lookupZ. case_bool_decide; [apply list_lookup_fmap | done]. Qed.

Lemma lookupZ_Some {A} (l : list A) i x :
  lookupZ l i = Some x → 0 ≤ i < len l ∧ l !! Z.to_nat i = Some x.
Proof.
  unfold lookupZ, len. case_bool_decide; [|done]. intros Hl.
  pose proof (lookup_lt_Some _ _ _ Hl). split; [lia | done].
Qed.

(** In a list without two items of one identity, flipping the items of
    the identity of the one at [i] changes that one only. *)
Lemma lookupZ_flip_of {A K} `{EqDecision K} (key : A → K) (flip : A → A)
    (l : list A) (i : Z) (cur : A) :
  NoDup (key <$> l) → lookupZ l i = Some cur →
  lookupZ ((λ x, if bool_decide (key x = key cur) then flip x else x) <$> l) i
  = Some (flip cur) ∧
  ∀ j, j ≠ i →
    lookupZ ((λ x, if bool_decide (key x = key cur) then flip x else x) <$> l) j
    = lookupZ l j.
Proof.
  intros Hnd Hcur. split.
  - rewrite lookupZ_fmap, Hcur. cbn. by rewrite bool_decide_eq_true_2.
  - intros j Hj. rewrite lookupZ_fmap.
    destruct (lookupZ l j) as [y|] eqn:Hy; [|done]. cbn.
    rewrite bool_decide_eq_false_2; [done|]. intros Hk.
    apply lookupZ_Some in Hcur as [Hi Hcur], Hy as [Hj' Hy].
    apply Hj. apply Z2Nat.inj; [lia | lia |].
    eapply NoDup_lookup; [exact Hnd | |].
    + rewrite list_lookup_fmap, Hy. cbn. by rewrite Hk.
    + by rewrite list_lookup_fmap, Hcur.
Qed.

Lemma NoDup_fmap_sublist {A K} (key : A → K) (l k : list A) :
  l `sublist_of` k → NoDup (key <$> k) → NoDup (key <$> l).
Proof.
  intros Hsub Hnd.
  exact (sublist_NoDup _ _ Hnd (fmap_sublist key _ _ Hsub)).
Qed.

Section ToggleProofs.
Context `{Externals}.

Lemma updateBrowse_toggle m k rt :
  k = "enter" ∨ k = " " →
  updateBrowse m k rt = (m' ← keyToggle m; Some (m', cmdNil)).
Proof. by intros [-> | ->]. Qed.

Lemma matchesEndpoint_flip q cur e :
  matchesEndpoint q (flipEndpointOf cur e) = matchesEndpoint q e.
Proof. unfold flipEndpointOf. by case_bool_decide. Qed.

Lemma sameEndpoint_key cur e :
  bool_decide (e_path e = e_path cur) && bool_decide (e_method e = e_method cur)
  = bool_decide (endpointKey e = endpointKey cur).
Proof.
  unfold endpointKey. repeat case_bool_decide; cbn; congruence.
Qed.

Lemma toggle_endpoint m k rt cur :
  searchMode m = false → showHelp m = false → mode m = viewEndpoints →
  filterConsistent m → NoDup (endpointKey <$> endpoints m) →
  lookupZ (getActiveEndpoints m) (cursor m) = Some cur →
  k = "enter" ∨ k = " " →
  Update m (KeyMsg k) rt
  = Some (filterItems (setEndpoints (flipEndpointOf cur <$> endpoints m) m), cmdNil)
  ∧ getActiveEndpoints
      (filterItems (setEndpoints (flipEndpointOf cur <$> endpoints m) m))
    = flipEndpointOf cur <$> getActiveEndpoints m.
Proof.
  intros Hs Hh Hmode Hcons Hnd Hcur Hk.
  destruct (active_sublist_of_master m Hcons) as (Hsub & _ & _).
  pose proof (lookupZ_Some _ _ _ Hcur) as [Hrange Hnth].
  assert (cur ∈ endpoints m) as Hin.
  { eapply elem_of_sublist; [|exact Hsub]. by eapply list_elem_of_lookup_2. }
  split.
  - rewrite Update_browse, (updateBrowse_toggle _ _ _ Hk) by done.
    unfold keyToggle. rewrite Hh, Hs, Hmode. cbn [negb andb].
    rewrite bool_decide_eq_true_2 by lia.
    destruct (endpoints m) as [|e0 es0] eqn:Hm; [by apply elem_of_nil in Hin|].
    rewrite <- Hm in Hnd, Hin |- *. rewrite Hcur. cbn [mbind option_bind].
    rewrite (toggleFirst_key endpointKey flipEndpoint _ (endpointKey cur));
      [done | apply sameEndpoint_key | done | by apply list_elem_of_fmap_2].
  - unfold getActiveEndpoints.
    rewrite filterItems_filterResult.
    change (ti_Value (searchInput (setFiltered _ _ _ (setEndpoints _ m))))
      with (ti_Value (searchInput m)).
    case_bool_decide as Hq; [|done].
    change (filteredEndpoints (setFiltered ?a _ _ _)) with a.
    specialize (Hcons Hq). unfold filterResult in *.
    change (ti_Value (searchInput (setEndpoints _ m)))
      with (ti_Value (searchInput m)).
    case_bool_decide; injection Hcons as -> _ _; [done|].
    cbn [fst]. apply List_filter_fmap. intros x. apply matchesEndpoint_flip.
Qed.







End ToggleProofs.

Section ToggleTheorems.
Context `{Externals}.

Lemma filterItems_frame m :
  cursor (filterItems m) = cursor m ∧ scrollOffset (filterItems m) = scrollOffset m ∧
  mode (filterItems m) = mode m ∧ searchMode (filterItems m) = searchMode m ∧
  showHelp (filterItems m) = showHelp m ∧
  endpoints (filterItems m) = endpoints m ∧
  components (filterItems m) = components m ∧
  webhooks (filterItems m) = webhooks m.
Proof. destruct (filterItems_shape m) as (fe & fc & fw & ->). by split_and!. Qed.


Lemma flipEndpointOf_twice cur e :
  flipEndpointOf (flipEndpoint cur) (flipEndpointOf cur e) = e.
Proof.
  destruct (decide (endpointKey e = endpointKey cur)) as [Hk|Hk].
  - unfold flipEndpointOf at 2. rewrite (bool_decide_eq_true_2 _ Hk).
    unfold flipEndpointOf.
    change (endpointKey (flipEndpoint e)) with (endpointKey e).
    change (endpointKey (flipEndpoint cur)) with (endpointKey cur).
    rewrite (bool_decide_eq_true_2 _ Hk).
    destruct e as [p me o f]. unfold flipEndpoint. cbn.
    by rewrite negb_involutive.
  - unfold flipEndpointOf at 2. rewrite (bool_decide_eq_false_2 _ Hk).
    unfold flipEndpointOf.
    change (endpointKey (flipEndpoint cur)) with (endpointKey cur).
    by rewrite (bool_decide_eq_false_2 _ Hk).
Qed.

Lemma fmap_flipEndpointOf_key cur (l : list endpoint) :
  endpointKey <$> (flipEndpointOf cur <$> l) = endpointKey <$> l.
Proof.
  rewrite <- list_fmap_compose. apply list_fmap_ext. intros i e _.
  cbn. unfold flipEndpointOf. by case_bool_decide.
Qed.

(** X15: toggling twice.  Under the conditions of the fold toggle, in the
    endpoint view, a second [enter] on the same cursor undoes the first:
    the master and the active collection are the ones before the two. *)
Theorem fold_toggle_twice_restores (m : Model) (rt rt' : Runtime) (cur : endpoint) :
  searchMode m = false → showHelp m = false → filterConsistent m →
  mode m = viewEndpoints → NoDup (endpointKey <$> endpoints m) →
  lookupZ (getActiveEndpoints m) (cursor m) = Some cur →
  ∃ m1 m2, Update m (KeyMsg "enter") rt = Some (m1, cmdNil) ∧
           Update m1 (KeyMsg "enter") rt' = Some (m2, cmdNil) ∧
           e_folded <$> lookupZ (getActiveEndpoints m1) (cursor m)
             = Some (negb (e_folded cur)) ∧
           endpoints m2 = endpoints m ∧
           getActiveEndpoints m2 = getActiveEndpoints m ∧
           cursor m2 = cursor m.
Proof.
  intros Hs Hh Hcons Hmode Hnd Hcur.
  destruct (active_sublist_of_master m Hcons) as (Hse & _ & _).
  destruct (toggle_endpoint m "enter" rt cur Hs Hh Hmode Hcons Hnd Hcur)
    as [Hup Hact]; [by left|].
  set (m1 := filterItems (setEndpoints (flipEndpointOf cur <$> endpoints m) m))
    in *.
  destruct (filterItems_frame
              (setEndpoints (flipEndpointOf cur <$> endpoints m) m))
    as (Hc & Ho & Hmo & Hsm & Hsh & He & _ & _).
  fold m1 in Hc, Ho, Hmo, Hsm, Hsh, He.
  cbn in Hc, Hmo, Hsm, Hsh, He.
  destruct (lookupZ_flip_of endpointKey flipEndpoint (getActiveEndpoints m)
              (cursor m) cur) as [Hat _];
    [by eapply NoDup_fmap_sublist | done |].
  fold (flipEndpointOf cur) in Hat. rewrite <- Hact in Hat.
  destruct (toggle_endpoint m1 "enter" rt' (flipEndpoint cur))
    as [Hup2 Hact2].
  { by rewrite Hsm. } { by rewrite Hsh. } { by rewrite Hmo. }
  { apply filterItems_consistent. }
  { by rewrite He, fmap_flipEndpointOf_key. }
  { by rewrite Hc. } { by left. }
  eexists. eexists. split; [exact Hup|]. split; [exact Hup2|].
  destruct (filterItems_frame
              (setEndpoints (flipEndpointOf (flipEndpoint cur) <$> endpoints m1) m1))
    as (Hc2 & _ & _ & _ & _ & He2 & _ & _).
  cbn in Hc2, He2.
  split_and!.
  - by rewrite Hat.
  - rewrite He2, He, <- list_fmap_compose.
    rewrite <- (list_fmap_id (endpoints m)) at 2.
    apply list_fmap_ext. intros i e _. apply flipEndpointOf_twice.
  - rewrite Hact2, Hact, <- list_fmap_compose.
    rewrite <- (list_fmap_id (getActiveEndpoints m)) at 2.
    apply list_fmap_ext. intros i e _. apply flipEndpointOf_twice.
  - by rewrite Hc2, Hc.
Qed.

End ToggleTheorems.

(** ** What an event can and cannot do *)

Section EventProofs.
Context `{Externals}.

Lemma lastKey_stepClosed m0 :
  stepClosed (λ m, lastKey m = lastKey m0 ∧ lastKeyAt m = lastKeyAt m0).
Proof.
  unfold stepClosed.
  split_and!; try (intros m v HP; exact HP); try (intros m HP; exact HP).
  - intros m ti HP.
    by destruct (filterItems_shape (setSearchInput ti m)) as (? & ? & ? & ->).
  - intros m same es _ HP.
    by destruct (filterItems_shape (setEndpoints es m)) as (? & ? & ? & ->).
  - intros m same cs _ HP.
    by destruct (filterItems_shape (setComponents cs m)) as (? & ? & ? & ->).
  - intros m same ws _ HP.
    by destruct (filterItems_shape (setWebhooks ws m)) as (? & ? & ? & ->).
Qed.

(** X16: the gesture memory.  Only [g] outside search mode writes it: any
    other event, and every key in search mode, leaves the recorded key
    and its time as they were. *)
Theorem only_g_writes_the_gesture_memory (m : Model) (msg : Msg) (rt : Runtime)
    (m' : Model) (cmd : Cmd) :
  searchMode m = true ∨ msg ≠ KeyMsg "g" →
  Update m msg rt = Some (m', cmd) →
  lastKey m' = lastKey m ∧ lastKeyAt m' = lastKeyAt m.
Proof.
  intros Hnot Hup.
  eapply (Update_preserves_but_g
            (λ x, lastKey x = lastKey m ∧ lastKeyAt x = lastKeyAt m));
    [apply lastKey_stepClosed | | done | exact Hup].
  intros Hs Hmsg. destruct Hnot as [Hs'|Hne]; congruence.
Qed.

Lemma bind_is_Some (o : option Model) (c : Cmd) :
  is_Some o → is_Some (m' ← o; Some (m', c)).
Proof. by intros [x ->]. Qed.

Lemma keyCurl_is_Some m order : 0 ≤ cursor m → is_Some (keyCurl m order).
Proof.
  intros Hc. unfold keyCurl.
  destruct (_ && _); [|done].
  destruct (mode m); [| done |]; (case_bool_decide; [|done]).
  - by destruct (lookupZ_is_Some (getActiveEndpoints m) (cursor m)) as [x ->].
  - by destruct (lookupZ_is_Some (getActiveWebhooks m) (cursor m)) as [x ->].
Qed.

Lemma keyToggle_is_Some m : 0 ≤ cursor m → is_Some (keyToggle m).
Proof.
  intros Hc. unfold keyToggle.
  destruct (_ && _); [|done].
  destruct (mode m); (case_bool_decide; [|done]).
  - destruct (endpoints m); [done|].
    by destruct (lookupZ_is_Some (getActiveEndpoints m) (cursor m)) as [x ->].
  - destruct (components m); [done|].
    by destruct (lookupZ_is_Some (getActiveComponents m) (cursor m)) as [x ->].
  - destruct (webhooks m); [done|].
    by destruct (lookupZ_is_Some (getActiveWebhooks m) (cursor m)) as [x ->].
Qed.

Lemma Update_is_Some (m : Model) (msg : Msg) (rt : Runtime) :
  0 ≤ cursor m < 2 ^ 62 → 0 ≤ scrollOffset m → itemsLen m < 2 ^ 62 →
  is_Some (Update m msg rt).
Proof.
  intros [Hc Hcb] Ho Hlen.
  pose proof (itemsLen_nonneg m) as Hnn.
  pose proof (getMaxItems_plain m ltac:(lia)) as Hmax.
  destruct msg as [w h|k|]; cbn [Update]; [done| |done].
  destruct (searchMode m).
  { unfold updateSearch. cbn zeta.
    repeat (destruct (keyIs k _); [done|]).
    by destruct (textinput_Update (searchInput m) k). }
  assert (Hmove : ∀ c, 0 ≤ c < 2 ^ 63 - 1 ∨ (itemsLen m = 0 ∧ c < 2 ^ 63 - 1) →
            is_Some (m' ← ensureCursorVisible (setCursor c m); Some (m', cmdNil))).
  { intros c Hcc. apply bind_is_Some, ensureCursorVisible_is_Some; cbn;
      [done | lia |].
    change (itemsLen (setCursor c m)) with (itemsLen m). lia. }
  unfold updateBrowse. cbn zeta.
  destruct (keyIs k "q" || keyIs k "ctrl+c"); [by destruct (showHelp m)|].
  destruct (keyIs k "?"); [done|].
  destruct (keyIs k "/"); [by destruct (negb (showHelp m))|].
  destruct (keyIs k "esc").
  { destruct (showHelp m); [done|]. destruct (searchMode m); [done|].
    by destruct (showCurl m). }
  destruct (keyIs k "r"); [by apply bind_is_Some, keyCurl_is_Some|].
  destruct (keyIs k "tab" || keyIs k "L"); [by destruct (negb (showHelp m))|].
  destruct (keyIs k "shift+tab" || keyIs k "H");
    [by destruct (negb (showHelp m))|].
  destruct (keyIs k "up" || keyIs k "k").
  { destruct (negb (showHelp m)); cbn [andb]; [|done].
    case_bool_decide; [|done]. apply Hmove.
    unfold subi. rewrite wrap_id by lia. lia. }
  destruct (keyIs k "down" || keyIs k "j").
  { destruct (negb (showHelp m)); [|done]. case_bool_decide; [|done].
    apply Hmove. unfold addi. rewrite wrap_id by lia. lia. }
  destruct (keyIs k "ctrl+d").
  { destruct (negb (showHelp m)); [|done].
    unfold addi, scrollHalfScreenLines. rewrite wrap_id by lia. rewrite Hmax.
    case_bool_decide; apply Hmove; lia. }
  destruct (keyIs k "ctrl+u").
  { destruct (negb (showHelp m)); [|done].
    case_bool_decide; apply Hmove; [lia|].
    unfold subi. rewrite wrap_id by lia. lia. }
  destruct (keyIs k "G").
  { destruct (negb (showHelp m)); [|done]. rewrite Hmax.
    case_bool_decide; [|done]. apply Hmove. lia. }
  destruct (keyIs k "g").
  { apply bind_is_Some. unfold keyG. destruct (_ && _); [|done].
    destruct (negb (showHelp m)); [|done].
    by rewrite ensureCursorVisible_top. }
  destruct (keyIs k "enter" || keyIs k " ");
    [by apply bind_is_Some, keyToggle_is_Some|].
  done.
Qed.

(** X17: no panic.  From a state whose cursor and scroll offset are not
    negative, no event makes [Update] panic: the index panics of the
    handler need a negative cursor or a negative offset. *)
Theorem Update_does_not_panic (m : Model) (msg : Msg) (rt : Runtime) :
  0 ≤ cursor m < 2 ^ 62 → 0 ≤ scrollOffset m → itemsLen m < 2 ^ 62 →
  is_Some (Update m msg rt).
Proof. apply Update_is_Some. Qed.

End EventProofs.

(** ** A key between two presses of [g] *)

Section GestureProofs.
Context `{Externals}.

(** C5 fails on the code.  The gesture memory is written by the [g]
    case alone, so a key pressed between two presses of [g] does not
    supersede the first press: after any event other than [g] that
    leaves the program outside search mode with no help overlay, the
    memory is as the first press left it, and a press of [g] less than
    500 ms after the first still jumps to the top (cursor 0, scroll
    offset 0) and empties the memory. *)
Theorem other_key_does_not_supersede_gesture (m m1 : Model) (msg : Msg)
    (cmd : Cmd) (rt1 rt2 : Runtime) :
  lastKey m = "g" → msg ≠ KeyMsg "g" →
  Update m msg rt1 = Some (m1, cmd) →
  searchMode m1 = false → showHelp m1 = false →
  Time_Sub (rt_now rt2) (lastKeyAt m) < keySequenceThreshold →
  lastKey m1 = "g" ∧ lastKeyAt m1 = lastKeyAt m ∧
  ∃ m2, Update m1 (KeyMsg "g") rt2 = Some (m2, cmdNil) ∧
        cursor m2 = 0 ∧ scrollOffset m2 = 0 ∧ lastKey m2 = "".
Proof.
  intros Hk Hmsg Hup Hs1 Hh1 Ht.
  assert (lastKey m1 = lastKey m ∧ lastKeyAt m1 = lastKeyAt m) as [Hk1 Ht1].
  { eapply (Update_preserves_but_g
              (λ x, lastKey x = lastKey m ∧ lastKeyAt x = lastKeyAt m));
      [apply lastKey_stepClosed | | done | exact Hup].
    intros _ Hg. congruence. }
  rewrite Hk in Hk1. split_and!; [done | done |].
  destruct (double_press_jumps_to_top m1 rt2 Hs1) as (m2 & Hup2 & Hpair & _).
  destruct Hpair as (Hmem & _ & Hjump & _); [by rewrite Hk1, Ht1|].
  destruct (Hjump Hh1) as [Hc Ho].
  exists m2. by split_and!.
Qed.

End GestureProofs.

(** ** The command overlay and the command *)

Section CurlProofs.
Context `{Externals}.

Lemma updateBrowse_r m rt :
  updateBrowse m "r" rt = (m' ← keyCurl m (rt_order rt); Some (m', cmdNil)).
Proof. reflexivity. Qed.

Lemma updateBrowse_esc m rt :
  updateBrowse m "esc" rt =
  if showHelp m then Some (setShowHelp false m, cmdNil)
  else if searchMode m then
    Some (setScrollOffset 0 (setCursor 0 (filterItems
            (setSearchInput (ti_SetValue "" (searchInput m))
               (setSearchMode false m)))), cmdNil)
  else if showCurl m then Some (setShowCurl false m, cmdNil)
  else Some (m, cmdNil).
Proof. reflexivity. Qed.

(** X18: the command overlay.  Outside search mode, with no overlay open:
    on an endpoint under the cursor [r] stores the command of that
    endpoint and opens the overlay, on a webhook it does so for an
    endpoint made of the webhook's name, method and operation, and in
    the component view it does nothing.  [esc] then closes the overlay,
    and the state is the one before [r] but for the stored command. *)
Theorem command_overlay_opens_and_closes (m : Model) (rt rt' : Runtime) :
  searchMode m = false → showHelp m = false → showCurl m = false →
  (∀ ep, mode m = viewEndpoints →
     lookupZ (getActiveEndpoints m) (cursor m) = Some ep →
     ∃ m1, Update m (KeyMsg "r") rt = Some (m1, cmdNil) ∧
           showCurl m1 = true ∧
           curlCommand m1 = generateCurl (rt_order rt) ep (doc m) ∧
           Update m1 (KeyMsg "esc") rt'
           = Some (setCurlCommand (curlCommand m1) m, cmdNil)) ∧
  (∀ hook, mode m = viewWebhooks →
     lookupZ (getActiveWebhooks m) (cursor m) = Some hook →
     ∃ m1, Update m (KeyMsg "r") rt = Some (m1, cmdNil) ∧
           showCurl m1 = true ∧
           curlCommand m1
           = generateCurl (rt_order rt)
               (mkEndpoint (w_name hook) (w_method hook) (w_op hook) false)
               (doc m) ∧
           Update m1 (KeyMsg "esc") rt'
           = Some (setCurlCommand (curlCommand m1) m, cmdNil)) ∧
  (mode m = viewComponents → Update m (KeyMsg "r") rt = Some (m, cmdNil)).
Proof.
  intros Hs Hh Hc. split_and!.
  - intros ep Hmode Hep. pose proof (lookupZ_Some _ _ _ Hep) as [Hr _].
    rewrite Update_browse, updateBrowse_r by done.
    unfold keyCurl. rewrite Hh, Hs, Hmode. cbn [negb andb].
    rewrite bool_decide_eq_true_2 by lia. rewrite Hep. cbn [mbind option_bind].
    eexists. split; [reflexivity|]. split_and!; [done | done |].
    rewrite Update_browse, updateBrowse_esc by exact Hs.
    cbn [showHelp searchMode showCurl setShowCurl setCurlCommand].
    rewrite Hh, Hs. cbn [curlCommand setShowCurl setCurlCommand].
    destruct m; cbn in *. by subst.
  - intros hook Hmode Hhook. pose proof (lookupZ_Some _ _ _ Hhook) as [Hr _].
    rewrite Update_browse, updateBrowse_r by done.
    unfold keyCurl. rewrite Hh, Hs, Hmode. cbn [negb andb].
    rewrite bool_decide_eq_true_2 by lia. rewrite Hhook. cbn [mbind option_bind].
    eexists. split; [reflexivity|]. split_and!; [done | done |].
    rewrite Update_browse, updateBrowse_esc by exact Hs.
    cbn [showHelp searchMode showCurl setShowCurl setCurlCommand].
    rewrite Hh, Hs. cbn [curlCommand setShowCurl setCurlCommand].
    destruct m; cbn in *. by subst.
  - intros Hmode. rewrite Update_browse, updateBrowse_r by done.
    unfold keyCurl. by rewrite Hh, Hs, Hmode.
Qed.

End CurlProofs.

Lemma foldl_addSecurityHeader_undeclared doc hs secReq :
  (∀ secName, secName ∈ secReq →
     match d_SecuritySchemes doc with
     | Some schemes => schemes !! secName = None
     | None => True
     end) →
  foldl (addSecurityHeader doc) hs secReq = hs.
Proof.
  revert hs. induction secReq as [|name secReq IH]; intros hs Hun; [done|].
  cbn [foldl]. rewrite IH.
  - unfold addSecurityHeader.
    pose proof (Hun name ltac:(apply list_elem_of_here)) as Hname.
    destruct (d_SecuritySchemes doc) as [schemes|]; [|done]. by rewrite Hname.
  - intros secName Hin. apply Hun. by apply list_elem_of_further.
Qed.

Lemma curlHeaders_undeclared ep doc :
  securityUndeclared ep doc →
  curlHeaders ep doc = curlHeaders (withoutSecurity ep) doc.
Proof.
  unfold securityUndeclared, curlHeaders. cbn [withoutSecurity e_op op_RequestBody op_Security foldl].
  generalize (match op_RequestBody (e_op ep) with
              | Some _ => <["Content-Type":="application/json"]> (∅ : gmap string string)
              | None => ∅
              end).
  induction (op_Security (e_op ep)) as [|secReq reqs IH]; intros hs Hun; [done|].
  cbn [foldl]. rewrite foldl_addSecurityHeader_undeclared.
  - apply IH. intros r n Hr Hn. apply (Hun r n); [|done].
    by apply list_elem_of_further.
  - intros n Hn. apply (Hun secReq n); [|done]. apply list_elem_of_here.
Qed.

Lemma curlHeaders_withoutSecurity_size ep doc :
  (size (curlHeaders (withoutSecurity ep) doc) ≤ 1)%nat.
Proof.
  unfold curlHeaders, withoutSecurity.
  cbn [e_op op_RequestBody op_Security foldl].
  destruct (op_RequestBody (e_op ep)).
  - rewrite map_size_insert_None by apply lookup_empty.
    rewrite map_size_empty. lia.
  - rewrite map_size_empty. lia.
Qed.

(** X19: undeclared security schemes.  When no name of the security
    requirements of an endpoint is a scheme that the document declares
    (or the document declares none), the requirements add no header: in
    whatever order the runtime walks the header map, the command is the
    one of the endpoint without its security requirements. *)
Theorem undeclared_security_adds_no_header (o1 o2 : MapOrder) (ep : endpoint)
    (doc : Document) :
  securityUndeclared ep doc →
  curlHeaders ep doc
  = (match op_RequestBody (e_op ep) with
     | Some _ => {[ "Content-Type" := "application/json" ]}
     | None => ∅
     end) ∧
  generateCurl o1 ep doc = generateCurl o2 (withoutSecurity ep) doc.
Proof.
  intros Hun. pose proof (curlHeaders_undeclared ep doc Hun) as Hh.
  split.
  - rewrite Hh. unfold curlHeaders, withoutSecurity.
    cbn [e_op op_RequestBody op_Security foldl].
    destruct (op_RequestBody (e_op ep)); [apply insert_empty | done].
  - unfold generateCurl. rewrite Hh.
    rewrite (short_permutations_agree
               (map_to_list (curlHeaders (withoutSecurity ep) doc))
               (rangeOver o1 (curlHeaders (withoutSecurity ep) doc))
               (rangeOver o2 (curlHeaders (withoutSecurity ep) doc)));
      [done | | apply rangeOver_perm | apply rangeOver_perm].
    rewrite length_map_to_list. apply curlHeaders_withoutSecurity_size.
Qed.

(** ** The help overlay *)

Section HelpProofs.
Context `{Externals}.

Lemma unbound_key m k rt :
  k ∉ boundKeys → updateBrowse m k rt = Some (m, cmdNil).
Proof.
  intros Hk.
  assert (∀ name, name ∈ boundKeys → keyIs k name = false) as Hne.
  { intros name Hin. apply keyIs_ne. by intros ->. }
  unfold updateBrowse.
  rewrite (Hne "q"), (Hne "ctrl+c"), (Hne "?"), (Hne "/"), (Hne "esc"),
    (Hne "r"), (Hne "tab"), (Hne "L"), (Hne "shift+tab"), (Hne "H"),
    (Hne "up"), (Hne "k"), (Hne "down"), (Hne "j"), (Hne "ctrl+d"),
    (Hne "ctrl+u"), (Hne "G"), (Hne "g"), (Hne "enter"), (Hne " ")
    by compute_done.
  done.
Qed.

(** X20: the help overlay is modal.  With the help overlay open, outside
    search mode, no key quits the program: [q], [ctrl+c], [?] and [esc]
    close the overlay and change nothing else, [g] writes the gesture
    memory and nothing else, and every other key, bound or not, leaves
    the state as it is. *)
Theorem help_overlay_is_modal (m : Model) (k : string) (rt : Runtime) :
  searchMode m = false → showHelp m = true →
  ∃ m', Update m (KeyMsg k) rt = Some (m', cmdNil) ∧
    if bool_decide (k ∈ closingKeys) then m' = setShowHelp false m
    else if bool_decide (k = "g") then
      m' = if bool_decide (lastKey m = "g") &&
              bool_decide (Time_Sub (rt_now rt) (lastKeyAt m) < keySequenceThreshold)
           then setLastKeyAt zeroTime (setLastKey "" m)
           else setLastKeyAt (rt_now rt) (setLastKey "g" m)
    else m' = m.
Proof.
  intros Hs Hh. rewrite Update_browse by done.
  destruct (decide (k ∈ boundKeys)) as [Hk|Hk].
  - unfold boundKeys in Hk.
    repeat (apply elem_of_cons in Hk as [->|Hk]); [..|by apply elem_of_nil in Hk];
      unfold updateBrowse, keyCurl, keyToggle, keyG; rewrite ?Hh, ?Hs;
      cbn [negb andb];
      try (destruct (bool_decide (lastKey m = "g") && _));
      (eexists; split; [reflexivity|]);
      repeat first [ rewrite bool_decide_eq_true_2 by compute_done
                   | rewrite bool_decide_eq_false_2 by compute_done ];
      reflexivity.
  - rewrite unbound_key by done. exists m. split; [done|].
    rewrite bool_decide_eq_false_2.
    2:{ intros Hin. apply Hk. unfold closingKeys in Hin.
        repeat (apply elem_of_cons in Hin as [->|Hin]);
          [..|by apply elem_of_nil in Hin]; compute_done. }
    rewrite bool_decide_eq_false_2; [done|].
    intros ->. apply Hk. compute_done.
Qed.

End HelpProofs.

(** ** The cursor stays in range *)

Lemma List_filter_length_face {A B} (face : A → B) (p : A → bool) (l l' : list A) :
  (∀ x y, face x = face y → p x = p y) →
  face <$> l' = face <$> l →
  length (List.filter p l') = length (List.filter p l).
Proof.
  intros Hp. revert l'. induction l as [|x l IH]; intros [|x' l'] Hf; try done.
  injection Hf as Hx Hl. cbn. rewrite (Hp x' x Hx).
  destruct (p x); cbn; by rewrite (IH l' Hl).
Qed.

Lemma fmap_eq_length {A B} (face : A → B) (l l' : list A) :
  face <$> l' = face <$> l → len l' = len l.
Proof.
  intros Hf. unfold len. apply (f_equal length) in Hf.
  rewrite !length_fmap in Hf. by rewrite Hf.
Qed.

Section CursorProofs.
Context `{Externals}.

Lemma matchesEndpoint_face q x y :
  endpointFace x = endpointFace y → matchesEndpoint q x = matchesEndpoint q y.
Proof. unfold endpointFace, matchesEndpoint. by intros [= -> -> ->]. Qed.

Lemma matchesComponent_face q x y :
  componentFace x = componentFace y → matchesComponent q x = matchesComponent q y.
Proof. unfold componentFace, matchesComponent. by intros [= -> -> -> _]. Qed.

Lemma matchesWebhook_face q x y :
  webhookFace x = webhookFace y → matchesWebhook q x = matchesWebhook q y.
Proof. unfold webhookFace, matchesWebhook. by intros [= -> -> ->]. Qed.

Lemma itemsLen_le_masterLen m : filterConsistent m → itemsLen m ≤ masterLen m.
Proof.
  intros Hcons.
  destruct (active_sublist_of_master m Hcons) as (He & Hc & Hw).
  apply sublist_length in He, Hc, Hw.
  unfold itemsLen, masterLen, len. destruct (mode m); lia.
Qed.

Lemma itemsLen_no_query m :
  ti_Value (searchInput m) = "" → itemsLen m = masterLen m.
Proof.
  intros Hq. unfold itemsLen, masterLen, getActiveEndpoints,
    getActiveComponents, getActiveWebhooks.
  rewrite bool_decide_eq_false_2 by (by intros Hne). done.
Qed.

(** Under a consistent filter the size of the active collection depends
    on the view, the query and the masters up to fold flags. *)
Lemma itemsLen_same_faces m m' :
  filterConsistent m → filterConsistent m' → sameMasters m m' →
  mode m' = mode m → ti_Value (searchInput m') = ti_Value (searchInput m) →
  itemsLen m' = itemsLen m.
Proof.
  intros Hcons Hcons' (_ & He & Hc & Hw) Hmode Hq.
  unfold itemsLen, getActiveEndpoints, getActiveComponents, getActiveWebhooks.
  rewrite Hmode, Hq.
  case_bool_decide as Hv.
  - assert (ti_Value (searchInput m') ≠ "") as Hv' by congruence.
    specialize (Hcons Hv). specialize (Hcons' Hv').
    unfold filterResult in Hcons, Hcons'. rewrite Hq in Hcons'.
    case_bool_decide; injection Hcons as -> -> ->;
      injection Hcons' as -> -> ->; [done|].
    unfold len. destruct (mode m); f_equal.
    + apply (List_filter_length_face endpointFace); [|done].
      intros x y. apply matchesEndpoint_face.
    + apply (List_filter_length_face componentFace); [|done].
      intros x y. apply matchesComponent_face.
    + apply (List_filter_length_face webhookFace); [|done].
      intros x y. apply matchesWebhook_face.
  - destruct (mode m); by eapply fmap_eq_length.
Qed.

Lemma mastersBounded_sameMasters m m' :
  sameMasters m m' → mastersBounded m → mastersBounded m'.
Proof.
  intros (_ & He & Hc & Hw) (Hbe & Hbc & Hbw). unfold mastersBounded.
  rewrite (fmap_eq_length _ _ _ He), (fmap_eq_length _ _ _ Hc),
    (fmap_eq_length _ _ _ Hw). done.
Qed.

Lemma cursorInv_top m : cursorInv (setScrollOffset 0 (setCursor 0 m)).
Proof. split; [by right | done]. Qed.

Lemma keyCurl_cursorInv m order m' :
  keyCurl m order = Some m' → cursorInv m → cursorInv m'.
Proof.
  unfold keyCurl. cbn zeta.
  destruct (negb (showHelp m) && negb (searchMode m)); [|by intros [= <-]].
  destruct (mode m) eqn:Hmode.
  - case_bool_decide; [|by intros [= <-]].
    destruct (lookupZ _ _) as [ep|]; [|done]. cbn [mbind option_bind].
    intros [= <-] Hinv. exact Hinv.
  - by intros [= <-].
  - case_bool_decide; [|by intros [= <-]].
    destruct (lookupZ _ _) as [hook|]; [|done]. cbn [mbind option_bind].
    intros [= <-] Hinv. exact Hinv.
Qed.

Lemma filterItems_keeps m :
  cursor (filterItems m) = cursor m ∧
  scrollOffset (filterItems m) = scrollOffset m ∧
  mode (filterItems m) = mode m ∧
  searchInput (filterItems m) = searchInput m.
Proof. destruct (filterItems_shape m) as (fe & fc & fw & ->). by split_and!. Qed.

Lemma keyToggle_keeps m m' :
  keyToggle m = Some m' →
  cursor m' = cursor m ∧ scrollOffset m' = scrollOffset m ∧
  mode m' = mode m ∧ searchInput m' = searchInput m.
Proof.
  set (P := λ x : Model, cursor x = cursor m ∧ scrollOffset x = scrollOffset m ∧
                         mode x = mode m ∧ searchInput x = searchInput m).
  assert (P m) as H0 by done.
  assert (∀ es, P (filterItems (setEndpoints es m))) as He
    by (intros es; apply (filterItems_keeps (setEndpoints es m))).
  assert (∀ cs, P (filterItems (setComponents cs m))) as Hc
    by (intros cs; apply (filterItems_keeps (setComponents cs m))).
  assert (∀ ws, P (filterItems (setWebhooks ws m))) as Hw
    by (intros ws; apply (filterItems_keeps (setWebhooks ws m))).
  change (keyToggle m = Some m' → P m'). clearbody P.
  unfold keyToggle. cbn zeta.
  destruct (negb (showHelp m) && negb (searchMode m)); [|by intros [= <-]].
  destruct (mode m).
  - case_bool_decide; [|by intros [= <-]].
    destruct (endpoints m); [by intros [= <-]|].
    destruct (lookupZ _ _) as [cur|]; [|done]. cbn [mbind option_bind].
    destruct (toggleFirst _ _ _) as [es|]; intros [= <-]; [apply He | done].
  - case_bool_decide; [|by intros [= <-]].
    destruct (components m); [by intros [= <-]|].
    destruct (lookupZ _ _) as [cur|]; [|done]. cbn [mbind option_bind].
    destruct (toggleFirst _ _ _) as [cs|]; intros [= <-]; [apply Hc | done].
  - case_bool_decide; [|by intros [= <-]].
    destruct (webhooks m); [by intros [= <-]|].
    destruct (lookupZ _ _) as [cur|]; [|done]. cbn [mbind option_bind].
    destruct (toggleFirst _ _ _) as [ws|]; intros [= <-]; [apply Hw | done].
Qed.

Lemma keyToggle_cursorInv m m' :
  filterConsistent m → keyToggle m = Some m' → cursorInv m → cursorInv m'.
Proof.
  intros Hcons Ht [Hc Ho].
  destruct (keyToggle_keeps m m' Ht) as (Hcur & Hoff & Hmode & Hin).
  assert (itemsLen m' = itemsLen m) as Hlen.
  { apply itemsLen_same_faces; [done | | | done | by rewrite Hin].
    - eapply keyToggle_preserves;
        [apply filterConsistent_stepClosed | exact Hcons | exact Ht].
    - eapply (keyToggle_preserves (sameMasters m));
        [apply sameMasters_stepClosed | by split_and! | exact Ht]. }
  unfold cursorInv. rewrite Hcur, Hoff, Hlen. done.
Qed.

(** Opening the search: the query is emptied, so the active collection
    becomes the master, which is at least as long. *)
Lemma open_search_cursorInv m :
  filterConsistent m → cursorInv m →
  cursorInv
    (filterItems
       (setSearchInput
          (ti_SetValue "" (searchInput (setSearchInput (ti_Focus (searchInput (setSearchMode true m))) (setSearchMode true m))))
          (setSearchInput (ti_Focus (searchInput (setSearchMode true m))) (setSearchMode true m)))).
Proof.
  intros Hcons [Hc Ho].
  pose proof (itemsLen_le_masterLen m Hcons) as Hle.
  set (m1 := filterItems _).
  assert (itemsLen m1 = masterLen m) as Hlen.
  { rewrite itemsLen_no_query.
    - unfold m1. destruct (filterItems_shape
        (setSearchInput
          (ti_SetValue "" (searchInput (setSearchInput (ti_Focus (searchInput (setSearchMode true m))) (setSearchMode true m))))
          (setSearchInput (ti_Focus (searchInput (setSearchMode true m))) (setSearchMode true m))))
        as (fe & fc & fw & ->). done.
    - unfold m1. by rewrite (proj2 (proj2 (proj2 (filterItems_keeps _)))). }
  assert (cursor m1 = cursor m) as Hcur.
  { unfold m1. by rewrite (proj1 (filterItems_keeps _)). }
  assert (scrollOffset m1 = scrollOffset m) as Hoff.
  { unfold m1. by rewrite (proj1 (proj2 (filterItems_keeps _))). }
  unfold cursorInv. rewrite Hcur, Hoff, Hlen. split; [|done].
  destruct Hc as [Hc|Hc]; [left; lia | by right].
Qed.

Lemma Update_cursorInv (m : Model) (msg : Msg) (rt : Runtime) :
  filterConsistent m → mastersBounded m → cursorInv m →
  (msg = KeyMsg "ctrl+d" →
   searchMode m = true ∨ showHelp m = true ∨ itemsLen m ≠ 0) →
  ∃ m' cmd, Update m msg rt = Some (m', cmd) ∧
            cursorInv m' ∧ filterConsistent m' ∧ mastersBounded m'.
Proof.
  intros Hcons Hb Hinv Hd.
  pose proof (itemsLen_le_masterLen m Hcons) as Hle.
  pose proof (itemsLen_nonneg m) as Hnn.
  assert (itemsLen m < 2 ^ 62) as Hlen.
  { destruct Hb as (? & ? & ?). unfold masterLen in Hle. destruct (mode m); lia. }
  assert (∃ m' cmd, Update m msg rt = Some (m', cmd) ∧ cursorInv m')
    as (m' & cmd & HU & Hinv'); [|].
  2:{ exists m', cmd. split_and!; [done | done | |].
      - eapply Update_preserves;
          [apply filterConsistent_stepClosed | by split | exact Hcons | exact HU].
      - eapply mastersBounded_sameMasters; [|exact Hb].
        eapply (Update_preserves (sameMasters m));
          [apply sameMasters_stepClosed | by split | by split_and! | exact HU]. }
  destruct msg as [w h|k|]; [by exists (setHeight h (setWidth w m)), cmdNil | |
                             by exists m, cmdNil].
  destruct (searchMode m) eqn:Hs.
  { rewrite Update_search by done. unfold updateSearch. cbn zeta.
    destruct (keyIs k "esc"); [eexists _, _; split; [done|apply cursorInv_top]|].
    destruct (keyIs k "ctrl+c"); [by eexists _, _|].
    destruct (keyIs k "enter"); [eexists _, _; split; [done|exact Hinv]|].
    destruct (textinput_Update (searchInput m) k) as [input c].
    eexists _, _; split; [done|apply cursorInv_top]. }
  destruct (decide (k ∈ movementKeys)) as [Hk|Hk].
  { destruct Hinv as [[Hon|H0] Ho].
    - destruct (movement_on_item m k rt Hs (conj Hon Ho) Hlen Hk)
        as (m' & HU & [Hon' Ho'] & _).
      exists m', cmdNil. split; [done|]. split; [by left | done].
    - destruct (decide (itemsLen m = 0)) as [He|He].
      + destruct (decide (k = "ctrl+d")) as [->|Hkd].
        * destruct (Hd eq_refl) as [?|[Hh|?]]; [congruence | | done].
          rewrite Update_browse, updateBrowse_ctrl_d, Hh by done.
          exists m, cmdNil. split; [done|]. split; [by right | done].
        * destruct (movement_on_empty m k rt Hs He H0) as (m' & HU & Hc' & _ & Ho').
          { unfold movementKeys in Hk.
            repeat (apply elem_of_cons in Hk as [->|Hk]);
              [..|by apply elem_of_nil in Hk]; first [done | compute_done]. }
          exists m', cmdNil. split; [done|]. split; [by right|].
          rewrite Hc'. destruct Ho' as [-> | ->]; lia.
      + assert (0 ≤ cursor m < itemsLen m) as Hon by lia.
        destruct (movement_on_item m k rt Hs (conj Hon Ho) Hlen Hk)
          as (m' & HU & [Hon' Ho'] & _).
        exists m', cmdNil. split; [done|]. split; [by left | done]. }
  assert (∀ name, name ∈ movementKeys → keyIs k name = false) as Hne.
  { intros name Hin. apply keyIs_ne. by intros ->. }
  rewrite Update_browse by done. unfold updateBrowse. cbn zeta.
  rewrite (Hne "up"), (Hne "k"), (Hne "down"), (Hne "j"), (Hne "ctrl+d"),
    (Hne "ctrl+u"), (Hne "G"), (Hne "g") by compute_done.
  cbn [orb].
  destruct (keyIs k "q" || keyIs k "ctrl+c").
  { destruct (showHelp m); eexists _, _; (split; [done|exact Hinv]). }
  destruct (keyIs k "?"); [eexists _, _; split; [done|exact Hinv]|].
  destruct (keyIs k "/").
  { destruct (negb (showHelp m)); eexists _, _; (split; [done|]);
      [by apply open_search_cursorInv | exact Hinv]. }
  destruct (keyIs k "esc").
  { destruct (showHelp m); [eexists _, _; split; [done|exact Hinv]|].
    rewrite Hs.
    destruct (showCurl m); eexists _, _; (split; [done|exact Hinv]). }
  destruct (keyIs k "r").
  { destruct (keyCurl_is_Some m (rt_order rt)) as [m' Hm']; [destruct Hinv; lia|].
    rewrite Hm'. exists m', cmdNil. split; [done|]. by eapply keyCurl_cursorInv. }
  destruct (keyIs k "tab" || keyIs k "L").
  { destruct (negb (showHelp m)); eexists _, _; (split; [done|]);
      [apply cursorInv_top | exact Hinv]. }
  destruct (keyIs k "shift+tab" || keyIs k "H").
  { destruct (negb (showHelp m)); eexists _, _; (split; [done|]);
      [apply cursorInv_top | exact Hinv]. }
  destruct (keyIs k "enter" || keyIs k " ").
  { destruct (keyToggle_is_Some m) as [m' Hm']; [destruct Hinv; lia|].
    rewrite Hm'. exists m', cmdNil. split; [done|]. by eapply keyToggle_cursorInv. }
  by exists m, cmdNil.
Qed.

(** X21: the cursor invariant, one event.  From a state with a consistent
    filter, masters of fewer than 2^62 items, and the cursor on an item
    (or at 0) with the offset between 0 and the cursor, every event but
    one returns without panic a state of which the same holds.  The
    exception is the half-page jump down outside search mode, with no
    help overlay, on an empty active collection. *)
Theorem Update_keeps_cursor_in_range (m : Model) (msg : Msg) (rt : Runtime) :
  filterConsistent m → mastersBounded m → cursorInv m →
  (msg = KeyMsg "ctrl+d" →
   searchMode m = true ∨ showHelp m = true ∨ itemsLen m ≠ 0) →
  ∃ m' cmd, Update m msg rt = Some (m', cmd) ∧
            cursorInv m' ∧ filterConsistent m' ∧ mastersBounded m'.
Proof. apply Update_cursorInv. Qed.

(** X22: no panic in a run.  From a fresh model whose collections have
    fewer than 2^62 items, a run of events with no half-page jump down
    among them never panics, and in the state it reaches the cursor is
    on an item of the active collection (or at 0 when that is empty)
    and the offset is between 0 and the cursor. *)
Theorem run_without_half_page_down_is_safe (d : Document) (es : list endpoint)
    (cs : list component) (ws : list webhook) (events : list (Msg * Runtime)) :
  len es < 2 ^ 62 → len cs < 2 ^ 62 → len ws < 2 ^ 62 →
  Forall notHalfPageDown events →
  ∃ m', run (NewModel d es cs ws) events = Some m' ∧
        (0 ≤ cursor m' < itemsLen m' ∨ cursor m' = 0) ∧
        0 ≤ scrollOffset m' ≤ cursor m'.
Proof.
  intros Hes Hcs Hws Hev.
  assert (∀ m, filterConsistent m → mastersBounded m → cursorInv m →
               ∃ m', run m events = Some m' ∧ cursorInv m') as Hrun.
  { induction Hev as [|[msg rt] events Hne Hev IH]; intros m Hcons Hb Hinv.
    - by exists m.
    - destruct (Update_cursorInv m msg rt Hcons Hb Hinv)
        as (m1 & cmd & HU & Hinv1 & Hcons1 & Hb1).
      { intros ->. by destruct Hne. }
      destruct (IH m1 Hcons1 Hb1 Hinv1) as (m' & Hr & Hinv').
      exists m'. split; [|done]. cbn [run]. by rewrite HU. }
  apply Hrun.
  - intros Hq. by destruct Hq.
  - by split_and!.
  - split; [by right | done].
Qed.

End CursorProofs.

(** ** The properties above at concrete inputs *)

Section CoverageExamples.
#[local] Existing Instance plainExternals.

Lemma truncateContent_lines_witness :
  1 ≤ 2 < 2 ^ 63 ∧
  (∃ r, truncateContent (lines 3) 2 = Some r ∧
        strings_Split_nl r = [""; truncateMarker] ∧
        len (strings_Split_nl r) = 2) ∧
  - 2 ^ 63 < 0 ≤ 0 ∧
  truncateContent (lines 3) 0 = None.
Proof.
  assert (1 ≤ 2 < 2 ^ 63) as Hpos by (split; [by vm_compute | reflexivity]).
  assert (- 2 ^ 63 < 0 ≤ 0) as Hneg by (split; [reflexivity | by vm_compute]).
  destruct (proj1 (truncateContent_lines (lines 3) 2) Hpos) as (r & Hr & Hs & Hl & _).
  refine (conj Hpos (conj _ (conj Hneg
            (proj2 (truncateContent_lines (lines 3) 0) Hneg)))).
  exists r. exact (conj Hr (conj Hs Hl)).
Defined.

Lemma ensureCursorVisible_only_scrolls_witness :
  ensureCursorVisible afterResize = Some (setScrollOffset 1 afterResize) ∧
  ∃ s, setScrollOffset 1 afterResize = setScrollOffset s afterResize.
Proof.
  split; [reflexivity|].
  apply (ensureCursorVisible_only_scrolls afterResize). reflexivity.
Defined.

Lemma ensureCursorVisible_panics_iff_witness :
  0 ≤ cursor afterResize < 2 ^ 63 - 1 ∧ itemsLen afterResize ≠ 0 ∧
  (ensureCursorVisible afterResize = None
   ↔ cursor afterResize ≠ 0 ∧ scrollOffset afterResize < 0) ∧
  (∀ m', ensureCursorVisible afterResize = Some m' →
         0 ≤ scrollOffset m' ≤ cursor afterResize).
Proof.
  assert (0 ≤ cursor afterResize < 2 ^ 63 - 1) as Hc
    by (split; [by vm_compute | reflexivity]).
  assert (itemsLen afterResize ≠ 0) as Hn by (vm_compute; discriminate).
  exact (conj Hc (conj Hn (ensureCursorVisible_panics_iff afterResize Hc Hn))).
Defined.

Lemma movement_keeps_cursor_on_an_item_witness :
  searchMode threeEndpoints = false ∧ navInv threeEndpoints ∧
  itemsLen threeEndpoints < 2 ^ 62 ∧ "ctrl+d" ∈ movementKeys ∧
  ∃ m', Update threeEndpoints (KeyMsg "ctrl+d") (at_ 0) = Some (m', cmdNil) ∧
        navInv m' ∧ mode m' = mode threeEndpoints ∧
        itemsLen m' = itemsLen threeEndpoints.
Proof.
  assert (navInv threeEndpoints) as Hi by (vm_compute; intuition discriminate).
  assert (itemsLen threeEndpoints < 2 ^ 62) as Hl by reflexivity.
  assert ("ctrl+d" ∈ movementKeys) as Hk
    by compute_done.
  exact (conj eq_refl (conj Hi (conj Hl (conj Hk
           (movement_keeps_cursor_on_an_item threeEndpoints "ctrl+d" (at_ 0)
              eq_refl Hi Hl Hk))))).
Defined.

Lemma empty_collection_keeps_cursor_witness :
  searchMode noItems = false ∧ itemsLen noItems = 0 ∧ cursor noItems = 0 ∧
  ∃ m', Update noItems (KeyMsg "j") (at_ 0) = Some (m', cmdNil) ∧
        cursor m' = 0 ∧ itemsLen m' = 0 ∧
        (scrollOffset m' = 0 ∨ scrollOffset m' = scrollOffset noItems).
Proof.
  split_and!; [reflexivity | reflexivity | reflexivity |].
  apply (empty_collection_keeps_cursor noItems "j" (at_ 0));
    [reflexivity | reflexivity | reflexivity |].
  compute_done.
Defined.

Lemma view_cycle_inverse_witness :
  searchMode threeEndpoints = false ∧ showHelp threeEndpoints = false ∧
  ∃ m1 m2,
    Update threeEndpoints (KeyMsg "tab") (at_ 0) = Some (m1, cmdNil) ∧
    Update m1 (KeyMsg "shift+tab") (at_ 0) = Some (m2, cmdNil) ∧
    mode m1 ≠ mode threeEndpoints ∧
    (mode m1 = viewWebhooks → hasWebhooks threeEndpoints = true) ∧
    mode m2 = mode threeEndpoints.
Proof.
  split_and!; [reflexivity | reflexivity |].
  apply (proj1 (view_cycle_inverse threeEndpoints (at_ 0) (at_ 0)
                  "tab" "shift+tab" eq_refl eq_refl
                  (λ Hm, match Hm in _ = v
                               return match v with
                                      | viewWebhooks => _
                                      | _ => True
                                      end
                         with eq_refl => I end)
                  (or_introl eq_refl) (or_introl eq_refl))).
Defined.

Lemma longer_query_narrows_witness :
  strings_ToLower (ti_Value (searchInput (queried "/"))) ≠ "" ∧
  strings_Contains (strings_ToLower (ti_Value (searchInput (queried "/B"))))
                   (strings_ToLower (ti_Value (searchInput (queried "/")))) = true ∧
  filteredEndpoints (filterItems (queried "/B"))
    `sublist_of` filteredEndpoints (filterItems (queried "/")) ∧
  filteredComponents (filterItems (queried "/B"))
    `sublist_of` filteredComponents (filterItems (queried "/")) ∧
  filteredWebhooks (filterItems (queried "/B"))
    `sublist_of` filteredWebhooks (filterItems (queried "/")).
Proof.
  assert (strings_ToLower (ti_Value (searchInput (queried "/"))) ≠ "") as Hq
    by (vm_compute; discriminate).
  split_and!; [exact Hq | reflexivity | ..];
    apply (longer_query_narrows (queried "/") (queried "/B")
             eq_refl eq_refl eq_refl Hq eq_refl).
Defined.

Lemma run_keeps_filter_consistent_witness :
  ∃ m', run threeEndpoints
          [key "/" 0; key "b" 0; key "enter" 0; key "enter" 0; key "j" 0]
        = Some m' ∧
        ti_Value (searchInput m') = "b" ∧
        filterConsistent m' ∧
        getActiveEndpoints m' `sublist_of` endpoints m' ∧
        getActiveComponents m' `sublist_of` components m' ∧
        getActiveWebhooks m' `sublist_of` webhooks m'.
Proof.
  eexists. split; [vm_compute; reflexivity|]. split; [reflexivity|].
  apply (run_keeps_filter_consistent emptyDocument
           [getEndpoint "/a"; getEndpoint "/b"; getEndpoint "/c"] [] []
           [key "/" 0; key "b" 0; key "enter" 0; key "enter" 0; key "j" 0]).
  vm_compute. reflexivity.
Defined.

Lemma run_keeps_masters_witness :
  ∃ m', run threeEndpoints
          [key "j" 0; key "enter" 0; key "/" 0; key "c" 0; key "esc" 0]
        = Some m' ∧
        e_folded <$> endpoints m' = [true; false; true] ∧
        doc m' = doc threeEndpoints ∧
        endpointFace <$> endpoints m' = endpointFace <$> endpoints threeEndpoints ∧
        componentFace <$> components m' = componentFace <$> components threeEndpoints ∧
        webhookFace <$> webhooks m' = webhookFace <$> webhooks threeEndpoints.
Proof.
  eexists. split; [vm_compute; reflexivity|]. split; [reflexivity|].
  apply (run_keeps_masters threeEndpoints _
           [key "j" 0; key "enter" 0; key "/" 0; key "c" 0; key "esc" 0]).
  vm_compute. reflexivity.
Defined.


Lemma fold_toggle_twice_restores_witness :
  searchMode threeEndpoints = false ∧ showHelp threeEndpoints = false ∧
  mode threeEndpoints = viewEndpoints ∧
  NoDup (endpointKey <$> endpoints threeEndpoints) ∧
  lookupZ (getActiveEndpoints threeEndpoints) (cursor threeEndpoints)
  = Some (getEndpoint "/a") ∧
  ∃ m1 m2, Update threeEndpoints (KeyMsg "enter") (at_ 0) = Some (m1, cmdNil) ∧
           Update m1 (KeyMsg "enter") (at_ 5) = Some (m2, cmdNil) ∧
           e_folded <$> lookupZ (getActiveEndpoints m1) (cursor threeEndpoints)
             = Some (negb (e_folded (getEndpoint "/a"))) ∧
           endpoints m2 = endpoints threeEndpoints ∧
           getActiveEndpoints m2 = getActiveEndpoints threeEndpoints ∧
           cursor m2 = cursor threeEndpoints.
Proof.
  assert (filterConsistent threeEndpoints) as Hf
    by (intros Hq; exfalso; apply Hq; reflexivity).
  assert (NoDup (endpointKey <$> endpoints threeEndpoints)) as Hnd
    by compute_done.
  split_and!; [reflexivity | reflexivity | reflexivity | exact Hnd | reflexivity |].
  exact (fold_toggle_twice_restores threeEndpoints (at_ 0) (at_ 5)
           (getEndpoint "/a") eq_refl eq_refl Hf eq_refl Hnd eq_refl).
Defined.

Lemma only_g_writes_the_gesture_memory_witness :
  KeyMsg "j" ≠ KeyMsg "g" ∧
  Update threeEndpoints (KeyMsg "j") (at_ 7)
  = Some (setScrollOffset 0 (setCursor 1 threeEndpoints), cmdNil) ∧
  lastKey (setScrollOffset 0 (setCursor 1 threeEndpoints)) = lastKey threeEndpoints ∧
  lastKeyAt (setScrollOffset 0 (setCursor 1 threeEndpoints)) = lastKeyAt threeEndpoints.
Proof.
  assert (KeyMsg "j" ≠ KeyMsg "g") as Hne by discriminate.
  split_and!; [exact Hne | reflexivity | ..];
    apply (only_g_writes_the_gesture_memory threeEndpoints (KeyMsg "j") (at_ 7)
             (setScrollOffset 0 (setCursor 1 threeEndpoints)) cmdNil
             (or_intror Hne) eq_refl).
Defined.

Lemma Update_does_not_panic_witness :
  0 ≤ cursor afterResize < 2 ^ 62 ∧ 0 ≤ scrollOffset afterResize ∧
  itemsLen afterResize < 2 ^ 62 ∧
  is_Some (Update afterResize (KeyMsg "enter") (at_ 0)).
Proof.
  assert (0 ≤ cursor afterResize < 2 ^ 62) as Hc
    by (split; [by vm_compute | reflexivity]).
  assert (0 ≤ scrollOffset afterResize) as Hs by (by vm_compute).
  assert (itemsLen afterResize < 2 ^ 62) as Hl by reflexivity.
  exact (conj Hc (conj Hs (conj Hl
           (Update_does_not_panic afterResize (KeyMsg "enter") (at_ 0) Hc Hs Hl)))).
Defined.

Lemma command_overlay_opens_and_closes_witness :
  searchMode threeEndpoints = false ∧ showHelp threeEndpoints = false ∧
  showCurl threeEndpoints = false ∧ mode threeEndpoints = viewEndpoints ∧
  lookupZ (getActiveEndpoints threeEndpoints) (cursor threeEndpoints)
  = Some (getEndpoint "/a") ∧
  ∃ m1, Update threeEndpoints (KeyMsg "r") (at_ 0) = Some (m1, cmdNil) ∧
        showCurl m1 = true ∧
        curlCommand m1
        = generateCurl (rt_order (at_ 0)) (getEndpoint "/a") (doc threeEndpoints) ∧
        Update m1 (KeyMsg "esc") (at_ 9)
        = Some (setCurlCommand (curlCommand m1) threeEndpoints, cmdNil).
Proof.
  split_and!; [reflexivity | reflexivity | reflexivity | reflexivity | reflexivity |].
  exact (proj1 (command_overlay_opens_and_closes threeEndpoints (at_ 0) (at_ 9)
                  eq_refl eq_refl eq_refl)
           (getEndpoint "/a") eq_refl eq_refl).
Defined.

Lemma undeclared_security_adds_no_header_witness :
  securityUndeclared securedEndpoint apiKeyDocument ∧
  curlHeaders securedEndpoint apiKeyDocument
  = {[ "Content-Type" := "application/json" ]} ∧
  generateCurl forwardOrder securedEndpoint apiKeyDocument
  = generateCurl backwardOrder (withoutSecurity securedEndpoint) apiKeyDocument.
Proof.
  assert (securityUndeclared securedEndpoint apiKeyDocument) as Hu.
  { intros secReq secName Hr Hn.
    apply list_elem_of_singleton in Hr. subst secReq.
    apply list_elem_of_singleton in Hn. subst secName.
    reflexivity. }
  split; [exact Hu|].
  exact (undeclared_security_adds_no_header forwardOrder backwardOrder
           securedEndpoint apiKeyDocument Hu).
Defined.

Lemma Update_keeps_cursor_in_range_witness :
  filterConsistent threeEndpoints ∧ mastersBounded threeEndpoints ∧
  cursorInv threeEndpoints ∧ itemsLen threeEndpoints ≠ 0 ∧
  ∃ m' cmd, Update threeEndpoints (KeyMsg "ctrl+d") (at_ 0) = Some (m', cmd) ∧
            cursorInv m' ∧ filterConsistent m' ∧ mastersBounded m'.
Proof.
  assert (filterConsistent threeEndpoints) as Hf
    by (intros Hq; exfalso; apply Hq; reflexivity).
  assert (mastersBounded threeEndpoints) as Hb
    by (split; [reflexivity | split; reflexivity]).
  assert (cursorInv threeEndpoints) as Hi
    by (split; [right; reflexivity | split; by vm_compute]).
  assert (itemsLen threeEndpoints ≠ 0) as Hn by (vm_compute; discriminate).
  exact (conj Hf (conj Hb (conj Hi (conj Hn
           (Update_keeps_cursor_in_range threeEndpoints (KeyMsg "ctrl+d") (at_ 0)
              Hf Hb Hi (λ _, or_intror (or_intror Hn))))))).
Defined.

Lemma run_without_half_page_down_is_safe_witness :
  Forall notHalfPageDown
    [key "G" 0; key "/" 0; key "z" 0; key "enter" 0; key "j" 0; key "enter" 0] ∧
  ∃ m', run threeEndpoints
          [key "G" 0; key "/" 0; key "z" 0; key "enter" 0; key "j" 0; key "enter" 0]
        = Some m' ∧
        (0 ≤ cursor m' < itemsLen m' ∨ cursor m' = 0) ∧
        0 ≤ scrollOffset m' ≤ cursor m'.
Proof.
  assert (Forall notHalfPageDown
            [key "G" 0; key "/" 0; key "z" 0; key "enter" 0; key "j" 0;
             key "enter" 0]) as Hev
    by (repeat (constructor; [discriminate|]); constructor).
  split; [exact Hev|].
  exact (run_without_half_page_down_is_safe emptyDocument
           [getEndpoint "/a"; getEndpoint "/b"; getEndpoint "/c"] [] []
           [key "G" 0; key "/" 0; key "z" 0; key "enter" 0; key "j" 0; key "enter" 0]
           eq_refl eq_refl eq_refl Hev).
Defined.

Lemma ensureCursorVisible_idempotent_witness :
  0 ≤ cursor afterResize < 2 ^ 63 - 1 ∧
  ensureCursorVisible afterResize = Some (setScrollOffset 1 afterResize) ∧
  ensureCursorVisible (setScrollOffset 1 afterResize)
  = Some (setScrollOffset 1 afterResize).
Proof.
  assert (0 ≤ cursor afterResize < 2 ^ 63 - 1) as Hc
    by (split; [by vm_compute | reflexivity]).
  exact (conj Hc (conj eq_refl
           (ensureCursorVisible_idempotent afterResize
              (setScrollOffset 1 afterResize) Hc eq_refl))).
Defined.

Lemma help_overlay_is_modal_witness :
  searchMode (setShowHelp true threeEndpoints) = false ∧
  showHelp (setShowHelp true threeEndpoints) = true ∧
  ∃ m', Update (setShowHelp true threeEndpoints) (KeyMsg "ctrl+c") (at_ 0)
        = Some (m', cmdNil) ∧
        m' = setShowHelp false (setShowHelp true threeEndpoints).
Proof.
  exact (conj eq_refl (conj eq_refl
           (help_overlay_is_modal (setShowHelp true threeEndpoints) "ctrl+c"
              (at_ 0) eq_refl eq_refl))).
Defined.

Lemma other_key_does_not_supersede_gesture_witness :
  run threeEndpoints [key "j" 0; key "j" 0; key "g" (ms 1000)] = Some pressedOnce ∧
  Update pressedOnce (KeyMsg "k") (at_ (ms 1100))
  = Some (setScrollOffset 0 (setCursor 1 pressedOnce), cmdNil) ∧
  Time_Sub (ms 1200) (lastKeyAt pressedOnce) < keySequenceThreshold ∧
  lastKey (setScrollOffset 0 (setCursor 1 pressedOnce)) = "g" ∧
  lastKeyAt (setScrollOffset 0 (setCursor 1 pressedOnce)) = ms 1000 ∧
  ∃ m2, Update (setScrollOffset 0 (setCursor 1 pressedOnce)) (KeyMsg "g")
               (at_ (ms 1200)) = Some (m2, cmdNil) ∧
        cursor m2 = 0 ∧ scrollOffset m2 = 0 ∧ lastKey m2 = "".
Proof.
  assert (KeyMsg "k" ≠ KeyMsg "g") as Hne by discriminate.
  assert (Time_Sub (ms 1200) (lastKeyAt pressedOnce) < keySequenceThreshold)
    as Ht by reflexivity.
  refine (conj _ (conj eq_refl (conj Ht
            (other_key_does_not_supersede_gesture pressedOnce
               (setScrollOffset 0 (setCursor 1 pressedOnce)) (KeyMsg "k") cmdNil
               (at_ (ms 1100)) (at_ (ms 1200))
               eq_refl Hne eq_refl eq_refl eq_refl Ht)))).
  vm_compute. reflexivity.
Defined.

End CoverageExamples.
